(** * A shallow embedding of the stream state machines

    The development embeds the writable stream ([lib/writable-stream.ts]),
    the readable stream with its default controller and default reader
    ([lib/readable-stream.ts], [lib/readable-stream/default-controller.ts],
    [lib/readable-stream/default-reader.ts]) and the transform stream
    (the [TransformStream] part of
    [lib/byte-length-queuing-strategy.ts]) as functions over an explicit [World]: the
    promises, the registered promise reactions, the log of calls into user
    code, and one object of each class.

    Conventions.
    - A JavaScript number is a binary64 [float]; [any] is [Value].
    - A promise is an index into [heap]; [resolve]/[reject] closures are the
      index of the promise they settle.
    - A function of the source becomes a computation in the monad [M]:
      it returns normally, throws a JavaScript exception (the world reached
      so far is kept, as [try]/[catch] needs it), or fails an [assert].
    - User callbacks are opaque: calling one is logged in [calls] and yields
      a promise that the environment settles later ([EvSettle]).  A callback
      does not call back into the stream synchronously; what user code does
      to a stream is a separate [Event].
    - Callbacks handed to [uponPromise]/[transformPromiseWith] are
      defunctionalised as [Reaction]s and run by [react]. *)

From Stdlib Require Import PrimFloat.
From stdpp Require Import base option list strings.

Local Open Scope string_scope.
Local Open Scope list_scope.

(** ** Values, promises *)

(** Objects are known by their index in the list that holds them. *)
Abbreviation PromiseId := nat (only parsing).
Abbreviation WriterId := nat (only parsing).
Abbreviation ReaderId := nat (only parsing).

Inductive Value :=
| undefined
| JSNumber (n : float)
| JSString (s : string)
| TypeError (message : string)
| RangeError (message : string)
| JSObject (id : nat)
| ReadResult (value : Value) (done : bool) (forAuthorCode : bool).

Inductive PromiseState :=
| Pending
| Fulfilled (value : Value)
| Rejected (reason : Value).

Record Promise := {
  PromiseState_of : PromiseState;
  PromiseIsHandled : bool
}.

(** ** Queue entries, algorithms *)

Record QueuePair (T : Type) := { value : T; size : float }.
Arguments value {T} _.
Arguments size {T} _.

(** [type QueueRecord<W> = WriteRecord<W> | 'close'] *)
Inductive QueueRecord :=
| WriteRecord (chunk : Value)
| close_sentinel.

(** What a call of the strategy's size function does: return or throw. *)
Inductive SizeResult :=
| SizeReturn (n : float)
| SizeThrow (e : Value).

Definition SizeAlgorithm := Value -> SizeResult.

(** What sits in an algorithm slot of a controller.  The slot itself is an
    [option]: [None] is the [undefined!] that [ClearAlgorithms] stores. *)
Inductive Algorithm :=
| UnderlyingMethod
| NoUnderlyingMethod
| TransformStreamAlgorithm.

(** The calls an algorithm slot can receive. *)
Inductive UserCall :=
| call_start
| call_write (chunk : Value)
| call_close
| call_abort (reason : Value)
| call_pull
| call_cancel (reason : Value)
| call_transform (chunk : Value)
| call_flush.

(** ** States *)

Inductive WritableStreamState := Wwritable | Wclosed | Werroring | Werrored.
Inductive ReadableStreamState := Rreadable | Rclosed | Rerrored.
Inductive ClosedPromiseState := closed_pending | closed_resolved | closed_rejected.
Inductive ReadyPromiseState := ready_pending | ready_fulfilled | ready_rejected.

Global Instance WritableStreamState_eq_dec : EqDecision WritableStreamState.
Proof. solve_decision. Defined.
Global Instance ReadableStreamState_eq_dec : EqDecision ReadableStreamState.
Proof. solve_decision. Defined.
Global Instance ClosedPromiseState_eq_dec : EqDecision ClosedPromiseState.
Proof. solve_decision. Defined.
Global Instance ReadyPromiseState_eq_dec : EqDecision ReadyPromiseState.
Proof. solve_decision. Defined.

(** ** Objects *)

Record PendingAbortRequest := {
  par_promise : PromiseId;
  par_reason : Value;
  par_wasAlreadyErroring : bool
}.

Definition set_par_promise (v : PromiseId) (x : PendingAbortRequest) : PendingAbortRequest :=
  {| par_promise := v; par_reason := par_reason x; par_wasAlreadyErroring := par_wasAlreadyErroring x |}.
Definition set_par_reason (v : Value) (x : PendingAbortRequest) : PendingAbortRequest :=
  {| par_promise := par_promise x; par_reason := v; par_wasAlreadyErroring := par_wasAlreadyErroring x |}.
Definition set_par_wasAlreadyErroring (v : bool) (x : PendingAbortRequest) : PendingAbortRequest :=
  {| par_promise := par_promise x; par_reason := par_reason x; par_wasAlreadyErroring := v |}.

(** The callbacks the source hands to [uponPromise] and
    [transformPromiseWith], one constructor per call site.  A reaction made
    by [transformPromiseWith] carries the promise it returns. *)
Inductive Reaction :=
| WStart
| WSinkWrite
| WSinkClose
| WSinkAbort (abortRequest : PendingAbortRequest)
| RStart
| RPull
| RCancel (derived : PromiseId)
| TBackpressureChange (chunk : Value) (derived : PromiseId)
| TPerformTransform (derived : PromiseId)
| TFlush (derived : PromiseId)
| Adopt (derived : PromiseId).

Record WritableStream := {
  ws_state : WritableStreamState;
  ws_storedError : Value;
  ws_writer : option WriterId;
  ws_writeRequests : list PromiseId;
  ws_inFlightWriteRequest : option PromiseId;
  ws_closeRequest : option PromiseId;
  ws_inFlightCloseRequest : option PromiseId;
  ws_pendingAbortRequest : option PendingAbortRequest;
  ws_backpressure : bool
}.

Definition set_ws_state (v : WritableStreamState) (x : WritableStream) : WritableStream :=
  {| ws_state := v; ws_storedError := ws_storedError x; ws_writer := ws_writer x; ws_writeRequests := ws_writeRequests x; ws_inFlightWriteRequest := ws_inFlightWriteRequest x; ws_closeRequest := ws_closeRequest x; ws_inFlightCloseRequest := ws_inFlightCloseRequest x; ws_pendingAbortRequest := ws_pendingAbortRequest x; ws_backpressure := ws_backpressure x |}.
Definition set_ws_storedError (v : Value) (x : WritableStream) : WritableStream :=
  {| ws_state := ws_state x; ws_storedError := v; ws_writer := ws_writer x; ws_writeRequests := ws_writeRequests x; ws_inFlightWriteRequest := ws_inFlightWriteRequest x; ws_closeRequest := ws_closeRequest x; ws_inFlightCloseRequest := ws_inFlightCloseRequest x; ws_pendingAbortRequest := ws_pendingAbortRequest x; ws_backpressure := ws_backpressure x |}.
Definition set_ws_writer (v : option WriterId) (x : WritableStream) : WritableStream :=
  {| ws_state := ws_state x; ws_storedError := ws_storedError x; ws_writer := v; ws_writeRequests := ws_writeRequests x; ws_inFlightWriteRequest := ws_inFlightWriteRequest x; ws_closeRequest := ws_closeRequest x; ws_inFlightCloseRequest := ws_inFlightCloseRequest x; ws_pendingAbortRequest := ws_pendingAbortRequest x; ws_backpressure := ws_backpressure x |}.
Definition set_ws_writeRequests (v : list PromiseId) (x : WritableStream) : WritableStream :=
  {| ws_state := ws_state x; ws_storedError := ws_storedError x; ws_writer := ws_writer x; ws_writeRequests := v; ws_inFlightWriteRequest := ws_inFlightWriteRequest x; ws_closeRequest := ws_closeRequest x; ws_inFlightCloseRequest := ws_inFlightCloseRequest x; ws_pendingAbortRequest := ws_pendingAbortRequest x; ws_backpressure := ws_backpressure x |}.
Definition set_ws_inFlightWriteRequest (v : option PromiseId) (x : WritableStream) : WritableStream :=
  {| ws_state := ws_state x; ws_storedError := ws_storedError x; ws_writer := ws_writer x; ws_writeRequests := ws_writeRequests x; ws_inFlightWriteRequest := v; ws_closeRequest := ws_closeRequest x; ws_inFlightCloseRequest := ws_inFlightCloseRequest x; ws_pendingAbortRequest := ws_pendingAbortRequest x; ws_backpressure := ws_backpressure x |}.
Definition set_ws_closeRequest (v : option PromiseId) (x : WritableStream) : WritableStream :=
  {| ws_state := ws_state x; ws_storedError := ws_storedError x; ws_writer := ws_writer x; ws_writeRequests := ws_writeRequests x; ws_inFlightWriteRequest := ws_inFlightWriteRequest x; ws_closeRequest := v; ws_inFlightCloseRequest := ws_inFlightCloseRequest x; ws_pendingAbortRequest := ws_pendingAbortRequest x; ws_backpressure := ws_backpressure x |}.
Definition set_ws_inFlightCloseRequest (v : option PromiseId) (x : WritableStream) : WritableStream :=
  {| ws_state := ws_state x; ws_storedError := ws_storedError x; ws_writer := ws_writer x; ws_writeRequests := ws_writeRequests x; ws_inFlightWriteRequest := ws_inFlightWriteRequest x; ws_closeRequest := ws_closeRequest x; ws_inFlightCloseRequest := v; ws_pendingAbortRequest := ws_pendingAbortRequest x; ws_backpressure := ws_backpressure x |}.
Definition set_ws_pendingAbortRequest (v : option PendingAbortRequest) (x : WritableStream) : WritableStream :=
  {| ws_state := ws_state x; ws_storedError := ws_storedError x; ws_writer := ws_writer x; ws_writeRequests := ws_writeRequests x; ws_inFlightWriteRequest := ws_inFlightWriteRequest x; ws_closeRequest := ws_closeRequest x; ws_inFlightCloseRequest := ws_inFlightCloseRequest x; ws_pendingAbortRequest := v; ws_backpressure := ws_backpressure x |}.
Definition set_ws_backpressure (v : bool) (x : WritableStream) : WritableStream :=
  {| ws_state := ws_state x; ws_storedError := ws_storedError x; ws_writer := ws_writer x; ws_writeRequests := ws_writeRequests x; ws_inFlightWriteRequest := ws_inFlightWriteRequest x; ws_closeRequest := ws_closeRequest x; ws_inFlightCloseRequest := ws_inFlightCloseRequest x; ws_pendingAbortRequest := ws_pendingAbortRequest x; ws_backpressure := v |}.

Record WritableStreamDefaultController := {
  wc_queue : list (QueuePair QueueRecord);
  wc_queueTotalSize : float;
  wc_started : bool;
  wc_strategySizeAlgorithm : option SizeAlgorithm;
  wc_strategyHWM : float;
  wc_writeAlgorithm : option Algorithm;
  wc_closeAlgorithm : option Algorithm;
  wc_abortAlgorithm : option Algorithm
}.

Definition set_wc_queue (v : list (QueuePair QueueRecord)) (x : WritableStreamDefaultController) : WritableStreamDefaultController :=
  {| wc_queue := v; wc_queueTotalSize := wc_queueTotalSize x; wc_started := wc_started x; wc_strategySizeAlgorithm := wc_strategySizeAlgorithm x; wc_strategyHWM := wc_strategyHWM x; wc_writeAlgorithm := wc_writeAlgorithm x; wc_closeAlgorithm := wc_closeAlgorithm x; wc_abortAlgorithm := wc_abortAlgorithm x |}.
Definition set_wc_queueTotalSize (v : float) (x : WritableStreamDefaultController) : WritableStreamDefaultController :=
  {| wc_queue := wc_queue x; wc_queueTotalSize := v; wc_started := wc_started x; wc_strategySizeAlgorithm := wc_strategySizeAlgorithm x; wc_strategyHWM := wc_strategyHWM x; wc_writeAlgorithm := wc_writeAlgorithm x; wc_closeAlgorithm := wc_closeAlgorithm x; wc_abortAlgorithm := wc_abortAlgorithm x |}.
Definition set_wc_started (v : bool) (x : WritableStreamDefaultController) : WritableStreamDefaultController :=
  {| wc_queue := wc_queue x; wc_queueTotalSize := wc_queueTotalSize x; wc_started := v; wc_strategySizeAlgorithm := wc_strategySizeAlgorithm x; wc_strategyHWM := wc_strategyHWM x; wc_writeAlgorithm := wc_writeAlgorithm x; wc_closeAlgorithm := wc_closeAlgorithm x; wc_abortAlgorithm := wc_abortAlgorithm x |}.
Definition set_wc_strategySizeAlgorithm (v : option SizeAlgorithm) (x : WritableStreamDefaultController) : WritableStreamDefaultController :=
  {| wc_queue := wc_queue x; wc_queueTotalSize := wc_queueTotalSize x; wc_started := wc_started x; wc_strategySizeAlgorithm := v; wc_strategyHWM := wc_strategyHWM x; wc_writeAlgorithm := wc_writeAlgorithm x; wc_closeAlgorithm := wc_closeAlgorithm x; wc_abortAlgorithm := wc_abortAlgorithm x |}.
Definition set_wc_strategyHWM (v : float) (x : WritableStreamDefaultController) : WritableStreamDefaultController :=
  {| wc_queue := wc_queue x; wc_queueTotalSize := wc_queueTotalSize x; wc_started := wc_started x; wc_strategySizeAlgorithm := wc_strategySizeAlgorithm x; wc_strategyHWM := v; wc_writeAlgorithm := wc_writeAlgorithm x; wc_closeAlgorithm := wc_closeAlgorithm x; wc_abortAlgorithm := wc_abortAlgorithm x |}.
Definition set_wc_writeAlgorithm (v : option Algorithm) (x : WritableStreamDefaultController) : WritableStreamDefaultController :=
  {| wc_queue := wc_queue x; wc_queueTotalSize := wc_queueTotalSize x; wc_started := wc_started x; wc_strategySizeAlgorithm := wc_strategySizeAlgorithm x; wc_strategyHWM := wc_strategyHWM x; wc_writeAlgorithm := v; wc_closeAlgorithm := wc_closeAlgorithm x; wc_abortAlgorithm := wc_abortAlgorithm x |}.
Definition set_wc_closeAlgorithm (v : option Algorithm) (x : WritableStreamDefaultController) : WritableStreamDefaultController :=
  {| wc_queue := wc_queue x; wc_queueTotalSize := wc_queueTotalSize x; wc_started := wc_started x; wc_strategySizeAlgorithm := wc_strategySizeAlgorithm x; wc_strategyHWM := wc_strategyHWM x; wc_writeAlgorithm := wc_writeAlgorithm x; wc_closeAlgorithm := v; wc_abortAlgorithm := wc_abortAlgorithm x |}.
Definition set_wc_abortAlgorithm (v : option Algorithm) (x : WritableStreamDefaultController) : WritableStreamDefaultController :=
  {| wc_queue := wc_queue x; wc_queueTotalSize := wc_queueTotalSize x; wc_started := wc_started x; wc_strategySizeAlgorithm := wc_strategySizeAlgorithm x; wc_strategyHWM := wc_strategyHWM x; wc_writeAlgorithm := wc_writeAlgorithm x; wc_closeAlgorithm := wc_closeAlgorithm x; wc_abortAlgorithm := v |}.

Record WritableStreamDefaultWriter := {
  wr_ownerWritableStream : bool;
  wr_closedPromise : PromiseId;
  wr_closedPromise_resolve : option PromiseId;
  wr_closedPromise_reject : option PromiseId;
  wr_closedPromiseState : ClosedPromiseState;
  wr_readyPromise : PromiseId;
  wr_readyPromise_resolve : option PromiseId;
  wr_readyPromise_reject : option PromiseId;
  wr_readyPromiseState : ReadyPromiseState
}.

Definition set_wr_ownerWritableStream (v : bool) (x : WritableStreamDefaultWriter) : WritableStreamDefaultWriter :=
  {| wr_ownerWritableStream := v; wr_closedPromise := wr_closedPromise x; wr_closedPromise_resolve := wr_closedPromise_resolve x; wr_closedPromise_reject := wr_closedPromise_reject x; wr_closedPromiseState := wr_closedPromiseState x; wr_readyPromise := wr_readyPromise x; wr_readyPromise_resolve := wr_readyPromise_resolve x; wr_readyPromise_reject := wr_readyPromise_reject x; wr_readyPromiseState := wr_readyPromiseState x |}.
Definition set_wr_closedPromise (v : PromiseId) (x : WritableStreamDefaultWriter) : WritableStreamDefaultWriter :=
  {| wr_ownerWritableStream := wr_ownerWritableStream x; wr_closedPromise := v; wr_closedPromise_resolve := wr_closedPromise_resolve x; wr_closedPromise_reject := wr_closedPromise_reject x; wr_closedPromiseState := wr_closedPromiseState x; wr_readyPromise := wr_readyPromise x; wr_readyPromise_resolve := wr_readyPromise_resolve x; wr_readyPromise_reject := wr_readyPromise_reject x; wr_readyPromiseState := wr_readyPromiseState x |}.
Definition set_wr_closedPromise_resolve (v : option PromiseId) (x : WritableStreamDefaultWriter) : WritableStreamDefaultWriter :=
  {| wr_ownerWritableStream := wr_ownerWritableStream x; wr_closedPromise := wr_closedPromise x; wr_closedPromise_resolve := v; wr_closedPromise_reject := wr_closedPromise_reject x; wr_closedPromiseState := wr_closedPromiseState x; wr_readyPromise := wr_readyPromise x; wr_readyPromise_resolve := wr_readyPromise_resolve x; wr_readyPromise_reject := wr_readyPromise_reject x; wr_readyPromiseState := wr_readyPromiseState x |}.
Definition set_wr_closedPromise_reject (v : option PromiseId) (x : WritableStreamDefaultWriter) : WritableStreamDefaultWriter :=
  {| wr_ownerWritableStream := wr_ownerWritableStream x; wr_closedPromise := wr_closedPromise x; wr_closedPromise_resolve := wr_closedPromise_resolve x; wr_closedPromise_reject := v; wr_closedPromiseState := wr_closedPromiseState x; wr_readyPromise := wr_readyPromise x; wr_readyPromise_resolve := wr_readyPromise_resolve x; wr_readyPromise_reject := wr_readyPromise_reject x; wr_readyPromiseState := wr_readyPromiseState x |}.
Definition set_wr_closedPromiseState (v : ClosedPromiseState) (x : WritableStreamDefaultWriter) : WritableStreamDefaultWriter :=
  {| wr_ownerWritableStream := wr_ownerWritableStream x; wr_closedPromise := wr_closedPromise x; wr_closedPromise_resolve := wr_closedPromise_resolve x; wr_closedPromise_reject := wr_closedPromise_reject x; wr_closedPromiseState := v; wr_readyPromise := wr_readyPromise x; wr_readyPromise_resolve := wr_readyPromise_resolve x; wr_readyPromise_reject := wr_readyPromise_reject x; wr_readyPromiseState := wr_readyPromiseState x |}.
Definition set_wr_readyPromise (v : PromiseId) (x : WritableStreamDefaultWriter) : WritableStreamDefaultWriter :=
  {| wr_ownerWritableStream := wr_ownerWritableStream x; wr_closedPromise := wr_closedPromise x; wr_closedPromise_resolve := wr_closedPromise_resolve x; wr_closedPromise_reject := wr_closedPromise_reject x; wr_closedPromiseState := wr_closedPromiseState x; wr_readyPromise := v; wr_readyPromise_resolve := wr_readyPromise_resolve x; wr_readyPromise_reject := wr_readyPromise_reject x; wr_readyPromiseState := wr_readyPromiseState x |}.
Definition set_wr_readyPromise_resolve (v : option PromiseId) (x : WritableStreamDefaultWriter) : WritableStreamDefaultWriter :=
  {| wr_ownerWritableStream := wr_ownerWritableStream x; wr_closedPromise := wr_closedPromise x; wr_closedPromise_resolve := wr_closedPromise_resolve x; wr_closedPromise_reject := wr_closedPromise_reject x; wr_closedPromiseState := wr_closedPromiseState x; wr_readyPromise := wr_readyPromise x; wr_readyPromise_resolve := v; wr_readyPromise_reject := wr_readyPromise_reject x; wr_readyPromiseState := wr_readyPromiseState x |}.
Definition set_wr_readyPromise_reject (v : option PromiseId) (x : WritableStreamDefaultWriter) : WritableStreamDefaultWriter :=
  {| wr_ownerWritableStream := wr_ownerWritableStream x; wr_closedPromise := wr_closedPromise x; wr_closedPromise_resolve := wr_closedPromise_resolve x; wr_closedPromise_reject := wr_closedPromise_reject x; wr_closedPromiseState := wr_closedPromiseState x; wr_readyPromise := wr_readyPromise x; wr_readyPromise_resolve := wr_readyPromise_resolve x; wr_readyPromise_reject := v; wr_readyPromiseState := wr_readyPromiseState x |}.
Definition set_wr_readyPromiseState (v : ReadyPromiseState) (x : WritableStreamDefaultWriter) : WritableStreamDefaultWriter :=
  {| wr_ownerWritableStream := wr_ownerWritableStream x; wr_closedPromise := wr_closedPromise x; wr_closedPromise_resolve := wr_closedPromise_resolve x; wr_closedPromise_reject := wr_closedPromise_reject x; wr_closedPromiseState := wr_closedPromiseState x; wr_readyPromise := wr_readyPromise x; wr_readyPromise_resolve := wr_readyPromise_resolve x; wr_readyPromise_reject := wr_readyPromise_reject x; wr_readyPromiseState := v |}.

Record ReadableStream := {
  rs_state : ReadableStreamState;
  rs_reader : option ReaderId;
  rs_storedError : Value;
  rs_disturbed : bool
}.

Definition set_rs_state (v : ReadableStreamState) (x : ReadableStream) : ReadableStream :=
  {| rs_state := v; rs_reader := rs_reader x; rs_storedError := rs_storedError x; rs_disturbed := rs_disturbed x |}.
Definition set_rs_reader (v : option ReaderId) (x : ReadableStream) : ReadableStream :=
  {| rs_state := rs_state x; rs_reader := v; rs_storedError := rs_storedError x; rs_disturbed := rs_disturbed x |}.
Definition set_rs_storedError (v : Value) (x : ReadableStream) : ReadableStream :=
  {| rs_state := rs_state x; rs_reader := rs_reader x; rs_storedError := v; rs_disturbed := rs_disturbed x |}.
Definition set_rs_disturbed (v : bool) (x : ReadableStream) : ReadableStream :=
  {| rs_state := rs_state x; rs_reader := rs_reader x; rs_storedError := rs_storedError x; rs_disturbed := v |}.

Record ReadableStreamDefaultController := {
  rc_queue : list (QueuePair Value);
  rc_queueTotalSize : float;
  rc_started : bool;
  rc_closeRequested : bool;
  rc_pullAgain : bool;
  rc_pulling : bool;
  rc_strategySizeAlgorithm : option SizeAlgorithm;
  rc_strategyHWM : float;
  rc_pullAlgorithm : option Algorithm;
  rc_cancelAlgorithm : option Algorithm
}.

Definition set_rc_queue (v : list (QueuePair Value)) (x : ReadableStreamDefaultController) : ReadableStreamDefaultController :=
  {| rc_queue := v; rc_queueTotalSize := rc_queueTotalSize x; rc_started := rc_started x; rc_closeRequested := rc_closeRequested x; rc_pullAgain := rc_pullAgain x; rc_pulling := rc_pulling x; rc_strategySizeAlgorithm := rc_strategySizeAlgorithm x; rc_strategyHWM := rc_strategyHWM x; rc_pullAlgorithm := rc_pullAlgorithm x; rc_cancelAlgorithm := rc_cancelAlgorithm x |}.
Definition set_rc_queueTotalSize (v : float) (x : ReadableStreamDefaultController) : ReadableStreamDefaultController :=
  {| rc_queue := rc_queue x; rc_queueTotalSize := v; rc_started := rc_started x; rc_closeRequested := rc_closeRequested x; rc_pullAgain := rc_pullAgain x; rc_pulling := rc_pulling x; rc_strategySizeAlgorithm := rc_strategySizeAlgorithm x; rc_strategyHWM := rc_strategyHWM x; rc_pullAlgorithm := rc_pullAlgorithm x; rc_cancelAlgorithm := rc_cancelAlgorithm x |}.
Definition set_rc_started (v : bool) (x : ReadableStreamDefaultController) : ReadableStreamDefaultController :=
  {| rc_queue := rc_queue x; rc_queueTotalSize := rc_queueTotalSize x; rc_started := v; rc_closeRequested := rc_closeRequested x; rc_pullAgain := rc_pullAgain x; rc_pulling := rc_pulling x; rc_strategySizeAlgorithm := rc_strategySizeAlgorithm x; rc_strategyHWM := rc_strategyHWM x; rc_pullAlgorithm := rc_pullAlgorithm x; rc_cancelAlgorithm := rc_cancelAlgorithm x |}.
Definition set_rc_closeRequested (v : bool) (x : ReadableStreamDefaultController) : ReadableStreamDefaultController :=
  {| rc_queue := rc_queue x; rc_queueTotalSize := rc_queueTotalSize x; rc_started := rc_started x; rc_closeRequested := v; rc_pullAgain := rc_pullAgain x; rc_pulling := rc_pulling x; rc_strategySizeAlgorithm := rc_strategySizeAlgorithm x; rc_strategyHWM := rc_strategyHWM x; rc_pullAlgorithm := rc_pullAlgorithm x; rc_cancelAlgorithm := rc_cancelAlgorithm x |}.
Definition set_rc_pullAgain (v : bool) (x : ReadableStreamDefaultController) : ReadableStreamDefaultController :=
  {| rc_queue := rc_queue x; rc_queueTotalSize := rc_queueTotalSize x; rc_started := rc_started x; rc_closeRequested := rc_closeRequested x; rc_pullAgain := v; rc_pulling := rc_pulling x; rc_strategySizeAlgorithm := rc_strategySizeAlgorithm x; rc_strategyHWM := rc_strategyHWM x; rc_pullAlgorithm := rc_pullAlgorithm x; rc_cancelAlgorithm := rc_cancelAlgorithm x |}.
Definition set_rc_pulling (v : bool) (x : ReadableStreamDefaultController) : ReadableStreamDefaultController :=
  {| rc_queue := rc_queue x; rc_queueTotalSize := rc_queueTotalSize x; rc_started := rc_started x; rc_closeRequested := rc_closeRequested x; rc_pullAgain := rc_pullAgain x; rc_pulling := v; rc_strategySizeAlgorithm := rc_strategySizeAlgorithm x; rc_strategyHWM := rc_strategyHWM x; rc_pullAlgorithm := rc_pullAlgorithm x; rc_cancelAlgorithm := rc_cancelAlgorithm x |}.
Definition set_rc_strategySizeAlgorithm (v : option SizeAlgorithm) (x : ReadableStreamDefaultController) : ReadableStreamDefaultController :=
  {| rc_queue := rc_queue x; rc_queueTotalSize := rc_queueTotalSize x; rc_started := rc_started x; rc_closeRequested := rc_closeRequested x; rc_pullAgain := rc_pullAgain x; rc_pulling := rc_pulling x; rc_strategySizeAlgorithm := v; rc_strategyHWM := rc_strategyHWM x; rc_pullAlgorithm := rc_pullAlgorithm x; rc_cancelAlgorithm := rc_cancelAlgorithm x |}.
Definition set_rc_strategyHWM (v : float) (x : ReadableStreamDefaultController) : ReadableStreamDefaultController :=
  {| rc_queue := rc_queue x; rc_queueTotalSize := rc_queueTotalSize x; rc_started := rc_started x; rc_closeRequested := rc_closeRequested x; rc_pullAgain := rc_pullAgain x; rc_pulling := rc_pulling x; rc_strategySizeAlgorithm := rc_strategySizeAlgorithm x; rc_strategyHWM := v; rc_pullAlgorithm := rc_pullAlgorithm x; rc_cancelAlgorithm := rc_cancelAlgorithm x |}.
Definition set_rc_pullAlgorithm (v : option Algorithm) (x : ReadableStreamDefaultController) : ReadableStreamDefaultController :=
  {| rc_queue := rc_queue x; rc_queueTotalSize := rc_queueTotalSize x; rc_started := rc_started x; rc_closeRequested := rc_closeRequested x; rc_pullAgain := rc_pullAgain x; rc_pulling := rc_pulling x; rc_strategySizeAlgorithm := rc_strategySizeAlgorithm x; rc_strategyHWM := rc_strategyHWM x; rc_pullAlgorithm := v; rc_cancelAlgorithm := rc_cancelAlgorithm x |}.
Definition set_rc_cancelAlgorithm (v : option Algorithm) (x : ReadableStreamDefaultController) : ReadableStreamDefaultController :=
  {| rc_queue := rc_queue x; rc_queueTotalSize := rc_queueTotalSize x; rc_started := rc_started x; rc_closeRequested := rc_closeRequested x; rc_pullAgain := rc_pullAgain x; rc_pulling := rc_pulling x; rc_strategySizeAlgorithm := rc_strategySizeAlgorithm x; rc_strategyHWM := rc_strategyHWM x; rc_pullAlgorithm := rc_pullAlgorithm x; rc_cancelAlgorithm := v |}.

Record ReadableStreamDefaultReader := {
  rd_forAuthorCode : bool;
  rd_ownerReadableStream : bool;
  rd_closedPromise : PromiseId;
  rd_closedPromise_resolve : option PromiseId;
  rd_closedPromise_reject : option PromiseId;
  rd_readRequests : list PromiseId
}.

Definition set_rd_forAuthorCode (v : bool) (x : ReadableStreamDefaultReader) : ReadableStreamDefaultReader :=
  {| rd_forAuthorCode := v; rd_ownerReadableStream := rd_ownerReadableStream x; rd_closedPromise := rd_closedPromise x; rd_closedPromise_resolve := rd_closedPromise_resolve x; rd_closedPromise_reject := rd_closedPromise_reject x; rd_readRequests := rd_readRequests x |}.
Definition set_rd_ownerReadableStream (v : bool) (x : ReadableStreamDefaultReader) : ReadableStreamDefaultReader :=
  {| rd_forAuthorCode := rd_forAuthorCode x; rd_ownerReadableStream := v; rd_closedPromise := rd_closedPromise x; rd_closedPromise_resolve := rd_closedPromise_resolve x; rd_closedPromise_reject := rd_closedPromise_reject x; rd_readRequests := rd_readRequests x |}.
Definition set_rd_closedPromise (v : PromiseId) (x : ReadableStreamDefaultReader) : ReadableStreamDefaultReader :=
  {| rd_forAuthorCode := rd_forAuthorCode x; rd_ownerReadableStream := rd_ownerReadableStream x; rd_closedPromise := v; rd_closedPromise_resolve := rd_closedPromise_resolve x; rd_closedPromise_reject := rd_closedPromise_reject x; rd_readRequests := rd_readRequests x |}.
Definition set_rd_closedPromise_resolve (v : option PromiseId) (x : ReadableStreamDefaultReader) : ReadableStreamDefaultReader :=
  {| rd_forAuthorCode := rd_forAuthorCode x; rd_ownerReadableStream := rd_ownerReadableStream x; rd_closedPromise := rd_closedPromise x; rd_closedPromise_resolve := v; rd_closedPromise_reject := rd_closedPromise_reject x; rd_readRequests := rd_readRequests x |}.
Definition set_rd_closedPromise_reject (v : option PromiseId) (x : ReadableStreamDefaultReader) : ReadableStreamDefaultReader :=
  {| rd_forAuthorCode := rd_forAuthorCode x; rd_ownerReadableStream := rd_ownerReadableStream x; rd_closedPromise := rd_closedPromise x; rd_closedPromise_resolve := rd_closedPromise_resolve x; rd_closedPromise_reject := v; rd_readRequests := rd_readRequests x |}.
Definition set_rd_readRequests (v : list PromiseId) (x : ReadableStreamDefaultReader) : ReadableStreamDefaultReader :=
  {| rd_forAuthorCode := rd_forAuthorCode x; rd_ownerReadableStream := rd_ownerReadableStream x; rd_closedPromise := rd_closedPromise x; rd_closedPromise_resolve := rd_closedPromise_resolve x; rd_closedPromise_reject := rd_closedPromise_reject x; rd_readRequests := v |}.

Record TransformStream := {
  ts_backpressure : option bool;
  ts_backpressureChangePromise : option PromiseId;
  ts_backpressureChangePromise_resolve : option PromiseId
}.

Definition set_ts_backpressure (v : option bool) (x : TransformStream) : TransformStream :=
  {| ts_backpressure := v; ts_backpressureChangePromise := ts_backpressureChangePromise x; ts_backpressureChangePromise_resolve := ts_backpressureChangePromise_resolve x |}.
Definition set_ts_backpressureChangePromise (v : option PromiseId) (x : TransformStream) : TransformStream :=
  {| ts_backpressure := ts_backpressure x; ts_backpressureChangePromise := v; ts_backpressureChangePromise_resolve := ts_backpressureChangePromise_resolve x |}.
Definition set_ts_backpressureChangePromise_resolve (v : option PromiseId) (x : TransformStream) : TransformStream :=
  {| ts_backpressure := ts_backpressure x; ts_backpressureChangePromise := ts_backpressureChangePromise x; ts_backpressureChangePromise_resolve := v |}.

Record TransformStreamDefaultController := {
  tc_transformAlgorithm : option Algorithm;
  tc_flushAlgorithm : option Algorithm
}.

Definition set_tc_transformAlgorithm (v : option Algorithm) (x : TransformStreamDefaultController) : TransformStreamDefaultController :=
  {| tc_transformAlgorithm := v; tc_flushAlgorithm := tc_flushAlgorithm x |}.
Definition set_tc_flushAlgorithm (v : option Algorithm) (x : TransformStreamDefaultController) : TransformStreamDefaultController :=
  {| tc_transformAlgorithm := tc_transformAlgorithm x; tc_flushAlgorithm := v |}.

Record World := {
  heap : list Promise;
  reactions : list (PromiseId * Reaction);
  calls : list (UserCall * PromiseId);
  ws : WritableStream;
  wc : WritableStreamDefaultController;
  writers : list WritableStreamDefaultWriter;
  rs : ReadableStream;
  rc : ReadableStreamDefaultController;
  readers : list ReadableStreamDefaultReader;
  ts : TransformStream;
  tc : TransformStreamDefaultController
}.

Definition set_heap (v : list Promise) (x : World) : World :=
  {| heap := v; reactions := reactions x; calls := calls x; ws := ws x; wc := wc x; writers := writers x; rs := rs x; rc := rc x; readers := readers x; ts := ts x; tc := tc x |}.
Definition set_reactions (v : list (PromiseId * Reaction)) (x : World) : World :=
  {| heap := heap x; reactions := v; calls := calls x; ws := ws x; wc := wc x; writers := writers x; rs := rs x; rc := rc x; readers := readers x; ts := ts x; tc := tc x |}.
Definition set_calls (v : list (UserCall * PromiseId)) (x : World) : World :=
  {| heap := heap x; reactions := reactions x; calls := v; ws := ws x; wc := wc x; writers := writers x; rs := rs x; rc := rc x; readers := readers x; ts := ts x; tc := tc x |}.
Definition set_ws (v : WritableStream) (x : World) : World :=
  {| heap := heap x; reactions := reactions x; calls := calls x; ws := v; wc := wc x; writers := writers x; rs := rs x; rc := rc x; readers := readers x; ts := ts x; tc := tc x |}.
Definition set_wc (v : WritableStreamDefaultController) (x : World) : World :=
  {| heap := heap x; reactions := reactions x; calls := calls x; ws := ws x; wc := v; writers := writers x; rs := rs x; rc := rc x; readers := readers x; ts := ts x; tc := tc x |}.
Definition set_writers (v : list WritableStreamDefaultWriter) (x : World) : World :=
  {| heap := heap x; reactions := reactions x; calls := calls x; ws := ws x; wc := wc x; writers := v; rs := rs x; rc := rc x; readers := readers x; ts := ts x; tc := tc x |}.
Definition set_rs (v : ReadableStream) (x : World) : World :=
  {| heap := heap x; reactions := reactions x; calls := calls x; ws := ws x; wc := wc x; writers := writers x; rs := v; rc := rc x; readers := readers x; ts := ts x; tc := tc x |}.
Definition set_rc (v : ReadableStreamDefaultController) (x : World) : World :=
  {| heap := heap x; reactions := reactions x; calls := calls x; ws := ws x; wc := wc x; writers := writers x; rs := rs x; rc := v; readers := readers x; ts := ts x; tc := tc x |}.
Definition set_readers (v : list ReadableStreamDefaultReader) (x : World) : World :=
  {| heap := heap x; reactions := reactions x; calls := calls x; ws := ws x; wc := wc x; writers := writers x; rs := rs x; rc := rc x; readers := v; ts := ts x; tc := tc x |}.
Definition set_ts (v : TransformStream) (x : World) : World :=
  {| heap := heap x; reactions := reactions x; calls := calls x; ws := ws x; wc := wc x; writers := writers x; rs := rs x; rc := rc x; readers := readers x; ts := v; tc := tc x |}.
Definition set_tc (v : TransformStreamDefaultController) (x : World) : World :=
  {| heap := heap x; reactions := reactions x; calls := calls x; ws := ws x; wc := wc x; writers := writers x; rs := rs x; rc := rc x; readers := readers x; ts := ts x; tc := v |}.

Definition upd_ws (f : WritableStream -> WritableStream) (w : World) : World :=
  set_ws (f (ws w)) w.
Definition upd_wc (f : WritableStreamDefaultController -> WritableStreamDefaultController)
    (w : World) : World :=
  set_wc (f (wc w)) w.
Definition upd_rs (f : ReadableStream -> ReadableStream) (w : World) : World :=
  set_rs (f (rs w)) w.
Definition upd_rc (f : ReadableStreamDefaultController -> ReadableStreamDefaultController)
    (w : World) : World :=
  set_rc (f (rc w)) w.
Definition upd_ts (f : TransformStream -> TransformStream) (w : World) : World :=
  set_ts (f (ts w)) w.
Definition upd_tc (f : TransformStreamDefaultController -> TransformStreamDefaultController)
    (w : World) : World :=
  set_tc (f (tc w)) w.
Definition upd_writer (writer : WriterId)
    (f : WritableStreamDefaultWriter -> WritableStreamDefaultWriter) (w : World) : World :=
  set_writers (alter f writer (writers w)) w.
Definition upd_reader (reader : ReaderId)
    (f : ReadableStreamDefaultReader -> ReadableStreamDefaultReader) (w : World) : World :=
  set_readers (alter f reader (readers w)) w.

(** ** The monad of stream code *)

Inductive Outcome (A : Type) :=
| Normal (a : A) (w : World)
| Throw (e : Value) (w : World)
| AssertionFailed.
Arguments Normal {A} a w.
Arguments Throw {A} e w.
Arguments AssertionFailed {A}.

Definition M (A : Type) := World -> Outcome A.

Definition ret {A} (a : A) : M A := fun w => Normal a w.

Definition bind {A B} (m : M A) (f : A -> M B) : M B :=
  fun w =>
    match m w with
    | Normal a w' => f a w'
    | Throw e w' => Throw e w'
    | AssertionFailed => AssertionFailed
    end.

Notation "'let*' x ':=' m 'in' k" := (bind m (fun x => k))
  (at level 10, x name, m at level 100, k at level 200,
   format "'[v' 'let*'  x  ':='  m  'in'  '/' k ']'").
Notation "m ';;' k" := (bind m (fun _ => k))
  (at level 100, k at level 200, right associativity,
   format "'[v' m  ';;'  '/' k ']'").

Definition throw {A} (e : Value) : M A := fun w => Throw e w.

(** [try { m } catch (e) { handler e }] *)
Definition try_catch {A} (m : M A) (handler : Value -> M A) : M A :=
  fun w =>
    match m w with
    | Throw e w' => handler e w'
    | o => o
    end.

Definition gets {A} (f : World -> A) : M A := fun w => Normal (f w) w.
Definition modify (f : World -> World) : M unit := fun w => Normal tt (f w).
Definition when (b : bool) (m : M unit) : M unit := if b then m else ret tt.

Fixpoint forEach {A} (l : list A) (f : A -> M unit) : M unit :=
  match l with
  | [] => ret tt
  | x :: l' => f x ;; forEach l' f
  end.

(** Modelled from the spec: [assert] of [stub/assert], which is not among
    the sources.  The spec (§4.F) words the checks as "Assert ...": a check
    that fails stops the operation. *)
Definition assert (b : bool) : M unit :=
  fun w => if b then Normal tt w else AssertionFailed.

(** A reference to an object of the world; the source's types exclude a
    dangling one. *)
Definition the_writer (writer : WriterId) : M WritableStreamDefaultWriter :=
  fun w =>
    match writers w !! writer with
    | Some x => Normal x w
    | None => AssertionFailed
    end.
Definition the_reader (reader : ReaderId) : M ReadableStreamDefaultReader :=
  fun w =>
    match readers w !! reader with
    | Some x => Normal x w
    | None => AssertionFailed
    end.

(** [v === undefined] *)
Definition is_undefined (v : Value) : bool :=
  match v with
  | undefined => true
  | _ => false
  end.

(** Calling a function-valued slot that holds [undefined]. *)
Definition not_a_function {A} (name : string) : M A :=
  throw (TypeError (String.append name " is not a function")).

(** ** The settlement primitive

    [lib/helpers.ts] is not among the sources; these follow §4.B. *)

(** Modelled from the spec: [newPromise] of [lib/helpers.ts].  "Creation
    returns (handle, resolve, reject)": the fresh promise is pending, and its
    index stands for the handle and for both closures. *)
Definition newPromise : M PromiseId :=
  fun w =>
    Normal (length (heap w))
           (set_heap (heap w ++ [{| PromiseState_of := Pending; PromiseIsHandled := false |}]) w).

Definition promise_state (w : World) (p : PromiseId) : option PromiseState :=
  PromiseState_of <$> heap w !! p.

(** Modelled from the spec: the [resolve]/[reject] closures of a promise.
    "Resolve/reject are idempotent-ignored after first call." *)
Definition settle_cell (s : PromiseState) (c : Promise) : Promise :=
  match PromiseState_of c with
  | Pending => {| PromiseState_of := s; PromiseIsHandled := PromiseIsHandled c |}
  | _ => c
  end.

Definition settle (p : PromiseId) (s : PromiseState) : M unit :=
  modify (fun w => set_heap (alter (settle_cell s) p (heap w)) w).

Definition resolvePromise (p : PromiseId) (v : Value) : M unit := settle p (Fulfilled v).
Definition rejectPromise (p : PromiseId) (r : Value) : M unit := settle p (Rejected r).

(** Modelled from the spec: [promiseResolvedWith] of [lib/helpers.ts]. *)
Definition promiseResolvedWith (v : Value) : M PromiseId :=
  let* p := newPromise in
  resolvePromise p v ;;
  ret p.

(** Modelled from the spec: [promiseRejectedWith] of [lib/helpers.ts]. *)
Definition promiseRejectedWith (r : Value) : M PromiseId :=
  let* p := newPromise in
  rejectPromise p r ;;
  ret p.

(** Modelled from the spec: [setPromiseIsHandledToTrue] of [lib/helpers.ts],
    the "mark-handled side-channel". *)
Definition setPromiseIsHandledToTrue (p : PromiseId) : M unit :=
  modify (fun w =>
    set_heap (alter (fun c => {| PromiseState_of := PromiseState_of c;
                                 PromiseIsHandled := true |}) p (heap w)) w).

(** Modelled from the spec: [uponPromise] of [lib/helpers.ts].  "Observers
    attach functions": the reaction is registered on the promise and runs in
    a later step, once the promise is settled. *)
Definition uponPromise (p : PromiseId) (r : Reaction) : M unit :=
  modify (fun w => set_reactions (reactions w ++ [(p, r)]) w).

(** Modelled from the spec: [transformPromiseWith] of [lib/helpers.ts]: the
    promise it returns is settled by the outcome of the reaction. *)
Definition transformPromiseWith (p : PromiseId) (r : PromiseId -> Reaction) : M PromiseId :=
  let* derived := newPromise in
  uponPromise p (r derived) ;;
  ret derived.

(** ** The sized queue

    [lib/queue-with-sizes.ts] is not among the sources; these follow §4.A. *)

(** Modelled from the spec: the range check of [EnqueueValueWithSize],
    "size ≥ 0 ∧ size < ∞". *)
Definition IsFiniteNonNegativeNumber (v : float) : bool :=
  (0 <=? v)%float && (v <? infinity)%float.

(** Modelled from the spec: [EnqueueValueWithSize] of
    [lib/queue-with-sizes.ts]: "violation fails with a range error". *)
Definition EnqueueValueWithSize {T} (queue : list (QueuePair T)) (total : float)
    (v : T) (sz : float) : Value + (list (QueuePair T) * float) :=
  if IsFiniteNonNegativeNumber sz
  then inr (queue ++ [{| value := v; size := sz |}], (total + sz)%float)
  else inl (RangeError "Size must be a finite, non-NaN, non-negative number.").

(** Modelled from the spec: [DequeueValue] of [lib/queue-with-sizes.ts]:
    "returns the head and decreases total"; "when length becomes 0, total is
    snapped to 0". *)
Definition DequeueValue {T} (queue : list (QueuePair T)) (total : float)
    : option (T * list (QueuePair T) * float) :=
  match queue with
  | [] => None
  | first :: rest =>
      Some (value first, rest,
            match rest with
            | [] => 0%float
            | _ => (total - size first)%float
            end)
  end.

(** Modelled from the spec: [PeekQueueValue] of [lib/queue-with-sizes.ts]. *)
Definition PeekQueueValue {T} (queue : list (QueuePair T)) : option T :=
  value <$> head queue.

(** Calling the strategy's size function. *)
Definition call_strategySizeAlgorithm (f : option SizeAlgorithm) (chunk : Value) : M float :=
  match f with
  | None => not_a_function "controller._strategySizeAlgorithm"
  | Some g =>
      match g chunk with
      | SizeReturn n => ret n
      | SizeThrow e => throw e
      end
  end.

(** ** Algorithm slots *)

Definition defined {A} (x : option A) : bool :=
  match x with
  | Some _ => true
  | None => false
  end.

Section Streams.

(** The algorithms that [InitializeTransformStream] installs in the two
    sides of a transform stream call functions that are defined after the
    streams they are installed in; [transformStreamAlgorithm] stands for
    them until then. *)
Variable transformStreamAlgorithm : UserCall -> M PromiseId.

(** Modelled from the spec: [CreateAlgorithmFromUnderlyingMethod] of
    [lib/helpers.ts]: "callbacks wrapped as algorithms".  A missing method
    gives a promise resolved with [undefined]; a call of a method of the user
    is logged and its promise is settled by the environment. *)
Definition invoke (algorithm : option Algorithm) (name : string) (c : UserCall) : M PromiseId :=
  match algorithm with
  | None => not_a_function name
  | Some UnderlyingMethod =>
      let* p := newPromise in
      modify (fun w => set_calls (calls w ++ [(c, p)]) w) ;;
      ret p
  | Some NoUnderlyingMethod => promiseResolvedWith undefined
  | Some TransformStreamAlgorithm => transformStreamAlgorithm c
  end.

(** ** [lib/writable-stream.ts] *)

(** *** Helper functions for the WritableStreamDefaultWriter *)

Definition streamBrandCheckException_W (name : string) : Value :=
  TypeError (String.append "WritableStream.prototype."
              (String.append name " can only be used on a WritableStream")).

Definition defaultWriterBrandCheckException (name : string) : Value :=
  TypeError (String.append "WritableStreamDefaultWriter.prototype."
              (String.append name " can only be used on a WritableStreamDefaultWriter")).

Definition defaultWriterLockException (name : string) : Value :=
  TypeError (String.append "Cannot "
              (String.append name " a stream using a released writer")).

Definition defaultWriterClosedPromiseInitialize (writer : WriterId) : M unit :=
  let* p := newPromise in
  modify (upd_writer writer (fun x =>
    set_wr_closedPromiseState closed_pending
      (set_wr_closedPromise_reject (Some p)
        (set_wr_closedPromise_resolve (Some p)
          (set_wr_closedPromise p x))))).

Definition defaultWriterClosedPromiseReject (writer : WriterId) (reason : Value) : M unit :=
  let* x := the_writer writer in
  assert (defined (wr_closedPromise_resolve x)) ;;
  assert (defined (wr_closedPromise_reject x)) ;;
  assert (bool_decide (wr_closedPromiseState x = closed_pending)) ;;
  setPromiseIsHandledToTrue (wr_closedPromise x) ;;
  match wr_closedPromise_reject x with
  | Some p => rejectPromise p reason
  | None => not_a_function "writer._closedPromise_reject"
  end ;;
  modify (upd_writer writer (fun x =>
    set_wr_closedPromiseState closed_rejected
      (set_wr_closedPromise_reject None
        (set_wr_closedPromise_resolve None x)))).

Definition defaultWriterClosedPromiseInitializeAsRejected (writer : WriterId) (reason : Value)
    : M unit :=
  defaultWriterClosedPromiseInitialize writer ;;
  defaultWriterClosedPromiseReject writer reason.

Definition defaultWriterClosedPromiseResetToRejected (writer : WriterId) (reason : Value)
    : M unit :=
  let* x := the_writer writer in
  assert (negb (defined (wr_closedPromise_resolve x))) ;;
  assert (negb (defined (wr_closedPromise_reject x))) ;;
  assert (negb (bool_decide (wr_closedPromiseState x = closed_pending))) ;;
  defaultWriterClosedPromiseInitializeAsRejected writer reason.

Definition defaultWriterClosedPromiseResolve (writer : WriterId) : M unit :=
  let* x := the_writer writer in
  assert (defined (wr_closedPromise_resolve x)) ;;
  assert (defined (wr_closedPromise_reject x)) ;;
  assert (bool_decide (wr_closedPromiseState x = closed_pending)) ;;
  match wr_closedPromise_resolve x with
  | Some p => resolvePromise p undefined
  | None => not_a_function "writer._closedPromise_resolve"
  end ;;
  modify (upd_writer writer (fun x =>
    set_wr_closedPromiseState closed_resolved
      (set_wr_closedPromise_reject None
        (set_wr_closedPromise_resolve None x)))).

Definition defaultWriterClosedPromiseInitializeAsResolved (writer : WriterId) : M unit :=
  defaultWriterClosedPromiseInitialize writer ;;
  defaultWriterClosedPromiseResolve writer.

Definition defaultWriterReadyPromiseInitialize (writer : WriterId) : M unit :=
  let* p := newPromise in
  modify (upd_writer writer (fun x =>
    set_wr_readyPromiseState ready_pending
      (set_wr_readyPromise_reject (Some p)
        (set_wr_readyPromise_resolve (Some p)
          (set_wr_readyPromise p x))))).

Definition defaultWriterReadyPromiseReject (writer : WriterId) (reason : Value) : M unit :=
  let* x := the_writer writer in
  assert (defined (wr_readyPromise_resolve x)) ;;
  assert (defined (wr_readyPromise_reject x)) ;;
  setPromiseIsHandledToTrue (wr_readyPromise x) ;;
  match wr_readyPromise_reject x with
  | Some p => rejectPromise p reason
  | None => not_a_function "writer._readyPromise_reject"
  end ;;
  modify (upd_writer writer (fun x =>
    set_wr_readyPromiseState ready_rejected
      (set_wr_readyPromise_reject None
        (set_wr_readyPromise_resolve None x)))).

Definition defaultWriterReadyPromiseInitializeAsRejected (writer : WriterId) (reason : Value)
    : M unit :=
  defaultWriterReadyPromiseInitialize writer ;;
  defaultWriterReadyPromiseReject writer reason.

Definition defaultWriterReadyPromiseResolve (writer : WriterId) : M unit :=
  let* x := the_writer writer in
  assert (defined (wr_readyPromise_resolve x)) ;;
  assert (defined (wr_readyPromise_reject x)) ;;
  match wr_readyPromise_resolve x with
  | Some p => resolvePromise p undefined
  | None => not_a_function "writer._readyPromise_resolve"
  end ;;
  modify (upd_writer writer (fun x =>
    set_wr_readyPromiseState ready_fulfilled
      (set_wr_readyPromise_reject None
        (set_wr_readyPromise_resolve None x)))).

Definition defaultWriterReadyPromiseInitializeAsResolved (writer : WriterId) : M unit :=
  defaultWriterReadyPromiseInitialize writer ;;
  defaultWriterReadyPromiseResolve writer.

Definition defaultWriterReadyPromiseReset (writer : WriterId) : M unit :=
  let* x := the_writer writer in
  assert (negb (defined (wr_readyPromise_resolve x))) ;;
  assert (negb (defined (wr_readyPromise_reject x))) ;;
  defaultWriterReadyPromiseInitialize writer.

Definition defaultWriterReadyPromiseResetToRejected (writer : WriterId) (reason : Value)
    : M unit :=
  let* x := the_writer writer in
  assert (negb (defined (wr_readyPromise_resolve x))) ;;
  assert (negb (defined (wr_readyPromise_reject x))) ;;
  defaultWriterReadyPromiseInitializeAsRejected writer reason.

(** *** Abstract operations for the WritableStream *)

Definition IsWritableStreamLocked (w : World) : bool :=
  defined (ws_writer (ws w)).

Definition WritableStreamCloseQueuedOrInFlight (w : World) : bool :=
  negb (negb (defined (ws_closeRequest (ws w)))
        && negb (defined (ws_inFlightCloseRequest (ws w)))).

Definition WritableStreamHasOperationMarkedInFlight (w : World) : bool :=
  negb (negb (defined (ws_inFlightWriteRequest (ws w)))
        && negb (defined (ws_inFlightCloseRequest (ws w)))).

Definition WritableStreamDefaultWriterEnsureClosedPromiseRejected (writer : WriterId)
    (error : Value) : M unit :=
  let* x := the_writer writer in
  if bool_decide (wr_closedPromiseState x = closed_pending)
  then defaultWriterClosedPromiseReject writer error
  else defaultWriterClosedPromiseResetToRejected writer error.

Definition WritableStreamDefaultWriterEnsureReadyPromiseRejected (writer : WriterId)
    (error : Value) : M unit :=
  let* x := the_writer writer in
  if bool_decide (wr_readyPromiseState x = ready_pending)
  then defaultWriterReadyPromiseReject writer error
  else defaultWriterReadyPromiseResetToRejected writer error.

Definition WritableStreamRejectCloseAndClosedPromiseIfNeeded : M unit :=
  let* stream := gets ws in
  assert (bool_decide (ws_state stream = Werrored)) ;;
  match ws_closeRequest stream with
  | Some closeRequest =>
      assert (negb (defined (ws_inFlightCloseRequest stream))) ;;
      rejectPromise closeRequest (ws_storedError stream) ;;
      modify (upd_ws (set_ws_closeRequest None))
  | None => ret tt
  end ;;
  let* stream := gets ws in
  match ws_writer stream with
  | Some writer => defaultWriterClosedPromiseReject writer (ws_storedError stream)
  | None => ret tt
  end.

(** ClearAlgorithms may be called twice. *)
Definition WritableStreamDefaultControllerClearAlgorithms : M unit :=
  modify (upd_wc (fun c =>
    set_wc_strategySizeAlgorithm None
      (set_wc_abortAlgorithm None
        (set_wc_closeAlgorithm None
          (set_wc_writeAlgorithm None c))))).

(** [[AbortSteps]] of the controller *)
Definition WritableStreamDefaultController_AbortSteps (reason : Value) : M PromiseId :=
  let* algorithm := gets (fun w => wc_abortAlgorithm (wc w)) in
  let* result := invoke algorithm "this._abortAlgorithm" (call_abort reason) in
  WritableStreamDefaultControllerClearAlgorithms ;;
  ret result.

(** [[ErrorSteps]] of the controller: [ResetQueue(this)] (§4.A: "reset()
    empties the queue and sets total to 0"). *)
Definition WritableStreamDefaultController_ErrorSteps : M unit :=
  modify (upd_wc (fun c => set_wc_queueTotalSize 0%float (set_wc_queue [] c))).

Definition WritableStreamFinishErroring : M unit :=
  let* state := gets (fun w => ws_state (ws w)) in
  assert (bool_decide (state = Werroring)) ;;
  let* inflight := gets WritableStreamHasOperationMarkedInFlight in
  assert (negb inflight) ;;
  modify (upd_ws (set_ws_state Werrored)) ;;
  WritableStreamDefaultController_ErrorSteps ;;
  let* storedError := gets (fun w => ws_storedError (ws w)) in
  let* writeRequests := gets (fun w => ws_writeRequests (ws w)) in
  forEach writeRequests (fun writeRequest => rejectPromise writeRequest storedError) ;;
  modify (upd_ws (set_ws_writeRequests [])) ;;
  let* pending := gets (fun w => ws_pendingAbortRequest (ws w)) in
  match pending with
  | None => WritableStreamRejectCloseAndClosedPromiseIfNeeded
  | Some abortRequest =>
      modify (upd_ws (set_ws_pendingAbortRequest None)) ;;
      if par_wasAlreadyErroring abortRequest
      then
        rejectPromise (par_promise abortRequest) storedError ;;
        WritableStreamRejectCloseAndClosedPromiseIfNeeded
      else
        let* promise := WritableStreamDefaultController_AbortSteps (par_reason abortRequest) in
        uponPromise promise (WSinkAbort abortRequest)
  end.

Definition WritableStreamStartErroring (reason : Value) : M unit :=
  let* stream := gets ws in
  assert (is_undefined (ws_storedError stream)) ;;
  assert (bool_decide (ws_state stream = Wwritable)) ;;
  modify (upd_ws (set_ws_state Werroring)) ;;
  modify (upd_ws (set_ws_storedError reason)) ;;
  match ws_writer stream with
  | Some writer => WritableStreamDefaultWriterEnsureReadyPromiseRejected writer reason
  | None => ret tt
  end ;;
  let* inflight := gets WritableStreamHasOperationMarkedInFlight in
  let* started := gets (fun w => wc_started (wc w)) in
  when (negb inflight && started) WritableStreamFinishErroring.

Definition WritableStreamDealWithRejection (error : Value) : M unit :=
  let* state := gets (fun w => ws_state (ws w)) in
  if bool_decide (state = Wwritable)
  then WritableStreamStartErroring error
  else
    assert (bool_decide (state = Werroring)) ;;
    WritableStreamFinishErroring.

Definition WritableStreamFinishInFlightWrite : M unit :=
  let* request := gets (fun w => ws_inFlightWriteRequest (ws w)) in
  assert (defined request) ;;
  match request with
  | Some p => resolvePromise p undefined
  | None => not_a_function "stream._inFlightWriteRequest._resolve"
  end ;;
  modify (upd_ws (set_ws_inFlightWriteRequest None)).

Definition WritableStreamFinishInFlightWriteWithError (error : Value) : M unit :=
  let* request := gets (fun w => ws_inFlightWriteRequest (ws w)) in
  assert (defined request) ;;
  match request with
  | Some p => rejectPromise p error
  | None => not_a_function "stream._inFlightWriteRequest._reject"
  end ;;
  modify (upd_ws (set_ws_inFlightWriteRequest None)) ;;
  let* state := gets (fun w => ws_state (ws w)) in
  assert (bool_decide (state = Wwritable) || bool_decide (state = Werroring)) ;;
  WritableStreamDealWithRejection error.

Definition WritableStreamFinishInFlightClose : M unit :=
  let* request := gets (fun w => ws_inFlightCloseRequest (ws w)) in
  assert (defined request) ;;
  match request with
  | Some p => resolvePromise p undefined
  | None => not_a_function "stream._inFlightCloseRequest._resolve"
  end ;;
  modify (upd_ws (set_ws_inFlightCloseRequest None)) ;;
  let* state := gets (fun w => ws_state (ws w)) in
  assert (bool_decide (state = Wwritable) || bool_decide (state = Werroring)) ;;
  when (bool_decide (state = Werroring)) (
    (* The error was too late to do anything, so it is ignored. *)
    modify (upd_ws (set_ws_storedError undefined)) ;;
    let* pending := gets (fun w => ws_pendingAbortRequest (ws w)) in
    match pending with
    | Some abortRequest =>
        resolvePromise (par_promise abortRequest) undefined ;;
        modify (upd_ws (set_ws_pendingAbortRequest None))
    | None => ret tt
    end) ;;
  modify (upd_ws (set_ws_state Wclosed)) ;;
  let* writer := gets (fun w => ws_writer (ws w)) in
  match writer with
  | Some writer => defaultWriterClosedPromiseResolve writer
  | None => ret tt
  end ;;
  let* stream := gets ws in
  assert (negb (defined (ws_pendingAbortRequest stream))) ;;
  assert (is_undefined (ws_storedError stream)).

Definition WritableStreamFinishInFlightCloseWithError (error : Value) : M unit :=
  let* request := gets (fun w => ws_inFlightCloseRequest (ws w)) in
  assert (defined request) ;;
  match request with
  | Some p => rejectPromise p error
  | None => not_a_function "stream._inFlightCloseRequest._reject"
  end ;;
  modify (upd_ws (set_ws_inFlightCloseRequest None)) ;;
  let* state := gets (fun w => ws_state (ws w)) in
  assert (bool_decide (state = Wwritable) || bool_decide (state = Werroring)) ;;
  (* Never execute sink abort() after sink close(). *)
  let* pending := gets (fun w => ws_pendingAbortRequest (ws w)) in
  match pending with
  | Some abortRequest =>
      rejectPromise (par_promise abortRequest) error ;;
      modify (upd_ws (set_ws_pendingAbortRequest None))
  | None => ret tt
  end ;;
  WritableStreamDealWithRejection error.

Definition WritableStreamMarkCloseRequestInFlight : M unit :=
  let* stream := gets ws in
  assert (negb (defined (ws_inFlightCloseRequest stream))) ;;
  assert (defined (ws_closeRequest stream)) ;;
  modify (upd_ws (fun s =>
    set_ws_closeRequest None (set_ws_inFlightCloseRequest (ws_closeRequest s) s))).

Definition WritableStreamMarkFirstWriteRequestInFlight : M unit :=
  let* stream := gets ws in
  assert (negb (defined (ws_inFlightWriteRequest stream))) ;;
  assert (negb (bool_decide (length (ws_writeRequests stream) = 0))) ;;
  modify (upd_ws (fun s =>
    set_ws_writeRequests (tail (ws_writeRequests s))
      (set_ws_inFlightWriteRequest (head (ws_writeRequests s)) s))).

Definition WritableStreamUpdateBackpressure (backpressure : bool) : M unit :=
  let* stream := gets ws in
  assert (bool_decide (ws_state stream = Wwritable)) ;;
  let* closing := gets WritableStreamCloseQueuedOrInFlight in
  assert (negb closing) ;;
  match ws_writer stream with
  | Some writer =>
      when (negb (eqb backpressure (ws_backpressure stream))) (
        if backpressure
        then defaultWriterReadyPromiseReset writer
        else defaultWriterReadyPromiseResolve writer)
  | None => ret tt
  end ;;
  modify (upd_ws (set_ws_backpressure backpressure)).

(** *** Abstract operations for the WritableStreamDefaultController *)

Definition WritableStreamDefaultControllerGetDesiredSize (w : World) : float :=
  (wc_strategyHWM (wc w) - wc_queueTotalSize (wc w))%float.

Definition WritableStreamDefaultControllerGetBackpressure (w : World) : bool :=
  (WritableStreamDefaultControllerGetDesiredSize w <=? 0)%float.

Definition WritableStreamDefaultControllerError (error : Value) : M unit :=
  let* state := gets (fun w => ws_state (ws w)) in
  assert (bool_decide (state = Wwritable)) ;;
  WritableStreamDefaultControllerClearAlgorithms ;;
  WritableStreamStartErroring error.

Definition WritableStreamDefaultControllerErrorIfNeeded (error : Value) : M unit :=
  let* state := gets (fun w => ws_state (ws w)) in
  when (bool_decide (state = Wwritable)) (WritableStreamDefaultControllerError error).

(** [EnqueueValueWithSize(controller, record, size)] on the controller's
    queue: it throws the range error or stores the new queue and total. *)
Definition WritableStreamDefaultController_EnqueueValueWithSize (record : QueueRecord)
    (sz : float) : M unit :=
  let* c := gets wc in
  match EnqueueValueWithSize (wc_queue c) (wc_queueTotalSize c) record sz with
  | inl e => throw e
  | inr (queue, total) =>
      modify (upd_wc (fun c => set_wc_queueTotalSize total (set_wc_queue queue c)))
  end.

Definition WritableStreamDefaultController_DequeueValue : M QueueRecord :=
  let* c := gets wc in
  match DequeueValue (wc_queue c) (wc_queueTotalSize c) with
  | None => fun _ => AssertionFailed
  | Some (record, queue, total) =>
      modify (upd_wc (fun c => set_wc_queueTotalSize total (set_wc_queue queue c))) ;;
      ret record
  end.

Definition WritableStreamDefaultControllerProcessClose : M unit :=
  WritableStreamMarkCloseRequestInFlight ;;
  let* _ := WritableStreamDefaultController_DequeueValue in
  let* queue := gets (fun w => wc_queue (wc w)) in
  assert (bool_decide (length queue = 0)) ;;
  let* algorithm := gets (fun w => wc_closeAlgorithm (wc w)) in
  let* sinkClosePromise := invoke algorithm "controller._closeAlgorithm" call_close in
  WritableStreamDefaultControllerClearAlgorithms ;;
  uponPromise sinkClosePromise WSinkClose.

Definition WritableStreamDefaultControllerProcessWrite (chunk : Value) : M unit :=
  WritableStreamMarkFirstWriteRequestInFlight ;;
  let* algorithm := gets (fun w => wc_writeAlgorithm (wc w)) in
  let* sinkWritePromise := invoke algorithm "controller._writeAlgorithm" (call_write chunk) in
  uponPromise sinkWritePromise WSinkWrite.

Definition WritableStreamDefaultControllerAdvanceQueueIfNeeded : M unit :=
  let* started := gets (fun w => wc_started (wc w)) in
  if negb started then ret tt else
  let* inFlightWriteRequest := gets (fun w => ws_inFlightWriteRequest (ws w)) in
  if defined inFlightWriteRequest then ret tt else
  let* state := gets (fun w => ws_state (ws w)) in
  assert (negb (bool_decide (state = Wclosed)) && negb (bool_decide (state = Werrored))) ;;
  if bool_decide (state = Werroring) then WritableStreamFinishErroring else
  let* queue := gets (fun w => wc_queue (wc w)) in
  if bool_decide (length queue = 0) then ret tt else
  match PeekQueueValue queue with
  | None => fun _ => AssertionFailed
  | Some close_sentinel => WritableStreamDefaultControllerProcessClose
  | Some (WriteRecord chunk) => WritableStreamDefaultControllerProcessWrite chunk
  end.

Definition WritableStreamDefaultControllerClose : M unit :=
  WritableStreamDefaultController_EnqueueValueWithSize close_sentinel 0%float ;;
  WritableStreamDefaultControllerAdvanceQueueIfNeeded.

Definition WritableStreamDefaultControllerGetChunkSize (chunk : Value) : M float :=
  try_catch
    (let* algorithm := gets (fun w => wc_strategySizeAlgorithm (wc w)) in
     call_strategySizeAlgorithm algorithm chunk)
    (fun chunkSizeE =>
       WritableStreamDefaultControllerErrorIfNeeded chunkSizeE ;;
       ret 1%float).

Definition WritableStreamDefaultControllerWrite (chunk : Value) (chunkSize : float) : M unit :=
  let writeRecord := WriteRecord chunk in
  let* enqueued :=
    try_catch
      (WritableStreamDefaultController_EnqueueValueWithSize writeRecord chunkSize ;;
       ret true)
      (fun enqueueE =>
         WritableStreamDefaultControllerErrorIfNeeded enqueueE ;;
         ret false) in
  if negb enqueued then ret tt else
  let* closing := gets WritableStreamCloseQueuedOrInFlight in
  let* state := gets (fun w => ws_state (ws w)) in
  when (negb closing && bool_decide (state = Wwritable)) (
    let* backpressure := gets WritableStreamDefaultControllerGetBackpressure in
    WritableStreamUpdateBackpressure backpressure) ;;
  WritableStreamDefaultControllerAdvanceQueueIfNeeded.

(** *** WritableStream API exposed for controllers, abort and close *)

Definition WritableStreamAddWriteRequest : M PromiseId :=
  let* locked := gets IsWritableStreamLocked in
  assert locked ;;
  let* state := gets (fun w => ws_state (ws w)) in
  assert (bool_decide (state = Wwritable)) ;;
  let* promise := newPromise in
  modify (upd_ws (fun s => set_ws_writeRequests (ws_writeRequests s ++ [promise]) s)) ;;
  ret promise.

Definition WritableStreamAbort (reason : Value) : M PromiseId :=
  let* state := gets (fun w => ws_state (ws w)) in
  if bool_decide (state = Wclosed) || bool_decide (state = Werrored)
  then promiseResolvedWith undefined
  else
    let* pending := gets (fun w => ws_pendingAbortRequest (ws w)) in
    match pending with
    | Some abortRequest => ret (par_promise abortRequest)
    | None =>
        assert (bool_decide (state = Wwritable) || bool_decide (state = Werroring)) ;;
        let wasAlreadyErroring := bool_decide (state = Werroring) in
        (* reason will not be used, so don't keep a reference to it. *)
        let reason := if wasAlreadyErroring then undefined else reason in
        let* promise := newPromise in
        modify (upd_ws (set_ws_pendingAbortRequest (Some
          {| par_promise := promise;
             par_reason := reason;
             par_wasAlreadyErroring := wasAlreadyErroring |}))) ;;
        when (negb wasAlreadyErroring) (WritableStreamStartErroring reason) ;;
        ret promise
    end.

Definition state_name (state : WritableStreamState) : string :=
  match state with
  | Wwritable => "writable"
  | Wclosed => "closed"
  | Werroring => "erroring"
  | Werrored => "errored"
  end.

Definition WritableStreamClose : M PromiseId :=
  let* state := gets (fun w => ws_state (ws w)) in
  if bool_decide (state = Wclosed) || bool_decide (state = Werrored)
  then
    promiseRejectedWith (TypeError (String.append "The stream (in "
      (String.append (state_name state)
         " state) is not in the writable state and cannot be closed")))
  else
    assert (bool_decide (state = Wwritable) || bool_decide (state = Werroring)) ;;
    let* closing := gets WritableStreamCloseQueuedOrInFlight in
    assert (negb closing) ;;
    let* promise := newPromise in
    modify (upd_ws (set_ws_closeRequest (Some promise))) ;;
    let* stream := gets ws in
    match ws_writer stream with
    | Some writer =>
        when (ws_backpressure stream && bool_decide (state = Wwritable))
             (defaultWriterReadyPromiseResolve writer)
    | None => ret tt
    end ;;
    WritableStreamDefaultControllerClose ;;
    ret promise.

(** *** Abstract operations for the WritableStreamDefaultWriter *)

Definition WritableStreamDefaultWriterAbort (writer : WriterId) (reason : Value)
    : M PromiseId :=
  let* x := the_writer writer in
  assert (wr_ownerWritableStream x) ;;
  WritableStreamAbort reason.

Definition WritableStreamDefaultWriterClose (writer : WriterId) : M PromiseId :=
  let* x := the_writer writer in
  assert (wr_ownerWritableStream x) ;;
  WritableStreamClose.

Definition WritableStreamDefaultWriterCloseWithErrorPropagation (writer : WriterId)
    : M PromiseId :=
  let* x := the_writer writer in
  assert (wr_ownerWritableStream x) ;;
  let* state := gets (fun w => ws_state (ws w)) in
  let* closing := gets WritableStreamCloseQueuedOrInFlight in
  if closing || bool_decide (state = Wclosed) then promiseResolvedWith undefined else
  if bool_decide (state = Werrored)
  then
    let* storedError := gets (fun w => ws_storedError (ws w)) in
    promiseRejectedWith storedError
  else
    assert (bool_decide (state = Wwritable) || bool_decide (state = Werroring)) ;;
    WritableStreamDefaultWriterClose writer.

Definition WritableStreamDefaultWriterGetDesiredSize (writer : WriterId)
    : M (option float) :=
  let* state := gets (fun w => ws_state (ws w)) in
  if bool_decide (state = Werrored) || bool_decide (state = Werroring) then ret None else
  if bool_decide (state = Wclosed) then ret (Some 0%float) else
  let* desiredSize := gets WritableStreamDefaultControllerGetDesiredSize in
  ret (Some desiredSize).

Definition WritableStreamDefaultWriterRelease (writer : WriterId) : M unit :=
  let* x := the_writer writer in
  assert (wr_ownerWritableStream x) ;;
  let* attached := gets (fun w => ws_writer (ws w)) in
  assert (bool_decide (attached = Some writer)) ;;
  let releasedError := TypeError
    "Writer was released and can no longer be used to monitor the stream's closedness" in
  WritableStreamDefaultWriterEnsureReadyPromiseRejected writer releasedError ;;
  (* The state transitions to "errored" before the sink abort() method runs,
     but the writer.closed promise is not rejected until afterwards. *)
  WritableStreamDefaultWriterEnsureClosedPromiseRejected writer releasedError ;;
  modify (upd_ws (set_ws_writer None)) ;;
  modify (upd_writer writer (set_wr_ownerWritableStream false)).

Definition WritableStreamDefaultWriterWrite (writer : WriterId) (chunk : Value)
    : M PromiseId :=
  let* x := the_writer writer in
  assert (wr_ownerWritableStream x) ;;
  let* chunkSize := WritableStreamDefaultControllerGetChunkSize chunk in
  let* x := the_writer writer in
  if negb (wr_ownerWritableStream x)
  then promiseRejectedWith (defaultWriterLockException "write to")
  else
    let* stream := gets ws in
    let state := ws_state stream in
    if bool_decide (state = Werrored) then promiseRejectedWith (ws_storedError stream) else
    let* closing := gets WritableStreamCloseQueuedOrInFlight in
    if closing || bool_decide (state = Wclosed)
    then promiseRejectedWith
           (TypeError "The stream is closing or closed and cannot be written to")
    else
    if bool_decide (state = Werroring) then promiseRejectedWith (ws_storedError stream) else
    assert (bool_decide (state = Wwritable)) ;;
    let* promise := WritableStreamAddWriteRequest in
    WritableStreamDefaultControllerWrite chunk chunkSize ;;
    ret promise.

(** *** class WritableStreamDefaultWriter *)

Definition blank_writer : WritableStreamDefaultWriter :=
  {| wr_ownerWritableStream := false;
     wr_closedPromise := 0; wr_closedPromise_resolve := None;
     wr_closedPromise_reject := None; wr_closedPromiseState := closed_pending;
     wr_readyPromise := 0; wr_readyPromise_resolve := None;
     wr_readyPromise_reject := None; wr_readyPromiseState := ready_pending |}.

(** [new WritableStreamDefaultWriter(stream)]; the new object is the next
    entry of [writers]. *)
Definition WritableStreamDefaultWriter_constructor : M WriterId :=
  let* locked := gets IsWritableStreamLocked in
  if locked
  then throw (TypeError
         "This stream has already been locked for exclusive writing by another writer")
  else
    let* this := gets (fun w => length (writers w)) in
    modify (fun w => set_writers (writers w ++ [blank_writer]) w) ;;
    modify (upd_writer this (set_wr_ownerWritableStream true)) ;;
    modify (upd_ws (set_ws_writer (Some this))) ;;
    let* stream := gets ws in
    match ws_state stream with
    | Wwritable =>
        let* closing := gets WritableStreamCloseQueuedOrInFlight in
        (if negb closing && ws_backpressure stream
         then defaultWriterReadyPromiseInitialize this
         else defaultWriterReadyPromiseInitializeAsResolved this) ;;
        defaultWriterClosedPromiseInitialize this
    | Werroring =>
        defaultWriterReadyPromiseInitializeAsRejected this (ws_storedError stream) ;;
        defaultWriterClosedPromiseInitialize this
    | Wclosed =>
        defaultWriterReadyPromiseInitializeAsResolved this ;;
        defaultWriterClosedPromiseInitializeAsResolved this
    | Werrored =>
        let storedError := ws_storedError stream in
        defaultWriterReadyPromiseInitializeAsRejected this storedError ;;
        defaultWriterClosedPromiseInitializeAsRejected this storedError
    end ;;
    ret this.

Definition AcquireWritableStreamDefaultWriter : M WriterId :=
  WritableStreamDefaultWriter_constructor.

(** The brand check of a writer method: [this] is a writer. *)
Definition IsWritableStreamDefaultWriter (w : World) (this : WriterId) : bool :=
  defined (writers w !! this).

Definition WritableStreamDefaultWriter_closed (this : WriterId) : M PromiseId :=
  let* brand := gets (fun w => IsWritableStreamDefaultWriter w this) in
  if negb brand then promiseRejectedWith (defaultWriterBrandCheckException "closed") else
  let* x := the_writer this in
  ret (wr_closedPromise x).

Definition WritableStreamDefaultWriter_desiredSize (this : WriterId) : M (option float) :=
  let* brand := gets (fun w => IsWritableStreamDefaultWriter w this) in
  if negb brand then throw (defaultWriterBrandCheckException "desiredSize") else
  let* x := the_writer this in
  if negb (wr_ownerWritableStream x) then throw (defaultWriterLockException "desiredSize") else
  WritableStreamDefaultWriterGetDesiredSize this.

Definition WritableStreamDefaultWriter_ready (this : WriterId) : M PromiseId :=
  let* brand := gets (fun w => IsWritableStreamDefaultWriter w this) in
  if negb brand then promiseRejectedWith (defaultWriterBrandCheckException "ready") else
  let* x := the_writer this in
  ret (wr_readyPromise x).

Definition WritableStreamDefaultWriter_abort (this : WriterId) (reason : Value)
    : M PromiseId :=
  let* brand := gets (fun w => IsWritableStreamDefaultWriter w this) in
  if negb brand then promiseRejectedWith (defaultWriterBrandCheckException "abort") else
  let* x := the_writer this in
  if negb (wr_ownerWritableStream x)
  then promiseRejectedWith (defaultWriterLockException "abort")
  else WritableStreamDefaultWriterAbort this reason.

Definition WritableStreamDefaultWriter_close (this : WriterId) : M PromiseId :=
  let* brand := gets (fun w => IsWritableStreamDefaultWriter w this) in
  if negb brand then promiseRejectedWith (defaultWriterBrandCheckException "close") else
  let* x := the_writer this in
  if negb (wr_ownerWritableStream x)
  then promiseRejectedWith (defaultWriterLockException "close")
  else
    let* closing := gets WritableStreamCloseQueuedOrInFlight in
    if closing
    then promiseRejectedWith (TypeError "Cannot close an already-closing stream")
    else WritableStreamDefaultWriterClose this.

Definition WritableStreamDefaultWriter_releaseLock (this : WriterId) : M unit :=
  let* brand := gets (fun w => IsWritableStreamDefaultWriter w this) in
  if negb brand then throw (defaultWriterBrandCheckException "releaseLock") else
  let* x := the_writer this in
  if negb (wr_ownerWritableStream x) then ret tt else
  let* locked := gets IsWritableStreamLocked in
  assert locked ;;
  WritableStreamDefaultWriterRelease this.

Definition WritableStreamDefaultWriter_write (this : WriterId) (chunk : Value)
    : M PromiseId :=
  let* brand := gets (fun w => IsWritableStreamDefaultWriter w this) in
  if negb brand then promiseRejectedWith (defaultWriterBrandCheckException "write") else
  let* x := the_writer this in
  if negb (wr_ownerWritableStream x)
  then promiseRejectedWith (defaultWriterLockException "write to")
  else WritableStreamDefaultWriterWrite this chunk.

(** *** class WritableStreamDefaultController *)

Definition WritableStreamDefaultController_error (e : Value) : M unit :=
  let* state := gets (fun w => ws_state (ws w)) in
  if negb (bool_decide (state = Wwritable))
  then
    (* The stream is closed, errored or will be soon. The sink can't do
       anything useful if it gets an error here, so just treat it as a no-op. *)
    ret tt
  else WritableStreamDefaultControllerError e.

(** *** Setting up a writable stream *)

Definition InitializeWritableStream : M unit :=
  modify (set_ws
    {| ws_state := Wwritable;
       ws_storedError := undefined;
       ws_writer := None;
       ws_writeRequests := [];
       ws_inFlightWriteRequest := None;
       ws_closeRequest := None;
       ws_inFlightCloseRequest := None;
       ws_pendingAbortRequest := None;
       ws_backpressure := false |}).

(** [startAlgorithm] yields the promise that
    [promiseResolvedWith(startAlgorithm())] denotes. *)
Definition SetUpWritableStreamDefaultController (startAlgorithm : M PromiseId)
    (writeAlgorithm closeAlgorithm abortAlgorithm : Algorithm)
    (highWaterMark : float) (sizeAlgorithm : SizeAlgorithm) : M unit :=
  modify (set_wc
    {| wc_queue := [];
       wc_queueTotalSize := 0%float;
       wc_started := false;
       wc_strategySizeAlgorithm := Some sizeAlgorithm;
       wc_strategyHWM := highWaterMark;
       wc_writeAlgorithm := Some writeAlgorithm;
       wc_closeAlgorithm := Some closeAlgorithm;
       wc_abortAlgorithm := Some abortAlgorithm |}) ;;
  let* backpressure := gets WritableStreamDefaultControllerGetBackpressure in
  WritableStreamUpdateBackpressure backpressure ;;
  let* startPromise := startAlgorithm in
  uponPromise startPromise WStart.

(** Modelled from the spec: [IsNonNegativeNumber] of [lib/helpers.ts]; §4.C:
    a high-water mark is "non-negative, not NaN". *)
Definition IsNonNegativeNumber (v : float) : bool := (0 <=? v)%float.

(** Throws if and only if startAlgorithm throws. *)
Definition CreateWritableStream (startAlgorithm : M PromiseId)
    (writeAlgorithm closeAlgorithm abortAlgorithm : Algorithm)
    (highWaterMark : float) (sizeAlgorithm : SizeAlgorithm) : M unit :=
  assert (IsNonNegativeNumber highWaterMark) ;;
  InitializeWritableStream ;;
  SetUpWritableStreamDefaultController startAlgorithm writeAlgorithm closeAlgorithm
    abortAlgorithm highWaterMark sizeAlgorithm.

(** Which methods an underlying sink, source or transformer has. *)
Definition method (present : bool) : Algorithm :=
  if present then UnderlyingMethod else NoUnderlyingMethod.

Record UnderlyingSink := {
  sink_start : bool;
  sink_write : bool;
  sink_close : bool;
  sink_abort : bool;
  sink_type : Value
}.

Record QueuingStrategy := {
  strategy_highWaterMark : option float;
  strategy_size : option SizeAlgorithm
}.

Definition SetUpWritableStreamDefaultControllerFromUnderlyingSink
    (underlyingSink : UnderlyingSink) (highWaterMark : float) (sizeAlgorithm : SizeAlgorithm)
    : M unit :=
  let startAlgorithm :=
    invoke (Some (method (sink_start underlyingSink))) "start" call_start in
  SetUpWritableStreamDefaultController startAlgorithm
    (method (sink_write underlyingSink)) (method (sink_close underlyingSink))
    (method (sink_abort underlyingSink)) highWaterMark sizeAlgorithm.

(** Modelled from the spec: [MakeSizeAlgorithmFromSizeFunction] of
    [lib/helpers.ts]; §4.C: "a size function (default 1)". *)
Definition MakeSizeAlgorithmFromSizeFunction (size : option SizeAlgorithm) : SizeAlgorithm :=
  match size with
  | Some f => f
  | None => fun _ => SizeReturn 1%float
  end.

(** Modelled from the spec: [ValidateAndNormalizeHighWaterMark] of
    [lib/helpers.ts]; §7: a range error when the "high-water mark is negative
    or NaN". *)
Definition ValidateAndNormalizeHighWaterMark (highWaterMark : float) : M float :=
  if IsNonNegativeNumber highWaterMark
  then ret highWaterMark
  else throw (RangeError "highWaterMark property of a queuing strategy must be non-negative and non-NaN").

(** [new WritableStream(underlyingSink, strategy)] *)
Definition WritableStream_constructor (underlyingSink : UnderlyingSink)
    (strategy : QueuingStrategy) : M unit :=
  InitializeWritableStream ;;
  if negb (is_undefined (sink_type underlyingSink))
  then throw (RangeError "Invalid type is specified")
  else
    let sizeAlgorithm := MakeSizeAlgorithmFromSizeFunction (strategy_size strategy) in
    let* highWaterMark :=
      ValidateAndNormalizeHighWaterMark (default 1%float (strategy_highWaterMark strategy)) in
    SetUpWritableStreamDefaultControllerFromUnderlyingSink underlyingSink highWaterMark
      sizeAlgorithm.

(** *** class WritableStream *)

Definition WritableStream_locked : M bool := gets IsWritableStreamLocked.

Definition WritableStream_abort (reason : Value) : M PromiseId :=
  let* locked := gets IsWritableStreamLocked in
  if locked
  then promiseRejectedWith (TypeError "Cannot abort a stream that already has a writer")
  else WritableStreamAbort reason.

Definition WritableStream_close : M PromiseId :=
  let* locked := gets IsWritableStreamLocked in
  if locked
  then promiseRejectedWith (TypeError "Cannot close a stream that already has a writer")
  else
    let* closing := gets WritableStreamCloseQueuedOrInFlight in
    if closing
    then promiseRejectedWith (TypeError "Cannot close an already-closing stream")
    else WritableStreamClose.

Definition WritableStream_getWriter : M WriterId := AcquireWritableStreamDefaultWriter.

(** *** The callbacks of the writable stream's [uponPromise] calls *)

(** [SetUpWritableStreamDefaultController], on [startPromise] *)
Definition WStart_reaction (s : PromiseState) : M unit :=
  match s with
  | Pending => fun _ => AssertionFailed
  | Fulfilled _ =>
      let* state := gets (fun w => ws_state (ws w)) in
      assert (bool_decide (state = Wwritable) || bool_decide (state = Werroring)) ;;
      modify (upd_wc (set_wc_started true)) ;;
      WritableStreamDefaultControllerAdvanceQueueIfNeeded
  | Rejected r =>
      let* state := gets (fun w => ws_state (ws w)) in
      assert (bool_decide (state = Wwritable) || bool_decide (state = Werroring)) ;;
      modify (upd_wc (set_wc_started true)) ;;
      WritableStreamDealWithRejection r
  end.

(** [WritableStreamDefaultControllerProcessWrite], on [sinkWritePromise] *)
Definition WSinkWrite_reaction (s : PromiseState) : M unit :=
  match s with
  | Pending => fun _ => AssertionFailed
  | Fulfilled _ =>
      WritableStreamFinishInFlightWrite ;;
      let* state := gets (fun w => ws_state (ws w)) in
      assert (bool_decide (state = Wwritable) || bool_decide (state = Werroring)) ;;
      let* _ := WritableStreamDefaultController_DequeueValue in
      let* closing := gets WritableStreamCloseQueuedOrInFlight in
      when (negb closing && bool_decide (state = Wwritable)) (
        let* backpressure := gets WritableStreamDefaultControllerGetBackpressure in
        WritableStreamUpdateBackpressure backpressure) ;;
      WritableStreamDefaultControllerAdvanceQueueIfNeeded
  | Rejected reason =>
      let* state := gets (fun w => ws_state (ws w)) in
      when (bool_decide (state = Wwritable)) WritableStreamDefaultControllerClearAlgorithms ;;
      WritableStreamFinishInFlightWriteWithError reason
  end.

(** [WritableStreamDefaultControllerProcessClose], on [sinkClosePromise] *)
Definition WSinkClose_reaction (s : PromiseState) : M unit :=
  match s with
  | Pending => fun _ => AssertionFailed
  | Fulfilled _ => WritableStreamFinishInFlightClose
  | Rejected reason => WritableStreamFinishInFlightCloseWithError reason
  end.

(** [WritableStreamFinishErroring], on the promise of [[AbortSteps]] *)
Definition WSinkAbort_reaction (abortRequest : PendingAbortRequest) (s : PromiseState)
    : M unit :=
  match s with
  | Pending => fun _ => AssertionFailed
  | Fulfilled _ =>
      resolvePromise (par_promise abortRequest) undefined ;;
      WritableStreamRejectCloseAndClosedPromiseIfNeeded
  | Rejected reason =>
      rejectPromise (par_promise abortRequest) reason ;;
      WritableStreamRejectCloseAndClosedPromiseIfNeeded
  end.

(** ** [lib/readable-stream.ts], [lib/readable-stream/default-controller.ts],
       [lib/readable-stream/default-reader.ts] *)

(** *** [lib/readable-stream/generic-reader.ts]

    The file is not among the sources; these follow §3 (Reader), §4.D and
    §6 of the spec. *)

(** Modelled from the spec: [ReadableStreamCreateReadResult] of
    [lib/readable-stream/generic-reader.ts]; §6: the read result is
    "{ value, done }". *)
Definition ReadableStreamCreateReadResult (v : Value) (done forAuthorCode : bool) : Value :=
  ReadResult v done forAuthorCode.

(** Modelled from the spec: [readerLockException] of
    [lib/readable-stream/generic-reader.ts]; §7: misuse "on a released
    reader". *)
Definition readerLockException (name : string) : Value :=
  TypeError (String.append "Cannot "
              (String.append name " a stream using a released reader")).

(** Modelled from the spec: [defaultReaderClosedPromiseResolve] of
    [lib/readable-stream/generic-reader.ts]; §4.D: "the reader's closed
    settlement fulfills". *)
Definition defaultReaderClosedPromiseResolve (reader : ReaderId) : M unit :=
  let* x := the_reader reader in
  match rd_closedPromise_resolve x with
  | Some p => resolvePromise p undefined
  | None => ret tt
  end ;;
  modify (upd_reader reader (fun x =>
    set_rd_closedPromise_reject None (set_rd_closedPromise_resolve None x))).

(** Modelled from the spec: [defaultReaderClosedPromiseReject] of
    [lib/readable-stream/generic-reader.ts]; §4.D: error "rejects pending
    read requests and the reader's closed settlement"; §4.B: the rejection
    is marked handled. *)
Definition defaultReaderClosedPromiseReject (reader : ReaderId) (reason : Value) : M unit :=
  let* x := the_reader reader in
  setPromiseIsHandledToTrue (rd_closedPromise x) ;;
  match rd_closedPromise_reject x with
  | Some p => rejectPromise p reason
  | None => ret tt
  end ;;
  modify (upd_reader reader (fun x =>
    set_rd_closedPromise_reject None (set_rd_closedPromise_resolve None x))).

(** Modelled from the spec: the initialisation of the closed settlement of a
    reader, of [lib/readable-stream/generic-reader.ts]. *)
Definition defaultReaderClosedPromiseInitialize (reader : ReaderId) : M unit :=
  let* p := newPromise in
  modify (upd_reader reader (fun x =>
    set_rd_closedPromise_reject (Some p)
      (set_rd_closedPromise_resolve (Some p)
        (set_rd_closedPromise p x)))).

(** Modelled from the spec: [ReadableStreamReaderGenericInitialize] of
    [lib/readable-stream/generic-reader.ts]; §3: "upon construction, the
    stream becomes locked to it"; the closed settlement starts in the state
    that the stream's state calls for. *)
Definition ReadableStreamReaderGenericInitialize (reader : ReaderId) : M unit :=
  modify (upd_reader reader (fun x =>
    set_rd_ownerReadableStream true (set_rd_forAuthorCode true x))) ;;
  modify (upd_rs (set_rs_reader (Some reader))) ;;
  let* stream := gets rs in
  defaultReaderClosedPromiseInitialize reader ;;
  match rs_state stream with
  | Rreadable => ret tt
  | Rclosed => defaultReaderClosedPromiseResolve reader
  | Rerrored => defaultReaderClosedPromiseReject reader (rs_storedError stream)
  end.

(** *** Abstract operations for the ReadableStream *)

Definition IsReadableStreamLocked (w : World) : bool :=
  defined (rs_reader (rs w)).

Definition ReadableStreamClose : M unit :=
  let* state := gets (fun w => rs_state (rs w)) in
  assert (bool_decide (state = Rreadable)) ;;
  modify (upd_rs (set_rs_state Rclosed)) ;;
  let* reader := gets (fun w => rs_reader (rs w)) in
  match reader with
  | None => ret tt
  | Some reader =>
      let* x := the_reader reader in
      forEach (rd_readRequests x) (fun readRequest =>
        resolvePromise readRequest
          (ReadableStreamCreateReadResult undefined true (rd_forAuthorCode x))) ;;
      modify (upd_reader reader (set_rd_readRequests [])) ;;
      defaultReaderClosedPromiseResolve reader
  end.

Definition ReadableStreamError (e : Value) : M unit :=
  let* state := gets (fun w => rs_state (rs w)) in
  assert (bool_decide (state = Rreadable)) ;;
  modify (upd_rs (set_rs_state Rerrored)) ;;
  modify (upd_rs (set_rs_storedError e)) ;;
  let* reader := gets (fun w => rs_reader (rs w)) in
  match reader with
  | None => ret tt
  | Some reader =>
      let* x := the_reader reader in
      forEach (rd_readRequests x) (fun readRequest => rejectPromise readRequest e) ;;
      modify (upd_reader reader (set_rd_readRequests [])) ;;
      defaultReaderClosedPromiseReject reader e
  end.

(** *** ReadableStream API exposed for controllers
        ([lib/readable-stream/default-reader.ts]) *)

Definition ReadableStreamAddReadRequest : M PromiseId :=
  let* reader := gets (fun w => rs_reader (rs w)) in
  assert (defined reader) ;;
  let* state := gets (fun w => rs_state (rs w)) in
  assert (bool_decide (state = Rreadable)) ;;
  let* promise := newPromise in
  match reader with
  | Some reader =>
      modify (upd_reader reader (fun x =>
        set_rd_readRequests (rd_readRequests x ++ [promise]) x))
  | None => ret tt
  end ;;
  ret promise.

Definition ReadableStreamFulfillReadRequest (chunk : Value) (done : bool) : M unit :=
  let* reader := gets (fun w => rs_reader (rs w)) in
  match reader with
  | None => throw (TypeError "Cannot read properties of undefined (reading '_readRequests')")
  | Some reader =>
      let* x := the_reader reader in
      assert (bool_decide (0 < length (rd_readRequests x))) ;;
      match rd_readRequests x with
      | readRequest :: rest =>
          modify (upd_reader reader (set_rd_readRequests rest)) ;;
          resolvePromise readRequest
            (ReadableStreamCreateReadResult chunk done (rd_forAuthorCode x))
      | [] => fun _ => AssertionFailed
      end
  end.

Definition ReadableStreamGetNumReadRequests : M nat :=
  let* reader := gets (fun w => rs_reader (rs w)) in
  match reader with
  | None => throw (TypeError "Cannot read properties of undefined (reading '_readRequests')")
  | Some reader =>
      let* x := the_reader reader in
      ret (length (rd_readRequests x))
  end.

Definition ReadableStreamHasDefaultReader (w : World) : bool :=
  defined (rs_reader (rs w)).

(** *** Abstract operations for the ReadableStreamDefaultController *)

Definition ReadableStreamDefaultControllerCanCloseOrEnqueue (w : World) : bool :=
  negb (rc_closeRequested (rc w)) && bool_decide (rs_state (rs w) = Rreadable).

(** [number | null] *)
Definition ReadableStreamDefaultControllerGetDesiredSize (w : World) : option float :=
  match rs_state (rs w) with
  | Rerrored => None
  | Rclosed => Some 0%float
  | Rreadable => Some (rc_strategyHWM (rc w) - rc_queueTotalSize (rc w))%float
  end.

Definition ReadableStreamDefaultControllerShouldCallPull : M bool :=
  let* canCloseOrEnqueue := gets ReadableStreamDefaultControllerCanCloseOrEnqueue in
  if negb canCloseOrEnqueue then ret false else
  let* started := gets (fun w => rc_started (rc w)) in
  if negb started then ret false else
  let* locked := gets IsReadableStreamLocked in
  let* waiting :=
    (if locked
     then let* n := ReadableStreamGetNumReadRequests in ret (bool_decide (0 < n))
     else ret false) in
  if waiting then ret true else
  let* desiredSize := gets ReadableStreamDefaultControllerGetDesiredSize in
  assert (defined desiredSize) ;;
  match desiredSize with
  | Some d => if (0 <? d)%float then ret true else ret false
  | None => fun _ => AssertionFailed
  end.

Definition ReadableStreamDefaultControllerClearAlgorithms : M unit :=
  modify (upd_rc (fun c =>
    set_rc_strategySizeAlgorithm None
      (set_rc_cancelAlgorithm None
        (set_rc_pullAlgorithm None c)))).

Definition ReadableStreamDefaultControllerCallPullIfNeeded : M unit :=
  let* shouldPull := ReadableStreamDefaultControllerShouldCallPull in
  if negb shouldPull then ret tt else
  let* pulling := gets (fun w => rc_pulling (rc w)) in
  if pulling then modify (upd_rc (set_rc_pullAgain true)) else
  let* pullAgain := gets (fun w => rc_pullAgain (rc w)) in
  assert (negb pullAgain) ;;
  modify (upd_rc (set_rc_pulling true)) ;;
  let* algorithm := gets (fun w => rc_pullAlgorithm (rc w)) in
  let* pullPromise := invoke algorithm "controller._pullAlgorithm" call_pull in
  uponPromise pullPromise RPull.

Definition ReadableStreamDefaultControllerClose : M unit :=
  let* canCloseOrEnqueue := gets ReadableStreamDefaultControllerCanCloseOrEnqueue in
  assert canCloseOrEnqueue ;;
  modify (upd_rc (set_rc_closeRequested true)) ;;
  let* queue := gets (fun w => rc_queue (rc w)) in
  when (bool_decide (length queue = 0)) (
    ReadableStreamDefaultControllerClearAlgorithms ;;
    ReadableStreamClose).

(** [ResetQueue(controller)]; §4.A: "reset() empties the queue and sets total
    to 0". *)
Definition ReadableStreamDefaultController_ResetQueue : M unit :=
  modify (upd_rc (fun c => set_rc_queueTotalSize 0%float (set_rc_queue [] c))).

Definition ReadableStreamDefaultControllerError (e : Value) : M unit :=
  let* state := gets (fun w => rs_state (rs w)) in
  if negb (bool_decide (state = Rreadable)) then ret tt else
  ReadableStreamDefaultController_ResetQueue ;;
  ReadableStreamDefaultControllerClearAlgorithms ;;
  ReadableStreamError e.

Definition ReadableStreamDefaultController_EnqueueValueWithSize (chunk : Value) (sz : float)
    : M unit :=
  let* c := gets rc in
  match EnqueueValueWithSize (rc_queue c) (rc_queueTotalSize c) chunk sz with
  | inl e => throw e
  | inr (queue, total) =>
      modify (upd_rc (fun c => set_rc_queueTotalSize total (set_rc_queue queue c)))
  end.

Definition ReadableStreamDefaultController_DequeueValue : M Value :=
  let* c := gets rc in
  match DequeueValue (rc_queue c) (rc_queueTotalSize c) with
  | None => fun _ => AssertionFailed
  | Some (chunk, queue, total) =>
      modify (upd_rc (fun c => set_rc_queueTotalSize total (set_rc_queue queue c))) ;;
      ret chunk
  end.

Definition ReadableStreamDefaultControllerEnqueue (chunk : Value) : M unit :=
  let* canCloseOrEnqueue := gets ReadableStreamDefaultControllerCanCloseOrEnqueue in
  assert canCloseOrEnqueue ;;
  let* locked := gets IsReadableStreamLocked in
  let* waiting :=
    (if locked
     then let* n := ReadableStreamGetNumReadRequests in ret (bool_decide (0 < n))
     else ret false) in
  (if waiting
   then ReadableStreamFulfillReadRequest chunk false
   else
     let* chunkSize :=
       try_catch
         (let* algorithm := gets (fun w => rc_strategySizeAlgorithm (rc w)) in
          call_strategySizeAlgorithm algorithm chunk)
         (fun chunkSizeE =>
            ReadableStreamDefaultControllerError chunkSizeE ;;
            throw chunkSizeE) in
     try_catch
       (ReadableStreamDefaultController_EnqueueValueWithSize chunk chunkSize)
       (fun enqueueE =>
          ReadableStreamDefaultControllerError enqueueE ;;
          throw enqueueE)) ;;
  ReadableStreamDefaultControllerCallPullIfNeeded.

Definition ReadableStreamDefaultControllerHasBackpressure : M bool :=
  let* shouldPull := ReadableStreamDefaultControllerShouldCallPull in
  if shouldPull then ret false else ret true.

(** *** class ReadableStreamDefaultController *)

Definition defaultControllerBrandCheckException_R (name : string) : Value :=
  TypeError (String.append "ReadableStreamDefaultController.prototype."
              (String.append name " can only be used on a ReadableStreamDefaultController")).

Definition ReadableStreamDefaultController_desiredSize : M (option float) :=
  gets ReadableStreamDefaultControllerGetDesiredSize.

Definition ReadableStreamDefaultController_close : M unit :=
  let* canCloseOrEnqueue := gets ReadableStreamDefaultControllerCanCloseOrEnqueue in
  if negb canCloseOrEnqueue
  then throw (TypeError "The stream is not in a state that permits close")
  else ReadableStreamDefaultControllerClose.

Definition ReadableStreamDefaultController_enqueue (chunk : Value) : M unit :=
  let* canCloseOrEnqueue := gets ReadableStreamDefaultControllerCanCloseOrEnqueue in
  if negb canCloseOrEnqueue
  then throw (TypeError "The stream is not in a state that permits enqueue")
  else ReadableStreamDefaultControllerEnqueue chunk.

Definition ReadableStreamDefaultController_error (e : Value) : M unit :=
  ReadableStreamDefaultControllerError e.

(** [[CancelSteps]] *)
Definition ReadableStreamDefaultController_CancelSteps (reason : Value) : M PromiseId :=
  ReadableStreamDefaultController_ResetQueue ;;
  let* algorithm := gets (fun w => rc_cancelAlgorithm (rc w)) in
  let* result := invoke algorithm "this._cancelAlgorithm" (call_cancel reason) in
  ReadableStreamDefaultControllerClearAlgorithms ;;
  ret result.

(** [[PullSteps]] *)
Definition ReadableStreamDefaultController_PullSteps : M PromiseId :=
  let* queue := gets (fun w => rc_queue (rc w)) in
  if bool_decide (0 < length queue)
  then
    let* chunk := ReadableStreamDefaultController_DequeueValue in
    let* closeRequested := gets (fun w => rc_closeRequested (rc w)) in
    let* queue := gets (fun w => rc_queue (rc w)) in
    (if closeRequested && bool_decide (length queue = 0)
     then
       ReadableStreamDefaultControllerClearAlgorithms ;;
       ReadableStreamClose
     else ReadableStreamDefaultControllerCallPullIfNeeded) ;;
    let* reader := gets (fun w => rs_reader (rs w)) in
    match reader with
    | None => throw (TypeError "Cannot read properties of undefined (reading '_forAuthorCode')")
    | Some reader =>
        let* x := the_reader reader in
        promiseResolvedWith (ReadableStreamCreateReadResult chunk false (rd_forAuthorCode x))
    end
  else
    let* pendingPromise := ReadableStreamAddReadRequest in
    ReadableStreamDefaultControllerCallPullIfNeeded ;;
    ret pendingPromise.

(** *** Setting up a readable stream *)

Definition InitializeReadableStream : M unit :=
  modify (set_rs
    {| rs_state := Rreadable;
       rs_reader := None;
       rs_storedError := undefined;
       rs_disturbed := false |}).

(** [startAlgorithm] yields the promise that
    [promiseResolvedWith(startAlgorithm())] denotes. *)
Definition SetUpReadableStreamDefaultController (startAlgorithm : M PromiseId)
    (pullAlgorithm cancelAlgorithm : Algorithm)
    (highWaterMark : float) (sizeAlgorithm : SizeAlgorithm) : M unit :=
  modify (set_rc
    {| rc_queue := [];
       rc_queueTotalSize := 0%float;
       rc_started := false;
       rc_closeRequested := false;
       rc_pullAgain := false;
       rc_pulling := false;
       rc_strategySizeAlgorithm := Some sizeAlgorithm;
       rc_strategyHWM := highWaterMark;
       rc_pullAlgorithm := Some pullAlgorithm;
       rc_cancelAlgorithm := Some cancelAlgorithm |}) ;;
  let* startPromise := startAlgorithm in
  uponPromise startPromise RStart.

Record UnderlyingSource := {
  source_start : bool;
  source_pull : bool;
  source_cancel : bool;
  source_type : Value
}.

Definition SetUpReadableStreamDefaultControllerFromUnderlyingSource
    (underlyingSource : UnderlyingSource) (highWaterMark : float)
    (sizeAlgorithm : SizeAlgorithm) : M unit :=
  let startAlgorithm :=
    invoke (Some (method (source_start underlyingSource))) "start" call_start in
  SetUpReadableStreamDefaultController startAlgorithm
    (method (source_pull underlyingSource)) (method (source_cancel underlyingSource))
    highWaterMark sizeAlgorithm.

(** Throws if and only if startAlgorithm throws. *)
Definition CreateReadableStream (startAlgorithm : M PromiseId)
    (pullAlgorithm cancelAlgorithm : Algorithm)
    (highWaterMark : float) (sizeAlgorithm : SizeAlgorithm) : M unit :=
  assert (IsNonNegativeNumber highWaterMark) ;;
  InitializeReadableStream ;;
  SetUpReadableStreamDefaultController startAlgorithm pullAlgorithm cancelAlgorithm
    highWaterMark sizeAlgorithm.

(** [new ReadableStream(underlyingSource, strategy)], for a source that is
    not a byte source: the byte stream controller is outside this
    development. *)
Definition ReadableStream_constructor (underlyingSource : UnderlyingSource)
    (strategy : QueuingStrategy) : M unit :=
  InitializeReadableStream ;;
  if is_undefined (source_type underlyingSource)
  then
    let sizeAlgorithm := MakeSizeAlgorithmFromSizeFunction (strategy_size strategy) in
    let* highWaterMark :=
      ValidateAndNormalizeHighWaterMark (default 1%float (strategy_highWaterMark strategy)) in
    SetUpReadableStreamDefaultControllerFromUnderlyingSource underlyingSource highWaterMark
      sizeAlgorithm
  else throw (RangeError "Invalid type is specified").

(** *** Cancelling *)

Definition ReadableStreamCancel (reason : Value) : M PromiseId :=
  modify (upd_rs (set_rs_disturbed true)) ;;
  let* stream := gets rs in
  if bool_decide (rs_state stream = Rclosed) then promiseResolvedWith undefined else
  if bool_decide (rs_state stream = Rerrored)
  then promiseRejectedWith (rs_storedError stream)
  else
    ReadableStreamClose ;;
    let* sourceCancelPromise := ReadableStreamDefaultController_CancelSteps reason in
    transformPromiseWith sourceCancelPromise RCancel.

Definition ReadableStream_locked : M bool := gets IsReadableStreamLocked.

Definition ReadableStream_cancel (reason : Value) : M PromiseId :=
  let* locked := gets IsReadableStreamLocked in
  if locked
  then promiseRejectedWith (TypeError "Cannot cancel a stream that already has a reader")
  else ReadableStreamCancel reason.

(** *** class ReadableStreamDefaultReader *)

Definition blank_reader : ReadableStreamDefaultReader :=
  {| rd_forAuthorCode := false; rd_ownerReadableStream := false;
     rd_closedPromise := 0; rd_closedPromise_resolve := None;
     rd_closedPromise_reject := None; rd_readRequests := [] |}.

Definition defaultReaderBrandCheckException (name : string) : Value :=
  TypeError (String.append "ReadableStreamDefaultReader.prototype."
              (String.append name " can only be used on a ReadableStreamDefaultReader")).

(** [new ReadableStreamDefaultReader(stream)] *)
Definition ReadableStreamDefaultReader_constructor : M ReaderId :=
  let* locked := gets IsReadableStreamLocked in
  if locked
  then throw (TypeError
         "This stream has already been locked for exclusive reading by another reader")
  else
    let* this := gets (fun w => length (readers w)) in
    modify (fun w => set_readers (readers w ++ [blank_reader]) w) ;;
    ReadableStreamReaderGenericInitialize this ;;
    modify (upd_reader this (set_rd_readRequests [])) ;;
    ret this.

Definition AcquireReadableStreamDefaultReader (forAuthorCode : bool) : M ReaderId :=
  let* reader := ReadableStreamDefaultReader_constructor in
  modify (upd_reader reader (set_rd_forAuthorCode forAuthorCode)) ;;
  ret reader.

(** [getReader()] without a mode *)
Definition ReadableStream_getReader : M ReaderId :=
  AcquireReadableStreamDefaultReader true.

Definition IsReadableStreamDefaultReader (w : World) (this : ReaderId) : bool :=
  defined (readers w !! this).

(** Modelled from the spec: [ReadableStreamReaderGenericCancel] of
    [lib/readable-stream/generic-reader.ts]; §5: cancellation "propagates to
    the source via cancel_fn" along the stream's cancel path. *)
Definition ReadableStreamReaderGenericCancel (reader : ReaderId) (reason : Value)
    : M PromiseId :=
  let* x := the_reader reader in
  assert (rd_ownerReadableStream x) ;;
  ReadableStreamCancel reason.

(** Modelled from the spec: [ReadableStreamReaderGenericRelease] of
    [lib/readable-stream/generic-reader.ts]; §3: the reader becomes detached
    and the stream unlocked, and the closed settlement of a released reader
    is a rejected one. *)
Definition ReadableStreamReaderGenericRelease (reader : ReaderId) : M unit :=
  let* x := the_reader reader in
  assert (rd_ownerReadableStream x) ;;
  let* attached := gets (fun w => rs_reader (rs w)) in
  assert (bool_decide (attached = Some reader)) ;;
  let releasedError := TypeError
    "Reader was released and can no longer be used to monitor the stream's closedness" in
  let* state := gets (fun w => rs_state (rs w)) in
  (if bool_decide (state = Rreadable)
   then defaultReaderClosedPromiseReject reader releasedError
   else
     defaultReaderClosedPromiseInitialize reader ;;
     defaultReaderClosedPromiseReject reader releasedError) ;;
  modify (upd_rs (set_rs_reader None)) ;;
  modify (upd_reader reader (set_rd_ownerReadableStream false)).

Definition ReadableStreamDefaultReaderRead (reader : ReaderId) : M PromiseId :=
  let* x := the_reader reader in
  assert (rd_ownerReadableStream x) ;;
  modify (upd_rs (set_rs_disturbed true)) ;;
  let* stream := gets rs in
  if bool_decide (rs_state stream = Rclosed)
  then promiseResolvedWith (ReadableStreamCreateReadResult undefined true (rd_forAuthorCode x))
  else
  if bool_decide (rs_state stream = Rerrored)
  then promiseRejectedWith (rs_storedError stream)
  else
    assert (bool_decide (rs_state stream = Rreadable)) ;;
    ReadableStreamDefaultController_PullSteps.

Definition ReadableStreamDefaultReader_closed (this : ReaderId) : M PromiseId :=
  let* brand := gets (fun w => IsReadableStreamDefaultReader w this) in
  if negb brand then promiseRejectedWith (defaultReaderBrandCheckException "closed") else
  let* x := the_reader this in
  ret (rd_closedPromise x).

Definition ReadableStreamDefaultReader_cancel (this : ReaderId) (reason : Value)
    : M PromiseId :=
  let* brand := gets (fun w => IsReadableStreamDefaultReader w this) in
  if negb brand then promiseRejectedWith (defaultReaderBrandCheckException "cancel") else
  let* x := the_reader this in
  if negb (rd_ownerReadableStream x)
  then promiseRejectedWith (readerLockException "cancel")
  else ReadableStreamReaderGenericCancel this reason.

Definition ReadableStreamDefaultReader_read (this : ReaderId) : M PromiseId :=
  let* brand := gets (fun w => IsReadableStreamDefaultReader w this) in
  if negb brand then promiseRejectedWith (defaultReaderBrandCheckException "read") else
  let* x := the_reader this in
  if negb (rd_ownerReadableStream x)
  then promiseRejectedWith (readerLockException "read from")
  else ReadableStreamDefaultReaderRead this.

Definition ReadableStreamDefaultReader_releaseLock (this : ReaderId) : M unit :=
  let* brand := gets (fun w => IsReadableStreamDefaultReader w this) in
  if negb brand then throw (defaultReaderBrandCheckException "releaseLock") else
  let* x := the_reader this in
  if negb (rd_ownerReadableStream x) then ret tt else
  if bool_decide (0 < length (rd_readRequests x))
  then throw (TypeError
    "Tried to release a reader lock when that reader has pending read() calls un-settled")
  else ReadableStreamReaderGenericRelease this.

(** *** The callbacks of the readable stream's promise reactions *)

(** [SetUpReadableStreamDefaultController], on the start promise *)
Definition RStart_reaction (s : PromiseState) : M unit :=
  match s with
  | Pending => fun _ => AssertionFailed
  | Fulfilled _ =>
      modify (upd_rc (set_rc_started true)) ;;
      let* c := gets rc in
      assert (negb (rc_pulling c)) ;;
      assert (negb (rc_pullAgain c)) ;;
      ReadableStreamDefaultControllerCallPullIfNeeded
  | Rejected r => ReadableStreamDefaultControllerError r
  end.

(** [ReadableStreamDefaultControllerCallPullIfNeeded], on [pullPromise] *)
Definition RPull_reaction (s : PromiseState) : M unit :=
  match s with
  | Pending => fun _ => AssertionFailed
  | Fulfilled _ =>
      modify (upd_rc (set_rc_pulling false)) ;;
      let* pullAgain := gets (fun w => rc_pullAgain (rc w)) in
      when pullAgain (
        modify (upd_rc (set_rc_pullAgain false)) ;;
        ReadableStreamDefaultControllerCallPullIfNeeded)
  | Rejected e => ReadableStreamDefaultControllerError e
  end.

End Streams.

(** ** [TransformStream] ([lib/byte-length-queuing-strategy.ts], from
       "Class TransformStream" on) *)

(** An algorithm slot that is never called. *)
Definition no_algorithm : UserCall -> M PromiseId := fun _ _ => AssertionFailed.

Definition TransformStreamSetBackpressure (backpressure : bool) : M unit :=
  let* stream := gets ts in
  (* Passes also when called during construction. *)
  assert (negb (bool_decide (ts_backpressure stream = Some backpressure))) ;;
  when (defined (ts_backpressureChangePromise stream)) (
    match ts_backpressureChangePromise_resolve stream with
    | Some p => resolvePromise p undefined
    | None => not_a_function "stream._backpressureChangePromise_resolve"
    end) ;;
  let* p := newPromise in
  modify (upd_ts (fun s =>
    set_ts_backpressureChangePromise_resolve (Some p)
      (set_ts_backpressureChangePromise (Some p) s))) ;;
  modify (upd_ts (set_ts_backpressure (Some backpressure))).

Definition TransformStreamDefaultControllerClearAlgorithms : M unit :=
  modify (upd_tc (fun c => set_tc_flushAlgorithm None (set_tc_transformAlgorithm None c))).

(** [WritableStreamDefaultControllerErrorIfNeeded] clears the algorithm
    slots of the writable side before it could call one of them, so that
    which algorithms the slots stand for does not matter here
    ([ErrorIfNeeded_algorithms_irrelevant]); this is what lets the sink
    algorithms of the transform stream be defined from it. *)
Definition TransformStreamErrorWritableAndUnblockWrite (e : Value) : M unit :=
  TransformStreamDefaultControllerClearAlgorithms ;;
  WritableStreamDefaultControllerErrorIfNeeded no_algorithm e ;;
  let* backpressure := gets (fun w => ts_backpressure (ts w)) in
  when (bool_decide (backpressure = Some true)) (
    (* Pretend that pull() was called to permit any pending write() calls to
       complete. *)
    TransformStreamSetBackpressure false).

(** This is a no-op if both sides are already errored. *)
Definition TransformStreamError (e : Value) : M unit :=
  ReadableStreamDefaultControllerError e ;;
  TransformStreamErrorWritableAndUnblockWrite e.

(** *** TransformStreamDefaultSource algorithms *)

Definition TransformStreamDefaultSourcePullAlgorithm : M PromiseId :=
  let* stream := gets ts in
  (* Invariant. Enforced by the promises returned by start() and pull(). *)
  assert (bool_decide (ts_backpressure stream = Some true)) ;;
  assert (defined (ts_backpressureChangePromise stream)) ;;
  TransformStreamSetBackpressure false ;;
  (* Prevent the next pull() call until there is backpressure. *)
  let* promise := gets (fun w => ts_backpressureChangePromise (ts w)) in
  match promise with
  | Some p => ret p
  | None => fun _ => AssertionFailed
  end.

(** [cancelAlgorithm] of [InitializeTransformStream] *)
Definition TransformStream_cancelAlgorithm (reason : Value) : M PromiseId :=
  TransformStreamErrorWritableAndUnblockWrite reason ;;
  promiseResolvedWith undefined.

(** The algorithms in the slots of the readable side. *)
Definition TransformStreamDefaultSource (c : UserCall) : M PromiseId :=
  match c with
  | call_pull => TransformStreamDefaultSourcePullAlgorithm
  | call_cancel reason => TransformStream_cancelAlgorithm reason
  | _ => fun _ => AssertionFailed
  end.

(** *** Transform stream default controller abstract operations *)

Definition TransformStreamDefaultControllerEnqueue (chunk : Value) : M unit :=
  let* canCloseOrEnqueue := gets ReadableStreamDefaultControllerCanCloseOrEnqueue in
  if negb canCloseOrEnqueue
  then throw (TypeError "Readable side is not in a state that permits enqueue")
  else
    (* We throttle transform invocations based on the backpressure of the
       ReadableStream, but we still accept
       TransformStreamDefaultControllerEnqueue() calls. *)
    try_catch
      (ReadableStreamDefaultControllerEnqueue TransformStreamDefaultSource chunk)
      (fun e =>
         (* This happens when readableStrategy.size() throws. *)
         TransformStreamErrorWritableAndUnblockWrite e ;;
         let* storedError := gets (fun w => rs_storedError (rs w)) in
         throw storedError) ;;
    let* backpressure := ReadableStreamDefaultControllerHasBackpressure in
    let* current := gets (fun w => ts_backpressure (ts w)) in
    when (negb (bool_decide (Some backpressure = current))) (
      assert backpressure ;;
      TransformStreamSetBackpressure true).

Definition TransformStreamDefaultControllerError (e : Value) : M unit :=
  TransformStreamError e.

(** [transformAlgorithm] of
    [SetUpTransformStreamDefaultControllerFromTransformer] when the
    transformer has no [transform] method *)
Definition TransformStream_defaultTransformAlgorithm (chunk : Value) : M PromiseId :=
  try_catch
    (TransformStreamDefaultControllerEnqueue chunk ;;
     promiseResolvedWith undefined)
    (fun transformResultE => promiseRejectedWith transformResultE).

(** The algorithm in the [_transformAlgorithm] slot when it is not a method
    of the transformer. *)
Definition TransformStreamDefaultTransformer (c : UserCall) : M PromiseId :=
  match c with
  | call_transform chunk => TransformStream_defaultTransformAlgorithm chunk
  | _ => fun _ => AssertionFailed
  end.

Definition TransformStreamDefaultControllerPerformTransform (chunk : Value) : M PromiseId :=
  let* algorithm := gets (fun w => tc_transformAlgorithm (tc w)) in
  let* transformPromise :=
    invoke TransformStreamDefaultTransformer algorithm "controller._transformAlgorithm"
      (call_transform chunk) in
  transformPromiseWith transformPromise TPerformTransform.

Definition TransformStreamDefaultControllerTerminate : M unit :=
  let* canCloseOrEnqueue := gets ReadableStreamDefaultControllerCanCloseOrEnqueue in
  when canCloseOrEnqueue ReadableStreamDefaultControllerClose ;;
  let error := TypeError "TransformStream terminated" in
  TransformStreamErrorWritableAndUnblockWrite error.

(** *** TransformStreamDefaultSink algorithms *)

Definition TransformStreamDefaultSinkWriteAlgorithm (chunk : Value) : M PromiseId :=
  let* state := gets (fun w => ws_state (ws w)) in
  assert (bool_decide (state = Wwritable)) ;;
  let* stream := gets ts in
  if bool_decide (ts_backpressure stream = Some true)
  then
    assert (defined (ts_backpressureChangePromise stream)) ;;
    match ts_backpressureChangePromise stream with
    | Some backpressureChangePromise =>
        transformPromiseWith backpressureChangePromise (TBackpressureChange chunk)
    | None => fun _ => AssertionFailed
    end
  else TransformStreamDefaultControllerPerformTransform chunk.

Definition TransformStreamDefaultSinkAbortAlgorithm (reason : Value) : M PromiseId :=
  (* abort() is not called synchronously, so it is possible for abort() to be
     called when the stream is already errored. *)
  TransformStreamError reason ;;
  promiseResolvedWith undefined.

Definition TransformStreamDefaultSinkCloseAlgorithm : M PromiseId :=
  let* algorithm := gets (fun w => tc_flushAlgorithm (tc w)) in
  let* flushPromise :=
    invoke TransformStreamDefaultTransformer algorithm "controller._flushAlgorithm"
      call_flush in
  TransformStreamDefaultControllerClearAlgorithms ;;
  (* Return a promise that is fulfilled with undefined on success. *)
  transformPromiseWith flushPromise TFlush.

(** The algorithms that [InitializeTransformStream] installs in the two
    sides, and the default transform algorithm. *)
Definition TransformStream_algorithms (c : UserCall) : M PromiseId :=
  match c with
  | call_write chunk => TransformStreamDefaultSinkWriteAlgorithm chunk
  | call_close => TransformStreamDefaultSinkCloseAlgorithm
  | call_abort reason => TransformStreamDefaultSinkAbortAlgorithm reason
  | call_pull => TransformStreamDefaultSourcePullAlgorithm
  | call_cancel reason => TransformStream_cancelAlgorithm reason
  | call_transform chunk => TransformStream_defaultTransformAlgorithm chunk
  | call_start | call_flush => fun _ => AssertionFailed
  end.

(** *** The callbacks of the transform stream's [transformPromiseWith] calls

    A callback returns the value that its promise is resolved with, or
    throws the reason that it is rejected with. *)

(** [TransformStreamDefaultSinkWriteAlgorithm], on
    [backpressureChangePromise]; it returns the promise of the transform. *)
Definition TBackpressureChange_reaction (chunk : Value) (s : PromiseState) : M PromiseId :=
  match s with
  | Pending => fun _ => AssertionFailed
  | Fulfilled _ =>
      let* writable := gets ws in
      let state := ws_state writable in
      if bool_decide (state = Werroring) then throw (ws_storedError writable) else
      assert (bool_decide (state = Wwritable)) ;;
      TransformStreamDefaultControllerPerformTransform chunk
  | Rejected r => throw r
  end.

(** [TransformStreamDefaultControllerPerformTransform], on [transformPromise] *)
Definition TPerformTransform_reaction (s : PromiseState) : M Value :=
  match s with
  | Pending => fun _ => AssertionFailed
  | Fulfilled v => ret v
  | Rejected r =>
      TransformStreamError r ;;
      throw r
  end.

(** [TransformStreamDefaultSinkCloseAlgorithm], on [flushPromise] *)
Definition TFlush_reaction (s : PromiseState) : M Value :=
  match s with
  | Pending => fun _ => AssertionFailed
  | Fulfilled _ =>
      let* readable := gets rs in
      if bool_decide (rs_state readable = Rerrored)
      then throw (rs_storedError readable)
      else
        let* canCloseOrEnqueue := gets ReadableStreamDefaultControllerCanCloseOrEnqueue in
        when canCloseOrEnqueue ReadableStreamDefaultControllerClose ;;
        ret undefined
  | Rejected r =>
      TransformStreamError r ;;
      let* storedError := gets (fun w => rs_storedError (rs w)) in
      throw storedError
  end.

(** *** Setting up a transform stream *)

Definition SetUpTransformStreamDefaultController
    (transformAlgorithm flushAlgorithm : Algorithm) : M unit :=
  modify (set_tc
    {| tc_transformAlgorithm := Some transformAlgorithm;
       tc_flushAlgorithm := Some flushAlgorithm |}).

Record Transformer := {
  transformer_start : bool;
  transformer_transform : bool;
  transformer_flush : bool;
  transformer_readableType : Value;
  transformer_writableType : Value
}.

Definition SetUpTransformStreamDefaultControllerFromTransformer (transformer : Transformer)
    : M unit :=
  let transformAlgorithm :=
    if transformer_transform transformer then UnderlyingMethod else TransformStreamAlgorithm in
  let flushAlgorithm := method (transformer_flush transformer) in
  SetUpTransformStreamDefaultController transformAlgorithm flushAlgorithm.

Definition InitializeTransformStream (startPromise : PromiseId)
    (writableHighWaterMark : float) (writableSizeAlgorithm : SizeAlgorithm)
    (readableHighWaterMark : float) (readableSizeAlgorithm : SizeAlgorithm) : M unit :=
  let startAlgorithm := ret startPromise in
  CreateWritableStream startAlgorithm TransformStreamAlgorithm TransformStreamAlgorithm
    TransformStreamAlgorithm writableHighWaterMark writableSizeAlgorithm ;;
  CreateReadableStream startAlgorithm TransformStreamAlgorithm TransformStreamAlgorithm
    readableHighWaterMark readableSizeAlgorithm ;;
  (* The [[backpressure]] slot is set to undefined so that it can be
     initialised by TransformStreamSetBackpressure. *)
  modify (set_ts
    {| ts_backpressure := None;
       ts_backpressureChangePromise := None;
       ts_backpressureChangePromise_resolve := None |}) ;;
  TransformStreamSetBackpressure true ;;
  modify (set_tc {| tc_transformAlgorithm := None; tc_flushAlgorithm := None |}).

(** [new TransformStream(transformer, writableStrategy, readableStrategy)].
    [startPromise_resolve(startResult)]: without a [start] method the start
    promise is resolved with [undefined]; with one, the call is logged and the
    start promise is settled later, as what [start] returned settles. *)
Definition TransformStream_constructor (transformer : Transformer)
    (writableStrategy readableStrategy : QueuingStrategy) : M unit :=
  if negb (is_undefined (transformer_writableType transformer))
  then throw (RangeError "Invalid writable type specified")
  else
    let writableSizeAlgorithm :=
      MakeSizeAlgorithmFromSizeFunction (strategy_size writableStrategy) in
    let* writableHighWaterMark :=
      ValidateAndNormalizeHighWaterMark
        (default 1%float (strategy_highWaterMark writableStrategy)) in
    if negb (is_undefined (transformer_readableType transformer))
    then throw (RangeError "Invalid readable type specified")
    else
      let readableSizeAlgorithm :=
        MakeSizeAlgorithmFromSizeFunction (strategy_size readableStrategy) in
      let* readableHighWaterMark :=
        ValidateAndNormalizeHighWaterMark
          (default 0%float (strategy_highWaterMark readableStrategy)) in
      let* startPromise := newPromise in
      InitializeTransformStream startPromise writableHighWaterMark writableSizeAlgorithm
        readableHighWaterMark readableSizeAlgorithm ;;
      SetUpTransformStreamDefaultControllerFromTransformer transformer ;;
      if transformer_start transformer
      then modify (fun w => set_calls (calls w ++ [(call_start, startPromise)]) w)
      else resolvePromise startPromise undefined.

(** *** class TransformStreamDefaultController *)

Definition TransformStreamDefaultController_desiredSize : M (option float) :=
  gets ReadableStreamDefaultControllerGetDesiredSize.

Definition TransformStreamDefaultController_enqueue (chunk : Value) : M unit :=
  TransformStreamDefaultControllerEnqueue chunk.

Definition TransformStreamDefaultController_error (reason : Value) : M unit :=
  TransformStreamDefaultControllerError reason.

Definition TransformStreamDefaultController_terminate : M unit :=
  TransformStreamDefaultControllerTerminate.

(** ** Running the streams *)

(** The world before any constructor has run. *)
Definition empty_world : World :=
  {| heap := []; reactions := []; calls := [];
     ws := {| ws_state := Wwritable; ws_storedError := undefined; ws_writer := None;
              ws_writeRequests := []; ws_inFlightWriteRequest := None;
              ws_closeRequest := None; ws_inFlightCloseRequest := None;
              ws_pendingAbortRequest := None; ws_backpressure := false |};
     wc := {| wc_queue := []; wc_queueTotalSize := 0%float; wc_started := false;
              wc_strategySizeAlgorithm := None; wc_strategyHWM := 0%float;
              wc_writeAlgorithm := None; wc_closeAlgorithm := None;
              wc_abortAlgorithm := None |};
     writers := [];
     rs := {| rs_state := Rreadable; rs_reader := None; rs_storedError := undefined;
              rs_disturbed := false |};
     rc := {| rc_queue := []; rc_queueTotalSize := 0%float; rc_started := false;
              rc_closeRequested := false; rc_pullAgain := false; rc_pulling := false;
              rc_strategySizeAlgorithm := None; rc_strategyHWM := 0%float;
              rc_pullAlgorithm := None; rc_cancelAlgorithm := None |};
     readers := [];
     ts := {| ts_backpressure := None; ts_backpressureChangePromise := None;
              ts_backpressureChangePromise_resolve := None |};
     tc := {| tc_transformAlgorithm := None; tc_flushAlgorithm := None |} |}.

(** The promise that [transformPromiseWith] returned is resolved with what the
    callback returns and rejected with what it throws. *)
Definition settle_derived (derived : PromiseId) (callback : M Value) : M unit :=
  fun w =>
    match callback w with
    | Normal v w' => resolvePromise derived v w'
    | Throw e w' => rejectPromise derived e w'
    | AssertionFailed => AssertionFailed
    end.

(** When the callback returns a promise, the promise that
    [transformPromiseWith] returned settles as that one does. *)
Definition settle_derived_as (derived : PromiseId) (callback : M PromiseId) : M unit :=
  fun w =>
    match callback w with
    | Normal promise w' => uponPromise promise (Adopt derived) w'
    | Throw e w' => rejectPromise derived e w'
    | AssertionFailed => AssertionFailed
    end.

(** An exception that escapes a callback of [uponPromise] goes nowhere. *)
Definition swallow (callback : M unit) : M unit :=
  fun w =>
    match callback w with
    | Throw _ w' => Normal tt w'
    | o => o
    end.

(** Running the reaction [r] of a promise that settled as [s]. *)
Definition react (r : Reaction) (s : PromiseState) : M unit :=
  match r with
  | WStart => swallow (WStart_reaction TransformStream_algorithms s)
  | WSinkWrite => swallow (WSinkWrite_reaction TransformStream_algorithms s)
  | WSinkClose => swallow (WSinkClose_reaction TransformStream_algorithms s)
  | WSinkAbort abortRequest => swallow (WSinkAbort_reaction abortRequest s)
  | RStart => swallow (RStart_reaction TransformStream_algorithms s)
  | RPull => swallow (RPull_reaction TransformStream_algorithms s)
  | RCancel derived =>
      (* transformPromiseWith(sourceCancelPromise, noop) *)
      settle_derived derived
        (match s with
         | Pending => fun _ => AssertionFailed
         | Fulfilled _ => ret undefined
         | Rejected r => throw r
         end)
  | TBackpressureChange chunk derived =>
      settle_derived_as derived (TBackpressureChange_reaction chunk s)
  | TPerformTransform derived => settle_derived derived (TPerformTransform_reaction s)
  | TFlush derived => settle_derived derived (TFlush_reaction s)
  | Adopt derived =>
      match s with
      | Pending => fun _ => AssertionFailed
      | _ => settle derived s
      end
  end.

(** What happens to the streams: user code settles a promise that one of its
    callbacks returned, the reaction of a settled promise runs, or user code
    calls a method. *)
Inductive Event :=
| EvSettle (p : PromiseId) (s : PromiseState)
| EvReact (p : PromiseId)
| WritableStream_abort_ev (reason : Value)
| WritableStream_close_ev
| WritableStream_getWriter_ev
| Writer_abort_ev (writer : WriterId) (reason : Value)
| Writer_close_ev (writer : WriterId)
| Writer_releaseLock_ev (writer : WriterId)
| Writer_write_ev (writer : WriterId) (chunk : Value)
| WritableController_error_ev (e : Value)
| ReadableStream_cancel_ev (reason : Value)
| ReadableStream_getReader_ev
| Reader_cancel_ev (reader : ReaderId) (reason : Value)
| Reader_read_ev (reader : ReaderId)
| Reader_releaseLock_ev (reader : ReaderId)
| ReadableController_close_ev
| ReadableController_enqueue_ev (chunk : Value)
| ReadableController_error_ev (e : Value)
| TransformController_enqueue_ev (chunk : Value)
| TransformController_error_ev (reason : Value)
| TransformController_terminate_ev.

(** The first reaction registered on [p], and the others. *)
Fixpoint take_reaction (p : PromiseId) (l : list (PromiseId * Reaction))
    : option (Reaction * list (PromiseId * Reaction)) :=
  match l with
  | [] => None
  | (q, r) :: l' =>
      if bool_decide (q = p) then Some (r, l')
      else
        match take_reaction p l' with
        | Some (r', rest) => Some (r', (q, r) :: rest)
        | None => None
        end
  end.

Definition is_pending (s : PromiseState) : bool :=
  match s with
  | Pending => true
  | _ => false
  end.

(** The world after a call of a method: an exception goes to the caller, who
    is user code; the world is the one the method left. *)
Definition after {A} (o : Outcome A) : option World :=
  match o with
  | Normal _ w => Some w
  | Throw _ w => Some w
  | AssertionFailed => None
  end.

Definition step (ev : Event) (w : World) : option World :=
  let A := TransformStream_algorithms in
  match ev with
  | EvSettle p s =>
      if bool_decide (p ∈ (snd <$> calls w)) && negb (is_pending s)
         && from_option is_pending false (promise_state w p)
      then after (settle p s w)
      else None
  | EvReact p =>
      match promise_state w p, take_reaction p (reactions w) with
      | Some s, Some (r, rest) =>
          if is_pending s then None else after (react r s (set_reactions rest w))
      | _, _ => None
      end
  | WritableStream_abort_ev reason => after (WritableStream_abort A reason w)
  | WritableStream_close_ev => after (WritableStream_close A w)
  | WritableStream_getWriter_ev => after (WritableStream_getWriter w)
  | Writer_abort_ev writer reason => after (WritableStreamDefaultWriter_abort A writer reason w)
  | Writer_close_ev writer => after (WritableStreamDefaultWriter_close A writer w)
  | Writer_releaseLock_ev writer => after (WritableStreamDefaultWriter_releaseLock writer w)
  | Writer_write_ev writer chunk => after (WritableStreamDefaultWriter_write A writer chunk w)
  | WritableController_error_ev e => after (WritableStreamDefaultController_error A e w)
  | ReadableStream_cancel_ev reason => after (ReadableStream_cancel A reason w)
  | ReadableStream_getReader_ev => after (ReadableStream_getReader w)
  | Reader_cancel_ev reader reason => after (ReadableStreamDefaultReader_cancel A reader reason w)
  | Reader_read_ev reader => after (ReadableStreamDefaultReader_read A reader w)
  | Reader_releaseLock_ev reader => after (ReadableStreamDefaultReader_releaseLock reader w)
  | ReadableController_close_ev => after (ReadableStreamDefaultController_close w)
  | ReadableController_enqueue_ev chunk => after (ReadableStreamDefaultController_enqueue A chunk w)
  | ReadableController_error_ev e => after (ReadableStreamDefaultController_error e w)
  | TransformController_enqueue_ev chunk => after (TransformStreamDefaultController_enqueue chunk w)
  | TransformController_error_ev reason => after (TransformStreamDefaultController_error reason w)
  | TransformController_terminate_ev => after (TransformStreamDefaultController_terminate w)
  end.

Fixpoint run (evs : list Event) (w : World) : option World :=
  match evs with
  | [] => Some w
  | ev :: evs' =>
      match step ev w with
      | Some w' => run evs' w'
      | None => None
      end
  end.

(** ** Reachable worlds and their invariant *)

(** A world is reachable when one of the three constructors made it from the
    empty world, or an event led to it from a reachable world. *)
Inductive reachable : World -> Prop :=
| reachable_writable underlyingSink strategy w :
    WritableStream_constructor TransformStream_algorithms underlyingSink strategy empty_world
      = Normal tt w ->
    reachable w
| reachable_readable underlyingSource strategy w :
    ReadableStream_constructor TransformStream_algorithms underlyingSource strategy empty_world
      = Normal tt w ->
    reachable w
| reachable_transform transformer writableStrategy readableStrategy w :
    TransformStream_constructor transformer writableStrategy readableStrategy empty_world
      = Normal tt w ->
    reachable w
| reachable_step ev w w' :
    reachable w ->
    step ev w = Some w' ->
    reachable w'.

(** The closed promise of a writer has its two closures exactly while it is
    pending; so has the ready promise. *)
Definition closedPromise_consistent (x : WritableStreamDefaultWriter) : Prop :=
  if bool_decide (wr_closedPromiseState x = closed_pending)
  then defined (wr_closedPromise_resolve x) = true /\ defined (wr_closedPromise_reject x) = true
  else wr_closedPromise_resolve x = None /\ wr_closedPromise_reject x = None.

Definition readyPromise_consistent (x : WritableStreamDefaultWriter) : Prop :=
  if bool_decide (wr_readyPromiseState x = ready_pending)
  then defined (wr_readyPromise_resolve x) = true /\ defined (wr_readyPromise_reject x) = true
  else wr_readyPromise_resolve x = None /\ wr_readyPromise_reject x = None.

Definition writer_invariant (w : World) (x : WritableStreamDefaultWriter) : Prop :=
  wr_ownerWritableStream x = true /\
  closedPromise_consistent x /\
  readyPromise_consistent x /\
  (ws_state (ws w) = Wwritable \/ ws_state (ws w) = Werroring ->
   wr_closedPromiseState x = closed_pending).

Record invariant (w : World) : Prop := {
  (* a pending abort request exists only while the stream is erroring *)
  inv_abort :
    defined (ws_pendingAbortRequest (ws w)) = true -> ws_state (ws w) = Werroring;
  (* a close request is queued or in flight, not both *)
  inv_close :
    defined (ws_closeRequest (ws w)) = true ->
    defined (ws_inFlightCloseRequest (ws w)) = false;
  (* while the sink works on the close, the stream is neither closed nor
     errored *)
  inv_inFlightClose :
    defined (ws_inFlightCloseRequest (ws w)) = true ->
    ws_state (ws w) = Wwritable \/ ws_state (ws w) = Werroring;
  (* the stored error is set only once the stream is erroring *)
  inv_storedError :
    ws_state (ws w) = Wwritable -> is_undefined (ws_storedError (ws w)) = true;
  (* the writer that holds the lock exists and is consistent *)
  inv_writer :
    forall writer, ws_writer (ws w) = Some writer ->
      exists x, writers w !! writer = Some x /\ writer_invariant w x;
  (* the reader that holds the lock exists *)
  inv_reader :
    forall reader, rs_reader (rs w) = Some reader -> is_Some (readers w !! reader);
  (* a further pull is asked for only while one is in flight *)
  inv_pullAgain :
    rc_pullAgain (rc w) = true -> rc_pulling (rc w) = true
}.

(** *** What stays quiet

    Three facts that, once true, stay true: a closed writable stream stays
    closed and calls the sink's [abort] no more; a writable stream that left
    the state writable does not come back and calls the sink's [write] no
    more; a closed readable stream stays closed and calls the source's
    [cancel] no more. *)

Definition is_call_abort (c : UserCall * PromiseId) : bool :=
  match fst c with
  | call_abort _ => true
  | _ => false
  end.

Definition is_call_write (c : UserCall * PromiseId) : bool :=
  match fst c with
  | call_write _ => true
  | _ => false
  end.

Definition is_call_cancel (c : UserCall * PromiseId) : bool :=
  match fst c with
  | call_cancel _ => true
  | _ => false
  end.

Inductive Quiet :=
| no_abort (log : list (UserCall * PromiseId))
| no_write (log : list (UserCall * PromiseId))
| no_cancel (log : list (UserCall * PromiseId)).

Definition quiet (q : Quiet) (w : World) : Prop :=
  match q with
  | no_abort log =>
      ws_state (ws w) = Wclosed /\ filter is_call_abort (calls w) = log
  | no_write log =>
      ws_state (ws w) <> Wwritable /\ filter is_call_write (calls w) = log
  | no_cancel log =>
      rs_state (rs w) = Rclosed /\ filter is_call_cancel (calls w) = log
  end.

(** *** Weakest preconditions *)

Definition wp {A} (m : M A) (Q : A -> World -> Prop) (E : Value -> World -> Prop)
    (w : World) : Prop :=
  match m w with
  | Normal a w' => Q a w'
  | Throw e w' => E e w'
  | AssertionFailed => True
  end.

(** [m] keeps [I]: from a world in [I], [m] ends in [I], however it ends. *)
Definition keeps {A} (I : World -> Prop) (m : M A) : Prop :=
  forall w, I w -> wp m (fun _ => I) (fun _ => I) w.

(** [twp m Q E w]: from [w], [m] ends, and it ends in [Q] when it returns
    and in [E] when it throws; no assertion fails on the way. *)
Definition twp {A} (m : M A) (Q : A -> World -> Prop) (E : Value -> World -> Prop)
    (w : World) : Prop :=
  match m w with
  | Normal a w' => Q a w'
  | Throw e w' => E e w'
  | AssertionFailed => False
  end.

(** The heap after the promises of [l] were settled as [s], the first one
    first. *)
Definition settle_all (s : PromiseState) (l : list PromiseId) (h : list Promise)
    : list Promise :=
  foldl (fun h p => alter (settle_cell s) p h) h l.

(** ** Scenarios

    A scenario is the world that a constructor and a list of events lead to;
    such a world is reachable. *)

Definition run_writable (underlyingSink : UnderlyingSink) (strategy : QueuingStrategy)
    (evs : list Event) : option World :=
  match WritableStream_constructor TransformStream_algorithms underlyingSink strategy
          empty_world with
  | Normal _ w => run evs w
  | _ => None
  end.

Definition run_readable (underlyingSource : UnderlyingSource) (strategy : QueuingStrategy)
    (evs : list Event) : option World :=
  match ReadableStream_constructor TransformStream_algorithms underlyingSource strategy
          empty_world with
  | Normal _ w => run evs w
  | _ => None
  end.

Definition run_transform (transformer : Transformer)
    (writableStrategy readableStrategy : QueuingStrategy) (evs : list Event)
    : option World :=
  match TransformStream_constructor transformer writableStrategy readableStrategy
          empty_world with
  | Normal _ w => run evs w
  | _ => None
  end.

Definition sink_with_all_methods : UnderlyingSink :=
  {| sink_start := true; sink_write := true; sink_close := true; sink_abort := true;
     sink_type := undefined |}.

Definition source_with_all_methods : UnderlyingSource :=
  {| source_start := true; source_pull := true; source_cancel := true;
     source_type := undefined |}.


Definition transformer_with_flush : Transformer :=
  {| transformer_start := false; transformer_transform := false;
     transformer_flush := true; transformer_readableType := undefined;
     transformer_writableType := undefined |}.

Definition default_strategy : QueuingStrategy :=
  {| strategy_highWaterMark := None; strategy_size := None |}.

(** A strategy whose size function throws the string E. *)
Definition throwing_strategy : QueuingStrategy :=
  {| strategy_highWaterMark := None;
     strategy_size := Some (fun _ => SizeThrow (JSString "E")) |}.

(** A writable stream, as its constructor leaves it: [start] was called and
    has not settled. *)
Definition new_writable_world : World :=
  default empty_world (run_writable sink_with_all_methods default_strategy []).

(** A writable stream that was aborted before [start] settled: it is
    erroring. *)
Definition aborted_writable_world : World :=
  default empty_world
    (run_writable sink_with_all_methods default_strategy
       [WritableStream_abort_ev (JSString "reason")]).

(** A writable stream whose writer asked to close, then to abort, while the
    sink's [close] has not settled: [start] is promise 0, the close request
    promise 3, the promise of the sink's [close] promise 4. *)
Definition abort_during_close_world : World :=
  default empty_world
    (run_writable sink_with_all_methods default_strategy
       [ WritableStream_getWriter_ev; EvSettle 0 (Fulfilled undefined); EvReact 0;
         Writer_close_ev 0; Writer_abort_ev 0 (JSString "reason") ]).


(** The same, after the writer asked to close while [start] has not
    settled: the close request is queued. *)
Definition throwing_size_closing_world : World :=
  default empty_world
    (run_writable sink_with_all_methods throwing_strategy
       [WritableStream_getWriter_ev; Writer_close_ev 0]).


(** A readable stream with a reader that waits for a chunk: the read request
    is promise 2. *)
Definition waiting_reader_world : World :=
  default empty_world
    (run_readable source_with_all_methods default_strategy
       [ReadableStream_getReader_ev; Reader_read_ev 0]).




(** A transform stream whose writer closed it; [flush], promise 5, has not
    settled. *)
Definition flushing_world : World :=
  default empty_world
    (run_transform transformer_with_flush default_strategy default_strategy
       [EvReact 0; EvReact 0; WritableStream_getWriter_ev; Writer_close_ev 0]).

(** ** The spec's should-pull *)

(** The number of read requests that wait at the reader of the stream. *)
Definition pending_read_requests (w : World) : nat :=
  match rs_reader (rs w) with
  | Some reader =>
      match readers w !! reader with
      | Some x => length (rd_readRequests x)
      | None => 0
      end
  | None => 0
  end.

(** The spec's words (4.D), not the code's: should-pull "is true iff the
    controller can still close-or-enqueue AND started AND ((locked and pending
    reads > 0) or desiredSize > 0)". *)
Definition should_pull_spec (w : World) : bool :=
  ReadableStreamDefaultControllerCanCloseOrEnqueue w &&
  rc_started (rc w) &&
  ((IsReadableStreamLocked w && bool_decide (0 < pending_read_requests w)) ||
   (0 <? rc_strategyHWM (rc w) - rc_queueTotalSize (rc w))%float).

(** ** More scenarios *)

(** A writable stream with a writer, after [start], promise 0, was
    fulfilled. *)
Definition started_writer_world : World :=
  default empty_world
    (run_writable sink_with_all_methods default_strategy
       [WritableStream_getWriter_ev; EvSettle 0 (Fulfilled undefined); EvReact 0]).

(** A writable stream that its writer closed: the sink's [close], promise 4,
    was fulfilled. *)
Definition closed_writable_world : World :=
  default empty_world
    (run_writable sink_with_all_methods default_strategy
       [ WritableStream_getWriter_ev; EvSettle 0 (Fulfilled undefined); EvReact 0;
         Writer_close_ev 0; EvSettle 4 (Fulfilled undefined); EvReact 4 ]).

(** A writable stream whose writer released its lock. *)
Definition released_writer_world : World :=
  default empty_world
    (run_writable sink_with_all_methods default_strategy
       [WritableStream_getWriter_ev; Writer_releaseLock_ev 0]).

(** A readable stream with a reader, closed by its controller. *)
Definition closed_reader_world : World :=
  default empty_world
    (run_readable source_with_all_methods default_strategy
       [ReadableStream_getReader_ev; ReadableController_close_ev]).

(** A readable stream with a reader, errored by its controller with the
    string e. *)
Definition errored_reader_world : World :=
  default empty_world
    (run_readable source_with_all_methods default_strategy
       [ReadableStream_getReader_ev; ReadableController_error_ev (JSString "e")]).

(** The world [w] with one promise more, which is settled as [s]. *)
Definition with_settled_promise (s : PromiseState) (w : World) : World :=
  set_heap (heap w ++ [{| PromiseState_of := s; PromiseIsHandled := false |}]) w.

(** A readable stream whose source is pulling, promise 1, while a reader
    waits for a chunk: a further pull is asked for. *)
Definition pulling_again_world : World :=
  default empty_world
    (run_readable source_with_all_methods default_strategy
       [ EvSettle 0 (Fulfilled undefined); EvReact 0;
         ReadableStream_getReader_ev; Reader_read_ev 0 ]).

(** A readable stream with a reader, one chunk queued and a close
    requested. *)
Definition draining_world : World :=
  default empty_world
    (run_readable source_with_all_methods default_strategy
       [ ReadableStream_getReader_ev; ReadableController_enqueue_ev (JSString "chunk");
         ReadableController_close_ev ]).

(** * Properties *)

(** ** Lists of objects and promises *)

Lemma lookup_snoc_new {A} (l : list A) (x : A) : (l ++ [x]) !! length l = Some x.
Proof. by apply list_lookup_middle. Qed.

Lemma lookup_snoc_at {A} (l : list A) (x : A) i :
  i = length l -> (l ++ [x]) !! i = Some x.
Proof. intros ->. apply lookup_snoc_new. Qed.

Lemma lookup_snoc_old {A} (l : list A) (x : A) i :
  i < length l -> (l ++ [x]) !! i = l !! i.
Proof. intros. by apply lookup_app_l. Qed.

Lemma alter_snoc_new {A} (f : A -> A) (l : list A) (x : A) :
  alter f (length l) (l ++ [x]) = l ++ [f x].
Proof. rewrite alter_app_r_alt; [|done]. by rewrite Nat.sub_diag. Qed.

Lemma alter_snoc_old {A} (f : A -> A) (l : list A) (x : A) i :
  i < length l -> alter f i (l ++ [x]) = alter f i l ++ [x].
Proof. intros. by apply alter_app_l. Qed.

(** ** Evaluating stream code

    [ev] unfolds the definitions of the embedding and nothing else, so that
    list lookups and [bool_decide] stay as they are written and can be
    rewritten. *)

Ltac len :=
  repeat first [ rewrite length_alter | rewrite length_app ]; simpl; lia.

Ltac ev :=
  lazy beta iota zeta delta
    [    par_promise set_par_promise par_reason set_par_reason par_wasAlreadyErroring
    set_par_wasAlreadyErroring ws_state set_ws_state ws_storedError set_ws_storedError
    ws_writer set_ws_writer ws_writeRequests set_ws_writeRequests ws_inFlightWriteRequest
    set_ws_inFlightWriteRequest ws_closeRequest set_ws_closeRequest
    ws_inFlightCloseRequest set_ws_inFlightCloseRequest ws_pendingAbortRequest
    set_ws_pendingAbortRequest ws_backpressure set_ws_backpressure wc_queue set_wc_queue
    wc_queueTotalSize set_wc_queueTotalSize wc_started set_wc_started
    wc_strategySizeAlgorithm set_wc_strategySizeAlgorithm wc_strategyHWM
    set_wc_strategyHWM wc_writeAlgorithm set_wc_writeAlgorithm wc_closeAlgorithm
    set_wc_closeAlgorithm wc_abortAlgorithm set_wc_abortAlgorithm wr_ownerWritableStream
    set_wr_ownerWritableStream wr_closedPromise set_wr_closedPromise
    wr_closedPromise_resolve set_wr_closedPromise_resolve wr_closedPromise_reject
    set_wr_closedPromise_reject wr_closedPromiseState set_wr_closedPromiseState
    wr_readyPromise set_wr_readyPromise wr_readyPromise_resolve
    set_wr_readyPromise_resolve wr_readyPromise_reject set_wr_readyPromise_reject
    wr_readyPromiseState set_wr_readyPromiseState rs_state set_rs_state rs_reader
    set_rs_reader rs_storedError set_rs_storedError rs_disturbed set_rs_disturbed rc_queue
    set_rc_queue rc_queueTotalSize set_rc_queueTotalSize rc_started set_rc_started
    rc_closeRequested set_rc_closeRequested rc_pullAgain set_rc_pullAgain rc_pulling
    set_rc_pulling rc_strategySizeAlgorithm set_rc_strategySizeAlgorithm rc_strategyHWM
    set_rc_strategyHWM rc_pullAlgorithm set_rc_pullAlgorithm rc_cancelAlgorithm
    set_rc_cancelAlgorithm rd_forAuthorCode set_rd_forAuthorCode rd_ownerReadableStream
    set_rd_ownerReadableStream rd_closedPromise set_rd_closedPromise
    rd_closedPromise_resolve set_rd_closedPromise_resolve rd_closedPromise_reject
    set_rd_closedPromise_reject rd_readRequests set_rd_readRequests ts_backpressure
    set_ts_backpressure ts_backpressureChangePromise set_ts_backpressureChangePromise
    ts_backpressureChangePromise_resolve set_ts_backpressureChangePromise_resolve
    tc_transformAlgorithm set_tc_transformAlgorithm tc_flushAlgorithm
    set_tc_flushAlgorithm heap set_heap reactions set_reactions calls set_calls ws set_ws
    wc set_wc writers set_writers rs set_rs rc set_rc readers set_readers ts set_ts tc
    set_tc upd_ws upd_wc upd_rs upd_rc upd_ts upd_tc upd_writer upd_reader PromiseState_of
    PromiseIsHandled value size ret bind throw try_catch gets modify when assert
    the_writer the_reader is_undefined not_a_function newPromise promise_state settle_cell
    settle resolvePromise rejectPromise promiseResolvedWith promiseRejectedWith
    setPromiseIsHandledToTrue uponPromise transformPromiseWith IsFiniteNonNegativeNumber
    EnqueueValueWithSize DequeueValue PeekQueueValue call_strategySizeAlgorithm defined
    invoke streamBrandCheckException_W defaultWriterBrandCheckException
    defaultWriterLockException defaultWriterClosedPromiseInitialize
    defaultWriterClosedPromiseReject defaultWriterClosedPromiseInitializeAsRejected
    defaultWriterClosedPromiseResetToRejected defaultWriterClosedPromiseResolve
    defaultWriterClosedPromiseInitializeAsResolved defaultWriterReadyPromiseInitialize
    defaultWriterReadyPromiseReject defaultWriterReadyPromiseInitializeAsRejected
    defaultWriterReadyPromiseResolve defaultWriterReadyPromiseInitializeAsResolved
    defaultWriterReadyPromiseReset defaultWriterReadyPromiseResetToRejected
    IsWritableStreamLocked WritableStreamCloseQueuedOrInFlight
    WritableStreamHasOperationMarkedInFlight
    WritableStreamDefaultWriterEnsureClosedPromiseRejected
    WritableStreamDefaultWriterEnsureReadyPromiseRejected
    WritableStreamRejectCloseAndClosedPromiseIfNeeded
    WritableStreamDefaultControllerClearAlgorithms
    WritableStreamDefaultController_AbortSteps WritableStreamDefaultController_ErrorSteps
    WritableStreamFinishErroring WritableStreamStartErroring
    WritableStreamDealWithRejection WritableStreamFinishInFlightWrite
    WritableStreamFinishInFlightWriteWithError WritableStreamFinishInFlightClose
    WritableStreamFinishInFlightCloseWithError WritableStreamMarkCloseRequestInFlight
    WritableStreamMarkFirstWriteRequestInFlight WritableStreamUpdateBackpressure
    WritableStreamDefaultControllerGetDesiredSize
    WritableStreamDefaultControllerGetBackpressure WritableStreamDefaultControllerError
    WritableStreamDefaultControllerErrorIfNeeded
    WritableStreamDefaultController_EnqueueValueWithSize
    WritableStreamDefaultController_DequeueValue
    WritableStreamDefaultControllerProcessClose
    WritableStreamDefaultControllerProcessWrite
    WritableStreamDefaultControllerAdvanceQueueIfNeeded
    WritableStreamDefaultControllerClose WritableStreamDefaultControllerGetChunkSize
    WritableStreamDefaultControllerWrite WritableStreamAddWriteRequest WritableStreamAbort
    state_name WritableStreamClose WritableStreamDefaultWriterAbort
    WritableStreamDefaultWriterClose WritableStreamDefaultWriterCloseWithErrorPropagation
    WritableStreamDefaultWriterGetDesiredSize WritableStreamDefaultWriterRelease
    WritableStreamDefaultWriterWrite blank_writer WritableStreamDefaultWriter_constructor
    AcquireWritableStreamDefaultWriter IsWritableStreamDefaultWriter
    WritableStreamDefaultWriter_closed WritableStreamDefaultWriter_desiredSize
    WritableStreamDefaultWriter_ready WritableStreamDefaultWriter_abort
    WritableStreamDefaultWriter_close WritableStreamDefaultWriter_releaseLock
    WritableStreamDefaultWriter_write WritableStreamDefaultController_error
    InitializeWritableStream SetUpWritableStreamDefaultController IsNonNegativeNumber
    CreateWritableStream method SetUpWritableStreamDefaultControllerFromUnderlyingSink
    MakeSizeAlgorithmFromSizeFunction ValidateAndNormalizeHighWaterMark
    WritableStream_constructor WritableStream_locked WritableStream_abort
    WritableStream_close WritableStream_getWriter WStart_reaction WSinkWrite_reaction
    WSinkClose_reaction WSinkAbort_reaction sink_start sink_write sink_close sink_abort
    sink_type strategy_highWaterMark strategy_size ReadableStreamCreateReadResult
    readerLockException defaultReaderClosedPromiseResolve defaultReaderClosedPromiseReject
    defaultReaderClosedPromiseInitialize ReadableStreamReaderGenericInitialize
    IsReadableStreamLocked ReadableStreamClose ReadableStreamError
    ReadableStreamAddReadRequest ReadableStreamFulfillReadRequest
    ReadableStreamGetNumReadRequests ReadableStreamHasDefaultReader
    ReadableStreamDefaultControllerCanCloseOrEnqueue
    ReadableStreamDefaultControllerGetDesiredSize
    ReadableStreamDefaultControllerShouldCallPull
    ReadableStreamDefaultControllerClearAlgorithms
    ReadableStreamDefaultControllerCallPullIfNeeded ReadableStreamDefaultControllerClose
    ReadableStreamDefaultController_ResetQueue ReadableStreamDefaultControllerError
    ReadableStreamDefaultController_EnqueueValueWithSize
    ReadableStreamDefaultController_DequeueValue ReadableStreamDefaultControllerEnqueue
    ReadableStreamDefaultControllerHasBackpressure defaultControllerBrandCheckException_R
    ReadableStreamDefaultController_desiredSize ReadableStreamDefaultController_close
    ReadableStreamDefaultController_enqueue ReadableStreamDefaultController_error
    ReadableStreamDefaultController_CancelSteps ReadableStreamDefaultController_PullSteps
    InitializeReadableStream SetUpReadableStreamDefaultController
    SetUpReadableStreamDefaultControllerFromUnderlyingSource CreateReadableStream
    ReadableStream_constructor ReadableStreamCancel ReadableStream_locked
    ReadableStream_cancel blank_reader defaultReaderBrandCheckException
    ReadableStreamDefaultReader_constructor AcquireReadableStreamDefaultReader
    ReadableStream_getReader IsReadableStreamDefaultReader
    ReadableStreamReaderGenericCancel ReadableStreamReaderGenericRelease
    ReadableStreamDefaultReaderRead ReadableStreamDefaultReader_closed
    ReadableStreamDefaultReader_cancel ReadableStreamDefaultReader_read
    ReadableStreamDefaultReader_releaseLock RStart_reaction RPull_reaction source_start
    source_pull source_cancel source_type no_algorithm TransformStreamSetBackpressure
    TransformStreamDefaultControllerClearAlgorithms
    TransformStreamErrorWritableAndUnblockWrite TransformStreamError
    TransformStreamDefaultSourcePullAlgorithm TransformStream_cancelAlgorithm
    TransformStreamDefaultSource TransformStreamDefaultControllerEnqueue
    TransformStreamDefaultControllerError TransformStream_defaultTransformAlgorithm
    TransformStreamDefaultTransformer TransformStreamDefaultControllerPerformTransform
    TransformStreamDefaultControllerTerminate TransformStreamDefaultSinkWriteAlgorithm
    TransformStreamDefaultSinkAbortAlgorithm TransformStreamDefaultSinkCloseAlgorithm
    TransformStream_algorithms TBackpressureChange_reaction TPerformTransform_reaction
    TFlush_reaction SetUpTransformStreamDefaultController
    SetUpTransformStreamDefaultControllerFromTransformer InitializeTransformStream
    TransformStream_constructor TransformStreamDefaultController_desiredSize
    TransformStreamDefaultController_enqueue TransformStreamDefaultController_error
    TransformStreamDefaultController_terminate settle_derived settle_derived_as swallow
    react is_pending after transformer_start transformer_transform transformer_flush
    transformer_readableType transformer_writableType
     fmap option_fmap option_map from_option default negb andb orb
     Datatypes.fst Datatypes.snd head tail].

Ltac ev_in H :=
  lazy beta iota zeta delta
    [    par_promise set_par_promise par_reason set_par_reason par_wasAlreadyErroring
    set_par_wasAlreadyErroring ws_state set_ws_state ws_storedError set_ws_storedError
    ws_writer set_ws_writer ws_writeRequests set_ws_writeRequests ws_inFlightWriteRequest
    set_ws_inFlightWriteRequest ws_closeRequest set_ws_closeRequest
    ws_inFlightCloseRequest set_ws_inFlightCloseRequest ws_pendingAbortRequest
    set_ws_pendingAbortRequest ws_backpressure set_ws_backpressure wc_queue set_wc_queue
    wc_queueTotalSize set_wc_queueTotalSize wc_started set_wc_started
    wc_strategySizeAlgorithm set_wc_strategySizeAlgorithm wc_strategyHWM
    set_wc_strategyHWM wc_writeAlgorithm set_wc_writeAlgorithm wc_closeAlgorithm
    set_wc_closeAlgorithm wc_abortAlgorithm set_wc_abortAlgorithm wr_ownerWritableStream
    set_wr_ownerWritableStream wr_closedPromise set_wr_closedPromise
    wr_closedPromise_resolve set_wr_closedPromise_resolve wr_closedPromise_reject
    set_wr_closedPromise_reject wr_closedPromiseState set_wr_closedPromiseState
    wr_readyPromise set_wr_readyPromise wr_readyPromise_resolve
    set_wr_readyPromise_resolve wr_readyPromise_reject set_wr_readyPromise_reject
    wr_readyPromiseState set_wr_readyPromiseState rs_state set_rs_state rs_reader
    set_rs_reader rs_storedError set_rs_storedError rs_disturbed set_rs_disturbed rc_queue
    set_rc_queue rc_queueTotalSize set_rc_queueTotalSize rc_started set_rc_started
    rc_closeRequested set_rc_closeRequested rc_pullAgain set_rc_pullAgain rc_pulling
    set_rc_pulling rc_strategySizeAlgorithm set_rc_strategySizeAlgorithm rc_strategyHWM
    set_rc_strategyHWM rc_pullAlgorithm set_rc_pullAlgorithm rc_cancelAlgorithm
    set_rc_cancelAlgorithm rd_forAuthorCode set_rd_forAuthorCode rd_ownerReadableStream
    set_rd_ownerReadableStream rd_closedPromise set_rd_closedPromise
    rd_closedPromise_resolve set_rd_closedPromise_resolve rd_closedPromise_reject
    set_rd_closedPromise_reject rd_readRequests set_rd_readRequests ts_backpressure
    set_ts_backpressure ts_backpressureChangePromise set_ts_backpressureChangePromise
    ts_backpressureChangePromise_resolve set_ts_backpressureChangePromise_resolve
    tc_transformAlgorithm set_tc_transformAlgorithm tc_flushAlgorithm
    set_tc_flushAlgorithm heap set_heap reactions set_reactions calls set_calls ws set_ws
    wc set_wc writers set_writers rs set_rs rc set_rc readers set_readers ts set_ts tc
    set_tc upd_ws upd_wc upd_rs upd_rc upd_ts upd_tc upd_writer upd_reader PromiseState_of
    PromiseIsHandled value size ret bind throw try_catch gets modify when assert
    the_writer the_reader is_undefined not_a_function newPromise promise_state settle_cell
    settle resolvePromise rejectPromise promiseResolvedWith promiseRejectedWith
    setPromiseIsHandledToTrue uponPromise transformPromiseWith IsFiniteNonNegativeNumber
    EnqueueValueWithSize DequeueValue PeekQueueValue call_strategySizeAlgorithm defined
    invoke streamBrandCheckException_W defaultWriterBrandCheckException
    defaultWriterLockException defaultWriterClosedPromiseInitialize
    defaultWriterClosedPromiseReject defaultWriterClosedPromiseInitializeAsRejected
    defaultWriterClosedPromiseResetToRejected defaultWriterClosedPromiseResolve
    defaultWriterClosedPromiseInitializeAsResolved defaultWriterReadyPromiseInitialize
    defaultWriterReadyPromiseReject defaultWriterReadyPromiseInitializeAsRejected
    defaultWriterReadyPromiseResolve defaultWriterReadyPromiseInitializeAsResolved
    defaultWriterReadyPromiseReset defaultWriterReadyPromiseResetToRejected
    IsWritableStreamLocked WritableStreamCloseQueuedOrInFlight
    WritableStreamHasOperationMarkedInFlight
    WritableStreamDefaultWriterEnsureClosedPromiseRejected
    WritableStreamDefaultWriterEnsureReadyPromiseRejected
    WritableStreamRejectCloseAndClosedPromiseIfNeeded
    WritableStreamDefaultControllerClearAlgorithms
    WritableStreamDefaultController_AbortSteps WritableStreamDefaultController_ErrorSteps
    WritableStreamFinishErroring WritableStreamStartErroring
    WritableStreamDealWithRejection WritableStreamFinishInFlightWrite
    WritableStreamFinishInFlightWriteWithError WritableStreamFinishInFlightClose
    WritableStreamFinishInFlightCloseWithError WritableStreamMarkCloseRequestInFlight
    WritableStreamMarkFirstWriteRequestInFlight WritableStreamUpdateBackpressure
    WritableStreamDefaultControllerGetDesiredSize
    WritableStreamDefaultControllerGetBackpressure WritableStreamDefaultControllerError
    WritableStreamDefaultControllerErrorIfNeeded
    WritableStreamDefaultController_EnqueueValueWithSize
    WritableStreamDefaultController_DequeueValue
    WritableStreamDefaultControllerProcessClose
    WritableStreamDefaultControllerProcessWrite
    WritableStreamDefaultControllerAdvanceQueueIfNeeded
    WritableStreamDefaultControllerClose WritableStreamDefaultControllerGetChunkSize
    WritableStreamDefaultControllerWrite WritableStreamAddWriteRequest WritableStreamAbort
    state_name WritableStreamClose WritableStreamDefaultWriterAbort
    WritableStreamDefaultWriterClose WritableStreamDefaultWriterCloseWithErrorPropagation
    WritableStreamDefaultWriterGetDesiredSize WritableStreamDefaultWriterRelease
    WritableStreamDefaultWriterWrite blank_writer WritableStreamDefaultWriter_constructor
    AcquireWritableStreamDefaultWriter IsWritableStreamDefaultWriter
    WritableStreamDefaultWriter_closed WritableStreamDefaultWriter_desiredSize
    WritableStreamDefaultWriter_ready WritableStreamDefaultWriter_abort
    WritableStreamDefaultWriter_close WritableStreamDefaultWriter_releaseLock
    WritableStreamDefaultWriter_write WritableStreamDefaultController_error
    InitializeWritableStream SetUpWritableStreamDefaultController IsNonNegativeNumber
    CreateWritableStream method SetUpWritableStreamDefaultControllerFromUnderlyingSink
    MakeSizeAlgorithmFromSizeFunction ValidateAndNormalizeHighWaterMark
    WritableStream_constructor WritableStream_locked WritableStream_abort
    WritableStream_close WritableStream_getWriter WStart_reaction WSinkWrite_reaction
    WSinkClose_reaction WSinkAbort_reaction sink_start sink_write sink_close sink_abort
    sink_type strategy_highWaterMark strategy_size ReadableStreamCreateReadResult
    readerLockException defaultReaderClosedPromiseResolve defaultReaderClosedPromiseReject
    defaultReaderClosedPromiseInitialize ReadableStreamReaderGenericInitialize
    IsReadableStreamLocked ReadableStreamClose ReadableStreamError
    ReadableStreamAddReadRequest ReadableStreamFulfillReadRequest
    ReadableStreamGetNumReadRequests ReadableStreamHasDefaultReader
    ReadableStreamDefaultControllerCanCloseOrEnqueue
    ReadableStreamDefaultControllerGetDesiredSize
    ReadableStreamDefaultControllerShouldCallPull
    ReadableStreamDefaultControllerClearAlgorithms
    ReadableStreamDefaultControllerCallPullIfNeeded ReadableStreamDefaultControllerClose
    ReadableStreamDefaultController_ResetQueue ReadableStreamDefaultControllerError
    ReadableStreamDefaultController_EnqueueValueWithSize
    ReadableStreamDefaultController_DequeueValue ReadableStreamDefaultControllerEnqueue
    ReadableStreamDefaultControllerHasBackpressure defaultControllerBrandCheckException_R
    ReadableStreamDefaultController_desiredSize ReadableStreamDefaultController_close
    ReadableStreamDefaultController_enqueue ReadableStreamDefaultController_error
    ReadableStreamDefaultController_CancelSteps ReadableStreamDefaultController_PullSteps
    InitializeReadableStream SetUpReadableStreamDefaultController
    SetUpReadableStreamDefaultControllerFromUnderlyingSource CreateReadableStream
    ReadableStream_constructor ReadableStreamCancel ReadableStream_locked
    ReadableStream_cancel blank_reader defaultReaderBrandCheckException
    ReadableStreamDefaultReader_constructor AcquireReadableStreamDefaultReader
    ReadableStream_getReader IsReadableStreamDefaultReader
    ReadableStreamReaderGenericCancel ReadableStreamReaderGenericRelease
    ReadableStreamDefaultReaderRead ReadableStreamDefaultReader_closed
    ReadableStreamDefaultReader_cancel ReadableStreamDefaultReader_read
    ReadableStreamDefaultReader_releaseLock RStart_reaction RPull_reaction source_start
    source_pull source_cancel source_type no_algorithm TransformStreamSetBackpressure
    TransformStreamDefaultControllerClearAlgorithms
    TransformStreamErrorWritableAndUnblockWrite TransformStreamError
    TransformStreamDefaultSourcePullAlgorithm TransformStream_cancelAlgorithm
    TransformStreamDefaultSource TransformStreamDefaultControllerEnqueue
    TransformStreamDefaultControllerError TransformStream_defaultTransformAlgorithm
    TransformStreamDefaultTransformer TransformStreamDefaultControllerPerformTransform
    TransformStreamDefaultControllerTerminate TransformStreamDefaultSinkWriteAlgorithm
    TransformStreamDefaultSinkAbortAlgorithm TransformStreamDefaultSinkCloseAlgorithm
    TransformStream_algorithms TBackpressureChange_reaction TPerformTransform_reaction
    TFlush_reaction SetUpTransformStreamDefaultController
    SetUpTransformStreamDefaultControllerFromTransformer InitializeTransformStream
    TransformStream_constructor TransformStreamDefaultController_desiredSize
    TransformStreamDefaultController_enqueue TransformStreamDefaultController_error
    TransformStreamDefaultController_terminate settle_derived settle_derived_as swallow
    react is_pending after transformer_start transformer_transform transformer_flush
    transformer_readableType transformer_writableType
     fmap option_fmap option_map from_option default negb andb orb
     Datatypes.fst Datatypes.snd head tail] in H.

Ltac sym_step :=
  first
    [ progress ev
    | rewrite lookup_snoc_new
    | rewrite alter_snoc_new
    | rewrite lookup_snoc_old by len
    | rewrite alter_snoc_old by len
    | rewrite bool_decide_eq_true_2 by done
    | rewrite bool_decide_eq_false_2 by done ].

Ltac sym := repeat sym_step.

(** Taking a world apart into its fields. *)
Ltac destruct_world w :=
  let h := fresh "h" in let rx := fresh "rx" in let cl := fresh "cl" in
  let st := fresh "st" in let se := fresh "se" in let wr := fresh "wr" in
  let wrq := fresh "wrq" in let ifw := fresh "ifw" in let cr := fresh "cr" in
  let ifc := fresh "ifc" in let par := fresh "par" in let bp := fresh "bp" in
  let c := fresh "c" in let wrs := fresh "wrs" in
  let r := fresh "r" in let rcc := fresh "rcc" in let rds := fresh "rds" in
  let t := fresh "t" in let tcc := fresh "tcc" in
  destruct w as [h rx cl [st se wr wrq ifw cr ifc par bp] c wrs r rcc rds t tcc];
  simpl in *.

(** ** Rules of the weakest precondition

    [wp] is partial: a failed assertion ends the run, and nothing is asked
    of it.  A promise that is settled or created changes the heap only, and
    the rules forget what the heap holds. *)

Lemma wp_bind {A B} (m : M A) (k : A -> M B) Q E w :
  wp m (fun a w' => wp (k a) Q E w') E w -> wp (bind m k) Q E w.
Proof. unfold wp, bind. by destruct (m w). Qed.

Lemma wp_ret {A} (a : A) (Q : A -> World -> Prop) E w : Q a w -> wp (ret a) Q E w.
Proof. done. Qed.

Lemma wp_throw {A} e (Q : A -> World -> Prop) (E : Value -> World -> Prop) w :
  E e w -> wp (throw e) Q E w.
Proof. done. Qed.

Lemma wp_gets {A} (f : World -> A) (Q : A -> World -> Prop) E w :
  Q (f w) w -> wp (gets f) Q E w.
Proof. done. Qed.

Lemma wp_modify f (Q : unit -> World -> Prop) E w : Q tt (f w) -> wp (modify f) Q E w.
Proof. done. Qed.

Lemma wp_assert b (Q : unit -> World -> Prop) E w : (b = true -> Q tt w) -> wp (assert b) Q E w.
Proof. unfold wp, assert. destruct b; auto. Qed.

Lemma wp_try_catch {A} (m : M A) h Q E w :
  wp m Q (fun e w' => wp (h e) Q E w') w -> wp (try_catch m h) Q E w.
Proof. unfold wp, try_catch. by destruct (m w). Qed.

Lemma wp_failed {A} (Q : A -> World -> Prop) E w : wp (fun _ => AssertionFailed) Q E w.
Proof. done. Qed.

Lemma wp_keeps {A} (I : World -> Prop) (m : M A) Q E w :
  keeps I m -> I w -> (forall a w', I w' -> Q a w') -> (forall e w', I w' -> E e w') ->
  wp m Q E w.
Proof.
  intros Hk HI HQ HE. specialize (Hk w HI). unfold wp in *. destruct (m w); auto.
Qed.

Lemma wp_forEach_settle (l : list PromiseId) s (Q : unit -> World -> Prop) E w :
  (forall h', Q tt (set_heap h' w)) -> wp (forEach l (fun p => settle p s)) Q E w.
Proof.
  revert w. induction l as [|p l IH]; intros w HQ.
  - specialize (HQ (heap w)). by destruct w.
  - simpl. apply wp_bind. unfold settle. apply wp_modify. apply IH.
    intros h'. specialize (HQ h'). by destruct w.
Qed.

Lemma wp_the_writer i (Q : WritableStreamDefaultWriter -> World -> Prop) E w :
  (forall x, writers w !! i = Some x -> Q x w) -> wp (the_writer i) Q E w.
Proof. unfold wp, the_writer. destruct (writers w !! i); auto. Qed.

Lemma wp_the_reader i (Q : ReadableStreamDefaultReader -> World -> Prop) E w :
  (forall x, readers w !! i = Some x -> Q x w) -> wp (the_reader i) Q E w.
Proof. unfold wp, the_reader. destruct (readers w !! i); auto. Qed.

Lemma wp_newPromise (Q : PromiseId -> World -> Prop) E w :
  (forall p c, Q p (set_heap (heap w ++ [c]) w)) -> wp newPromise Q E w.
Proof. intros H. apply H. Qed.

Lemma wp_settle p s (Q : unit -> World -> Prop) E w :
  (forall h', Q tt (set_heap h' w)) -> wp (settle p s) Q E w.
Proof. intros H. apply H. Qed.

Lemma wp_setPromiseIsHandledToTrue p (Q : unit -> World -> Prop) E w :
  (forall h', Q tt (set_heap h' w)) -> wp (setPromiseIsHandledToTrue p) Q E w.
Proof. intros H. apply H. Qed.

Lemma wp_uponPromise p r (Q : unit -> World -> Prop) E w :
  (forall rx, Q tt (set_reactions rx w)) -> wp (uponPromise p r) Q E w.
Proof. intros H. apply H. Qed.

Lemma alter_lookup_Some {A} (f : A -> A) (l : list A) i j x :
  alter f i l !! j = Some x ->
  exists y, l !! j = Some y /\ x = (if bool_decide (i = j) then f y else y).
Proof.
  destruct (decide (i = j)) as [->|Hne].
  - rewrite list_lookup_alter_eq. intros (y & -> & ->)%fmap_Some.
    exists y. by rewrite bool_decide_eq_true_2.
  - rewrite list_lookup_alter_ne by done. intros ->.
    exists x. by rewrite bool_decide_eq_false_2.
Qed.

Lemma wp_swallow (m : M unit) (Q : unit -> World -> Prop) E w :
  wp m Q (fun _ w' => Q tt w') w -> wp (swallow m) Q E w.
Proof. unfold wp, swallow. by destruct (m w). Qed.

Lemma wp_settle_derived derived (callback : M Value) (Q : unit -> World -> Prop) E w :
  wp callback (fun v w' => wp (resolvePromise derived v) Q E w')
     (fun e w' => wp (rejectPromise derived e) Q E w') w ->
  wp (settle_derived derived callback) Q E w.
Proof. unfold wp at 1 4, settle_derived. by destruct (callback w). Qed.

Lemma wp_settle_derived_as derived (callback : M PromiseId) (Q : unit -> World -> Prop) E w :
  wp callback (fun promise w' => wp (uponPromise promise (Adopt derived)) Q E w')
     (fun e w' => wp (rejectPromise derived e) Q E w') w ->
  wp (settle_derived_as derived callback) Q E w.
Proof. unfold wp at 1 4, settle_derived_as. by destruct (callback w). Qed.

Lemma wp_conj {A} (m : M A) Q1 Q2 E1 E2 w :
  wp m Q1 E1 w -> wp m Q2 E2 w ->
  wp m (fun a w' => Q1 a w' /\ Q2 a w') (fun e w' => E1 e w' /\ E2 e w') w.
Proof. unfold wp. by destruct (m w). Qed.

Lemma wp_keeps_frame {A} (I J : World -> Prop) (m : M A) Q E w :
  keeps I m -> keeps J m -> I w -> J w ->
  (forall a w', I w' -> J w' -> Q a w') -> (forall e w', I w' -> J w' -> E e w') ->
  wp m Q E w.
Proof.
  intros HkI HkJ HI HJ HQ HE. specialize (HkI w HI). specialize (HkJ w HJ).
  unfold wp in *. destruct (m w); auto.
Qed.

Lemma keeps_after {A} (I : World -> Prop) (m : M A) w w' :
  keeps I m -> I w -> after (m w) = Some w' -> I w'.
Proof.
  intros Hk HI. specialize (Hk w HI). unfold wp in Hk.
  destruct (m w); simpl; intros; simplify_eq; done.
Qed.

(** ** Tactics for [wp]

    [wsimpl] computes the fields of a world that was updated; [wp_run] walks
    through the code, and splits on every condition in the goal and in the
    hypotheses at once, so that a path that cannot be taken is closed where
    it starts. *)

Ltac wsimpl := cbn [par_promise set_par_promise par_reason set_par_reason par_wasAlreadyErroring set_par_wasAlreadyErroring ws_state set_ws_state ws_storedError set_ws_storedError ws_writer set_ws_writer ws_writeRequests set_ws_writeRequests ws_inFlightWriteRequest set_ws_inFlightWriteRequest ws_closeRequest set_ws_closeRequest ws_inFlightCloseRequest set_ws_inFlightCloseRequest ws_pendingAbortRequest set_ws_pendingAbortRequest ws_backpressure set_ws_backpressure wc_queue set_wc_queue wc_queueTotalSize set_wc_queueTotalSize wc_started set_wc_started wc_strategySizeAlgorithm set_wc_strategySizeAlgorithm wc_strategyHWM set_wc_strategyHWM wc_writeAlgorithm set_wc_writeAlgorithm wc_closeAlgorithm set_wc_closeAlgorithm wc_abortAlgorithm set_wc_abortAlgorithm wr_ownerWritableStream set_wr_ownerWritableStream wr_closedPromise set_wr_closedPromise wr_closedPromise_resolve set_wr_closedPromise_resolve wr_closedPromise_reject set_wr_closedPromise_reject wr_closedPromiseState set_wr_closedPromiseState wr_readyPromise set_wr_readyPromise wr_readyPromise_resolve set_wr_readyPromise_resolve wr_readyPromise_reject set_wr_readyPromise_reject wr_readyPromiseState set_wr_readyPromiseState rs_state set_rs_state rs_reader set_rs_reader rs_storedError set_rs_storedError rs_disturbed set_rs_disturbed rc_queue set_rc_queue rc_queueTotalSize set_rc_queueTotalSize rc_started set_rc_started rc_closeRequested set_rc_closeRequested rc_pullAgain set_rc_pullAgain rc_pulling set_rc_pulling rc_strategySizeAlgorithm set_rc_strategySizeAlgorithm rc_strategyHWM set_rc_strategyHWM rc_pullAlgorithm set_rc_pullAlgorithm rc_cancelAlgorithm set_rc_cancelAlgorithm rd_forAuthorCode set_rd_forAuthorCode rd_ownerReadableStream set_rd_ownerReadableStream rd_closedPromise set_rd_closedPromise rd_closedPromise_resolve set_rd_closedPromise_resolve rd_closedPromise_reject set_rd_closedPromise_reject rd_readRequests set_rd_readRequests ts_backpressure set_ts_backpressure ts_backpressureChangePromise set_ts_backpressureChangePromise ts_backpressureChangePromise_resolve set_ts_backpressureChangePromise_resolve tc_transformAlgorithm set_tc_transformAlgorithm tc_flushAlgorithm set_tc_flushAlgorithm heap set_heap reactions set_reactions calls set_calls ws set_ws wc set_wc writers set_writers rs set_rs rc set_rc readers set_readers ts set_ts tc set_tc upd_ws upd_wc upd_rs upd_rc upd_ts upd_tc upd_writer upd_reader defined is_undefined negb andb orb].
Ltac wsimpl_in H := cbn [par_promise set_par_promise par_reason set_par_reason par_wasAlreadyErroring set_par_wasAlreadyErroring ws_state set_ws_state ws_storedError set_ws_storedError ws_writer set_ws_writer ws_writeRequests set_ws_writeRequests ws_inFlightWriteRequest set_ws_inFlightWriteRequest ws_closeRequest set_ws_closeRequest ws_inFlightCloseRequest set_ws_inFlightCloseRequest ws_pendingAbortRequest set_ws_pendingAbortRequest ws_backpressure set_ws_backpressure wc_queue set_wc_queue wc_queueTotalSize set_wc_queueTotalSize wc_started set_wc_started wc_strategySizeAlgorithm set_wc_strategySizeAlgorithm wc_strategyHWM set_wc_strategyHWM wc_writeAlgorithm set_wc_writeAlgorithm wc_closeAlgorithm set_wc_closeAlgorithm wc_abortAlgorithm set_wc_abortAlgorithm wr_ownerWritableStream set_wr_ownerWritableStream wr_closedPromise set_wr_closedPromise wr_closedPromise_resolve set_wr_closedPromise_resolve wr_closedPromise_reject set_wr_closedPromise_reject wr_closedPromiseState set_wr_closedPromiseState wr_readyPromise set_wr_readyPromise wr_readyPromise_resolve set_wr_readyPromise_resolve wr_readyPromise_reject set_wr_readyPromise_reject wr_readyPromiseState set_wr_readyPromiseState rs_state set_rs_state rs_reader set_rs_reader rs_storedError set_rs_storedError rs_disturbed set_rs_disturbed rc_queue set_rc_queue rc_queueTotalSize set_rc_queueTotalSize rc_started set_rc_started rc_closeRequested set_rc_closeRequested rc_pullAgain set_rc_pullAgain rc_pulling set_rc_pulling rc_strategySizeAlgorithm set_rc_strategySizeAlgorithm rc_strategyHWM set_rc_strategyHWM rc_pullAlgorithm set_rc_pullAlgorithm rc_cancelAlgorithm set_rc_cancelAlgorithm rd_forAuthorCode set_rd_forAuthorCode rd_ownerReadableStream set_rd_ownerReadableStream rd_closedPromise set_rd_closedPromise rd_closedPromise_resolve set_rd_closedPromise_resolve rd_closedPromise_reject set_rd_closedPromise_reject rd_readRequests set_rd_readRequests ts_backpressure set_ts_backpressure ts_backpressureChangePromise set_ts_backpressureChangePromise ts_backpressureChangePromise_resolve set_ts_backpressureChangePromise_resolve tc_transformAlgorithm set_tc_transformAlgorithm tc_flushAlgorithm set_tc_flushAlgorithm heap set_heap reactions set_reactions calls set_calls ws set_ws wc set_wc writers set_writers rs set_rs rc set_rc readers set_readers ts set_ts tc set_tc upd_ws upd_wc upd_rs upd_rc upd_ts upd_tc upd_writer upd_reader defined is_undefined ReadableStreamHasDefaultReader] in H.

Ltac wunfold_in H :=
  unfold WritableStreamHasOperationMarkedInFlight, WritableStreamCloseQueuedOrInFlight,
    IsWritableStreamLocked, IsReadableStreamLocked, IsWritableStreamDefaultWriter,
    IsReadableStreamDefaultReader, ReadableStreamDefaultControllerCanCloseOrEnqueue,
    ReadableStreamHasDefaultReader, WritableStreamDefaultControllerGetBackpressure,
    WritableStreamDefaultControllerGetDesiredSize,
    ReadableStreamDefaultControllerGetDesiredSize in H.

Ltac norm_bool H :=
  wunfold_in H; wsimpl_in H;
  repeat first
    [ rewrite negb_involutive in H
    | rewrite orb_true_iff in H | rewrite andb_true_iff in H
    | rewrite negb_true_iff in H | rewrite orb_false_iff in H
    | rewrite andb_false_iff in H | rewrite negb_false_iff in H
    | rewrite bool_decide_eq_true in H | rewrite bool_decide_eq_false in H ].

Create HintDb keeps discriminated.

Ltac head_of t :=
  lazymatch t with
  | ?f _ => head_of f
  | _ => t
  end.

Ltac destruct_invs :=
  repeat match goal with
  | H : invariant _ |- _ => destruct H
  end;
  unfold writer_invariant, closedPromise_consistent, readyPromise_consistent in *.

Ltac forward_hyps :=
  repeat match goal with
  | H : ?P -> _ |- _ =>
      lazymatch type of P with Prop => idtac end;
      let pf := fresh in
      assert (pf : P) by first [ reflexivity | assumption | symmetry; assumption ];
      specialize (H pf); clear pf
  end.

Ltac absurd_path := forward_hyps; try (exfalso; first [ done | congruence ]).

(* A case distinction on [x] that is seen by every hypothesis. *)
Ltac wp_case x :=
  lazymatch goal with
  | H : x = _ |- _ => rewrite H
  | H : _ = x |- _ => rewrite <- H
  | _ =>
      let v := fresh "v" in let H := fresh "Hc" in
      remember x as v eqn:H in *;
      destruct v;
      symmetry in H;
      try norm_bool H;
      absurd_path
  end.

Ltac solve_leaf := idtac.

Ltac intro_I H :=
  lazymatch type of H with
  | invariant _ => destruct_invs
  | quiet _ _ => simpl in H; destruct H
  end.

Ltac wp_call m :=
  let h := head_of m in
  first
    [ lazymatch goal with
      | cur_quiet := ?K |- _ =>
          eapply (wp_keeps (quiet (K _)));
          [ solve [eauto with keeps]
          | solve_leaf
          | let H := fresh "HI" in intros ? ? H; intro_I H
          | let H := fresh "HI" in intros ? ? H; intro_I H ]
      | _ =>
          eapply (wp_keeps invariant);
          [ solve [eauto with keeps]
          | solve_leaf
          | let H := fresh "HI" in intros ? ? H; intro_I H
          | let H := fresh "HI" in intros ? ? H; intro_I H ]
      end
    | unfold h ].

Ltac wp_step :=
  lazymatch goal with
  | |- wp (bind _ _) _ _ _ => apply wp_bind
  | |- wp (ret _) _ _ _ => apply wp_ret
  | |- wp (throw _) _ _ _ => apply wp_throw
  | |- wp (not_a_function _) _ _ _ => apply wp_throw
  | |- wp (gets _) _ _ _ => apply wp_gets
  | |- wp (modify _) _ _ _ => apply wp_modify
  | |- wp (assert _) _ _ _ =>
      let H := fresh "Ha" in apply wp_assert; intros H; norm_bool H; absurd_path
  | |- wp (try_catch _ _) _ _ _ => apply wp_try_catch
  | |- wp (swallow _) _ _ _ => apply wp_swallow
  | |- wp (settle_derived _ _) _ _ _ => apply wp_settle_derived
  | |- wp (settle_derived_as _ _) _ _ _ => apply wp_settle_derived_as
  | |- wp (fun _ => AssertionFailed) _ _ _ => exact I
  | |- wp (the_writer _) _ _ _ =>
      let x := fresh "x" in let H := fresh "Hx" in
      apply wp_the_writer; intros x H; wsimpl_in H
  | |- wp (the_reader _) _ _ _ =>
      let x := fresh "x" in let H := fresh "Hx" in
      apply wp_the_reader; intros x H; wsimpl_in H
  | |- wp newPromise _ _ _ => apply wp_newPromise; intros ? ?
  | |- wp (settle _ _) _ _ _ => apply wp_settle; intros ?
  | |- wp (resolvePromise _ _) _ _ _ => apply wp_settle; intros ?
  | |- wp (rejectPromise _ _) _ _ _ => apply wp_settle; intros ?
  | |- wp (setPromiseIsHandledToTrue _) _ _ _ => apply wp_setPromiseIsHandledToTrue; intros ?
  | |- wp (uponPromise _ _) _ _ _ => apply wp_uponPromise; intros ?
  | |- wp (forEach _ (fun _ => rejectPromise _ _)) _ _ _ => apply wp_forEach_settle; intros ?
  | |- wp (forEach _ (fun _ => resolvePromise _ _)) _ _ _ => apply wp_forEach_settle; intros ?
  | |- wp (if ?b then _ else _) _ _ _ => wp_case b
  | |- wp (match ?x with _ => _ end) _ _ _ => wp_case x
  | |- wp ?m _ _ _ => wp_call m
  end; lazy beta zeta; wsimpl.

Ltac wp_run := repeat wp_step.

Ltac rew_goal :=
  repeat match goal with
  | H : ?t = ?c |- context [?t] =>
      lazymatch t with _ _ => idtac end;
      let h := head_of c in
      first [ is_constructor h | is_var h ];
      rewrite H
  end.

Ltac solve_prop :=
  intros; simpl in *;
  first [ assumption | done | congruence | solve [auto 3]
        | solve [intuition (first [done | congruence | auto 3])] ].

Ltac same_lookups :=
  repeat match goal with
  | H1 : ?l !! ?i = Some ?a, H2 : ?l !! ?i = Some ?b |- _ =>
      assert (b = a) by congruence; subst b; clear H2
  | H1 : ?l !! ?i = Some ?a, H2 : Some ?b = ?l !! ?i |- _ =>
      assert (b = a) by congruence; subst b; clear H2
  end.

Ltac solve_writer_at j Hj :=
  try (injection Hj as <-);
  repeat match goal with
  | H : forall writer, _ = Some writer -> exists x, _ /\ _ |- _ =>
      let x := fresh "x" in let Hx := fresh "Hx" in let Hw := fresh "Hw" in
      first [ destruct (H _ eq_refl) as (x & Hx & Hw)
            | destruct (H _ Hj) as (x & Hx & Hw)
            | destruct (H _ ltac:(eassumption)) as (x & Hx & Hw)
            | destruct (H _ ltac:(symmetry; eassumption)) as (x & Hx & Hw) ];
      clear H
  | H : forall writer, _ = Some writer -> exists x, _ /\ _ |- _ => clear H
  end;
  same_lookups;
  eexists; split;
    [ rewrite ?list_lookup_alter_eq, ?lookup_snoc_new;
      repeat match goal with
      | H : ?l !! ?i = Some _ |- context [?l !! ?i] => rewrite H
      | H : Some _ = ?l !! ?i |- context [?l !! ?i] => rewrite <- H
      end;
      simpl; reflexivity | ];
  unfold writer_invariant, closedPromise_consistent, readyPromise_consistent;
  wsimpl; rew_goal;
  repeat match goal with
  | H : _ /\ _ |- _ => destruct H
  end;
  repeat case_bool_decide;
  repeat split; solve_prop.

Ltac solve_writer :=
  let j := fresh "j" in let Hj := fresh "Hj" in
  intros j Hj; simpl in Hj;
  first [ discriminate Hj | solve_writer_at j Hj ].

Ltac solve_reader_at j Hj :=
  try (injection Hj as <-);
  rewrite ?list_lookup_alter, ?lookup_snoc_new;
  repeat case_decide; subst; rewrite ?fmap_is_Some;
  first [ done | solve [eauto 3] | solve [eauto 3 using eq_sym] ].

Ltac solve_reader :=
  let j := fresh "j" in let Hj := fresh "Hj" in
  intros j Hj; simpl in Hj;
  first [ discriminate Hj | solve_reader_at j Hj ].

Ltac solve_inFlight :=
  intros; simpl in *;
  first [ assumption | done | solve [auto 3]
        | solve [intuition (first [done | congruence | auto 3])]
        | match goal with
          | |- ?x = _ \/ _ => destruct x eqn:?; solve [intuition congruence]
          end ].

Ltac solve_invariant :=
  destruct_invs;
  constructor; wsimpl; rew_goal;
  [ solve_prop | solve_prop | solve_inFlight | solve_prop
  | first [ assumption | solve_writer ]
  | first [ assumption | solve_reader ]
  | solve_prop ].

Ltac solve_log :=
  wsimpl; rewrite ?filter_app; simpl; rewrite ?app_nil_r;
  first [ eassumption | reflexivity | congruence ].

Ltac absurd_state :=
  exfalso;
  match goal with
  | H : ?x <> ?c |- _ =>
      is_constructor c; destruct x eqn:?; solve [intuition congruence]
  end.

Ltac solve_quiet :=
  first [ simpl; split; [ wsimpl; rew_goal; solve_prop | solve_log ]
        | absurd_state ].

Ltac t_invariant := intros w HI; destruct_invs; wp_run; solve_invariant.

Ltac t_quiet :=
  let q := fresh "q" in let w := fresh "w" in let HI := fresh "HI" in
  intros q w HI; destruct q; simpl in HI; destruct HI;
  [ pose (cur_quiet := no_abort) | pose (cur_quiet := no_write)
  | pose (cur_quiet := no_cancel) ];
  wp_run; solve_quiet.

(** ** What is quiet stays quiet

    Every operation keeps [quiet q], for each of the three [q]; so does
    every step. *)

Ltac solve_leaf ::= solve_quiet.
Ltac t := t_quiet.

Section keeps_quiet.
Variable A : UserCall -> M PromiseId.

Hypothesis A_keeps : forall q c, keeps (quiet q) (A c).
#[local] Hint Resolve A_keeps : keeps.

Lemma WritableStreamRejectCloseAndClosedPromiseIfNeeded_keeps_quiet : forall q, keeps (quiet q) (WritableStreamRejectCloseAndClosedPromiseIfNeeded).
Proof. t. Qed.
#[local] Hint Resolve WritableStreamRejectCloseAndClosedPromiseIfNeeded_keeps_quiet : keeps.

Lemma WritableStreamFinishErroring_keeps_quiet : forall q, keeps (quiet q) (WritableStreamFinishErroring A).
Proof. t. Qed.
#[local] Hint Resolve WritableStreamFinishErroring_keeps_quiet : keeps.

Lemma WritableStreamStartErroring_keeps_quiet reason : forall q, keeps (quiet q) (WritableStreamStartErroring A reason).
Proof. t. Qed.
#[local] Hint Resolve WritableStreamStartErroring_keeps_quiet : keeps.

Lemma WritableStreamDealWithRejection_keeps_quiet error : forall q, keeps (quiet q) (WritableStreamDealWithRejection A error).
Proof. t. Qed.
#[local] Hint Resolve WritableStreamDealWithRejection_keeps_quiet : keeps.

Lemma WritableStreamFinishInFlightWriteWithError_keeps_quiet error : forall q, keeps (quiet q) (WritableStreamFinishInFlightWriteWithError A error).
Proof. t. Qed.
#[local] Hint Resolve WritableStreamFinishInFlightWriteWithError_keeps_quiet : keeps.

Lemma WritableStreamFinishInFlightClose_keeps_quiet : forall q, keeps (quiet q) (WritableStreamFinishInFlightClose).
Proof. t. Qed.
#[local] Hint Resolve WritableStreamFinishInFlightClose_keeps_quiet : keeps.

Lemma WritableStreamFinishInFlightCloseWithError_keeps_quiet error : forall q, keeps (quiet q) (WritableStreamFinishInFlightCloseWithError A error).
Proof. t. Qed.
#[local] Hint Resolve WritableStreamFinishInFlightCloseWithError_keeps_quiet : keeps.

Lemma WritableStreamUpdateBackpressure_keeps_quiet backpressure : forall q, keeps (quiet q) (WritableStreamUpdateBackpressure backpressure).
Proof. t. Qed.
#[local] Hint Resolve WritableStreamUpdateBackpressure_keeps_quiet : keeps.

Lemma WritableStreamDefaultControllerError_keeps_quiet error : forall q, keeps (quiet q) (WritableStreamDefaultControllerError A error).
Proof. t. Qed.
#[local] Hint Resolve WritableStreamDefaultControllerError_keeps_quiet : keeps.

Lemma WritableStreamDefaultControllerErrorIfNeeded_keeps_quiet error : forall q, keeps (quiet q) (WritableStreamDefaultControllerErrorIfNeeded A error).
Proof. t. Qed.
#[local] Hint Resolve WritableStreamDefaultControllerErrorIfNeeded_keeps_quiet : keeps.

Lemma WritableStreamDefaultControllerAdvanceQueueIfNeeded_keeps_quiet : forall q, keeps (quiet q) (WritableStreamDefaultControllerAdvanceQueueIfNeeded A).
Proof. t. Qed.
#[local] Hint Resolve WritableStreamDefaultControllerAdvanceQueueIfNeeded_keeps_quiet : keeps.

Lemma WritableStreamDefaultControllerClose_keeps_quiet : forall q, keeps (quiet q) (WritableStreamDefaultControllerClose A).
Proof. t. Qed.
#[local] Hint Resolve WritableStreamDefaultControllerClose_keeps_quiet : keeps.

Lemma WritableStreamDefaultControllerGetChunkSize_keeps_quiet chunk : forall q, keeps (quiet q) (WritableStreamDefaultControllerGetChunkSize A chunk).
Proof. t. Qed.
#[local] Hint Resolve WritableStreamDefaultControllerGetChunkSize_keeps_quiet : keeps.

Lemma WritableStreamDefaultControllerWrite_keeps_quiet chunk chunkSize : forall q, keeps (quiet q) (WritableStreamDefaultControllerWrite A chunk chunkSize).
Proof. t. Qed.
#[local] Hint Resolve WritableStreamDefaultControllerWrite_keeps_quiet : keeps.

Lemma WritableStreamAbort_keeps_quiet reason : forall q, keeps (quiet q) (WritableStreamAbort A reason).
Proof. t. Qed.
#[local] Hint Resolve WritableStreamAbort_keeps_quiet : keeps.

Lemma WritableStreamClose_keeps_quiet : forall q, keeps (quiet q) (WritableStreamClose A).
Proof. t. Qed.
#[local] Hint Resolve WritableStreamClose_keeps_quiet : keeps.

Lemma WritableStreamDefaultWriterRelease_keeps_quiet writer : forall q, keeps (quiet q) (WritableStreamDefaultWriterRelease writer).
Proof. t. Qed.
#[local] Hint Resolve WritableStreamDefaultWriterRelease_keeps_quiet : keeps.

Lemma WritableStreamDefaultWriterWrite_keeps_quiet writer chunk : forall q, keeps (quiet q) (WritableStreamDefaultWriterWrite A writer chunk).
Proof. t. Qed.
#[local] Hint Resolve WritableStreamDefaultWriterWrite_keeps_quiet : keeps.

Lemma WritableStreamDefaultWriter_constructor_keeps_quiet : forall q, keeps (quiet q) (WritableStreamDefaultWriter_constructor).
Proof. t. Qed.
#[local] Hint Resolve WritableStreamDefaultWriter_constructor_keeps_quiet : keeps.

Lemma WritableStreamDefaultWriter_abort_keeps_quiet this reason : forall q, keeps (quiet q) (WritableStreamDefaultWriter_abort A this reason).
Proof. t. Qed.
#[local] Hint Resolve WritableStreamDefaultWriter_abort_keeps_quiet : keeps.

Lemma WritableStreamDefaultWriter_close_keeps_quiet this : forall q, keeps (quiet q) (WritableStreamDefaultWriter_close A this).
Proof. t. Qed.
#[local] Hint Resolve WritableStreamDefaultWriter_close_keeps_quiet : keeps.

Lemma WritableStreamDefaultWriter_releaseLock_keeps_quiet this : forall q, keeps (quiet q) (WritableStreamDefaultWriter_releaseLock this).
Proof. t. Qed.
#[local] Hint Resolve WritableStreamDefaultWriter_releaseLock_keeps_quiet : keeps.

Lemma WritableStreamDefaultWriter_write_keeps_quiet this chunk : forall q, keeps (quiet q) (WritableStreamDefaultWriter_write A this chunk).
Proof. t. Qed.
#[local] Hint Resolve WritableStreamDefaultWriter_write_keeps_quiet : keeps.

Lemma WritableStreamDefaultController_error_keeps_quiet e : forall q, keeps (quiet q) (WritableStreamDefaultController_error A e).
Proof. t. Qed.
#[local] Hint Resolve WritableStreamDefaultController_error_keeps_quiet : keeps.

Lemma WritableStream_abort_keeps_quiet reason : forall q, keeps (quiet q) (WritableStream_abort A reason).
Proof. t. Qed.
#[local] Hint Resolve WritableStream_abort_keeps_quiet : keeps.

Lemma WritableStream_close_keeps_quiet : forall q, keeps (quiet q) (WritableStream_close A).
Proof. t. Qed.
#[local] Hint Resolve WritableStream_close_keeps_quiet : keeps.

Lemma WritableStream_getWriter_keeps_quiet : forall q, keeps (quiet q) (WritableStream_getWriter).
Proof. t. Qed.
#[local] Hint Resolve WritableStream_getWriter_keeps_quiet : keeps.

Lemma WStart_reaction_keeps_quiet s : forall q, keeps (quiet q) (WStart_reaction A s).
Proof. t. Qed.
#[local] Hint Resolve WStart_reaction_keeps_quiet : keeps.

Lemma WSinkWrite_reaction_keeps_quiet s : forall q, keeps (quiet q) (WSinkWrite_reaction A s).
Proof. t. Qed.
#[local] Hint Resolve WSinkWrite_reaction_keeps_quiet : keeps.

Lemma WSinkClose_reaction_keeps_quiet s : forall q, keeps (quiet q) (WSinkClose_reaction A s).
Proof. t. Qed.
#[local] Hint Resolve WSinkClose_reaction_keeps_quiet : keeps.

Lemma WSinkAbort_reaction_keeps_quiet abortRequest s : forall q, keeps (quiet q) (WSinkAbort_reaction abortRequest s).
Proof. t. Qed.
#[local] Hint Resolve WSinkAbort_reaction_keeps_quiet : keeps.

Lemma ReadableStreamFulfillReadRequest_keeps_quiet chunk done : forall q, keeps (quiet q) (ReadableStreamFulfillReadRequest chunk done).
Proof. t. Qed.
#[local] Hint Resolve ReadableStreamFulfillReadRequest_keeps_quiet : keeps.

Lemma ReadableStreamDefaultControllerCallPullIfNeeded_keeps_quiet : forall q, keeps (quiet q) (ReadableStreamDefaultControllerCallPullIfNeeded A).
Proof. t. Qed.
#[local] Hint Resolve ReadableStreamDefaultControllerCallPullIfNeeded_keeps_quiet : keeps.

Lemma ReadableStreamDefaultControllerClose_keeps_quiet : forall q, keeps (quiet q) (ReadableStreamDefaultControllerClose).
Proof. t. Qed.
#[local] Hint Resolve ReadableStreamDefaultControllerClose_keeps_quiet : keeps.

Lemma ReadableStreamDefaultControllerError_keeps_quiet e : forall q, keeps (quiet q) (ReadableStreamDefaultControllerError e).
Proof. t. Qed.
#[local] Hint Resolve ReadableStreamDefaultControllerError_keeps_quiet : keeps.

Lemma ReadableStreamDefaultControllerEnqueue_keeps_quiet chunk : forall q, keeps (quiet q) (ReadableStreamDefaultControllerEnqueue A chunk).
Proof. t. Qed.
#[local] Hint Resolve ReadableStreamDefaultControllerEnqueue_keeps_quiet : keeps.

Lemma ReadableStreamDefaultController_close_keeps_quiet : forall q, keeps (quiet q) (ReadableStreamDefaultController_close).
Proof. t. Qed.
#[local] Hint Resolve ReadableStreamDefaultController_close_keeps_quiet : keeps.

Lemma ReadableStreamDefaultController_enqueue_keeps_quiet chunk : forall q, keeps (quiet q) (ReadableStreamDefaultController_enqueue A chunk).
Proof. t. Qed.
#[local] Hint Resolve ReadableStreamDefaultController_enqueue_keeps_quiet : keeps.

Lemma ReadableStreamDefaultController_error_keeps_quiet e : forall q, keeps (quiet q) (ReadableStreamDefaultController_error e).
Proof. t. Qed.
#[local] Hint Resolve ReadableStreamDefaultController_error_keeps_quiet : keeps.

Lemma ReadableStreamDefaultController_PullSteps_keeps_quiet : forall q, keeps (quiet q) (ReadableStreamDefaultController_PullSteps A).
Proof. t. Qed.
#[local] Hint Resolve ReadableStreamDefaultController_PullSteps_keeps_quiet : keeps.

Lemma ReadableStreamCancel_keeps_quiet reason : forall q, keeps (quiet q) (ReadableStreamCancel A reason).
Proof. t. Qed.
#[local] Hint Resolve ReadableStreamCancel_keeps_quiet : keeps.

Lemma ReadableStream_cancel_keeps_quiet reason : forall q, keeps (quiet q) (ReadableStream_cancel A reason).
Proof. t. Qed.
#[local] Hint Resolve ReadableStream_cancel_keeps_quiet : keeps.

Lemma ReadableStreamDefaultReader_constructor_keeps_quiet : forall q, keeps (quiet q) (ReadableStreamDefaultReader_constructor).
Proof. t. Qed.
#[local] Hint Resolve ReadableStreamDefaultReader_constructor_keeps_quiet : keeps.

Lemma ReadableStream_getReader_keeps_quiet : forall q, keeps (quiet q) (ReadableStream_getReader).
Proof. t. Qed.
#[local] Hint Resolve ReadableStream_getReader_keeps_quiet : keeps.

Lemma ReadableStreamDefaultReader_cancel_keeps_quiet this reason : forall q, keeps (quiet q) (ReadableStreamDefaultReader_cancel A this reason).
Proof. t. Qed.
#[local] Hint Resolve ReadableStreamDefaultReader_cancel_keeps_quiet : keeps.

Lemma ReadableStreamDefaultReader_read_keeps_quiet this : forall q, keeps (quiet q) (ReadableStreamDefaultReader_read A this).
Proof. t. Qed.
#[local] Hint Resolve ReadableStreamDefaultReader_read_keeps_quiet : keeps.

Lemma ReadableStreamDefaultReader_releaseLock_keeps_quiet this : forall q, keeps (quiet q) (ReadableStreamDefaultReader_releaseLock this).
Proof. t. Qed.
#[local] Hint Resolve ReadableStreamDefaultReader_releaseLock_keeps_quiet : keeps.

Lemma RStart_reaction_keeps_quiet s : forall q, keeps (quiet q) (RStart_reaction A s).
Proof. t. Qed.
#[local] Hint Resolve RStart_reaction_keeps_quiet : keeps.

Lemma RPull_reaction_keeps_quiet s : forall q, keeps (quiet q) (RPull_reaction A s).
Proof. t. Qed.
#[local] Hint Resolve RPull_reaction_keeps_quiet : keeps.

End keeps_quiet.

#[local] Hint Resolve WritableStreamRejectCloseAndClosedPromiseIfNeeded_keeps_quiet WritableStreamFinishErroring_keeps_quiet WritableStreamStartErroring_keeps_quiet WritableStreamDealWithRejection_keeps_quiet WritableStreamFinishInFlightWriteWithError_keeps_quiet WritableStreamFinishInFlightClose_keeps_quiet WritableStreamFinishInFlightCloseWithError_keeps_quiet WritableStreamUpdateBackpressure_keeps_quiet WritableStreamDefaultControllerError_keeps_quiet WritableStreamDefaultControllerErrorIfNeeded_keeps_quiet WritableStreamDefaultControllerAdvanceQueueIfNeeded_keeps_quiet WritableStreamDefaultControllerClose_keeps_quiet WritableStreamDefaultControllerGetChunkSize_keeps_quiet WritableStreamDefaultControllerWrite_keeps_quiet WritableStreamAbort_keeps_quiet WritableStreamClose_keeps_quiet WritableStreamDefaultWriterRelease_keeps_quiet WritableStreamDefaultWriterWrite_keeps_quiet WritableStreamDefaultWriter_constructor_keeps_quiet WritableStreamDefaultWriter_abort_keeps_quiet WritableStreamDefaultWriter_close_keeps_quiet WritableStreamDefaultWriter_releaseLock_keeps_quiet WritableStreamDefaultWriter_write_keeps_quiet WritableStreamDefaultController_error_keeps_quiet WritableStream_abort_keeps_quiet WritableStream_close_keeps_quiet WritableStream_getWriter_keeps_quiet WStart_reaction_keeps_quiet WSinkWrite_reaction_keeps_quiet WSinkClose_reaction_keeps_quiet WSinkAbort_reaction_keeps_quiet ReadableStreamFulfillReadRequest_keeps_quiet ReadableStreamDefaultControllerCallPullIfNeeded_keeps_quiet ReadableStreamDefaultControllerClose_keeps_quiet ReadableStreamDefaultControllerError_keeps_quiet ReadableStreamDefaultControllerEnqueue_keeps_quiet ReadableStreamDefaultController_close_keeps_quiet ReadableStreamDefaultController_enqueue_keeps_quiet ReadableStreamDefaultController_error_keeps_quiet ReadableStreamDefaultController_PullSteps_keeps_quiet ReadableStreamCancel_keeps_quiet ReadableStream_cancel_keeps_quiet ReadableStreamDefaultReader_constructor_keeps_quiet ReadableStream_getReader_keeps_quiet ReadableStreamDefaultReader_cancel_keeps_quiet ReadableStreamDefaultReader_read_keeps_quiet ReadableStreamDefaultReader_releaseLock_keeps_quiet RStart_reaction_keeps_quiet RPull_reaction_keeps_quiet : keeps.

Lemma no_algorithm_keeps_quiet q c : keeps (quiet q) (no_algorithm c).
Proof. intros w HI. exact I. Qed.
#[local] Hint Resolve no_algorithm_keeps_quiet : keeps.

Lemma TransformStreamSetBackpressure_keeps_quiet backpressure : forall q, keeps (quiet q) (TransformStreamSetBackpressure backpressure).
Proof. t. Qed.
#[local] Hint Resolve TransformStreamSetBackpressure_keeps_quiet : keeps.

Lemma TransformStreamErrorWritableAndUnblockWrite_keeps_quiet e : forall q, keeps (quiet q) (TransformStreamErrorWritableAndUnblockWrite e).
Proof. t. Qed.
#[local] Hint Resolve TransformStreamErrorWritableAndUnblockWrite_keeps_quiet : keeps.

Lemma TransformStreamError_keeps_quiet e : forall q, keeps (quiet q) (TransformStreamError e).
Proof. t. Qed.
#[local] Hint Resolve TransformStreamError_keeps_quiet : keeps.

Lemma TransformStreamDefaultSourcePullAlgorithm_keeps_quiet : forall q, keeps (quiet q) (TransformStreamDefaultSourcePullAlgorithm).
Proof. t. Qed.
#[local] Hint Resolve TransformStreamDefaultSourcePullAlgorithm_keeps_quiet : keeps.

Lemma TransformStream_cancelAlgorithm_keeps_quiet reason : forall q, keeps (quiet q) (TransformStream_cancelAlgorithm reason).
Proof. t. Qed.
#[local] Hint Resolve TransformStream_cancelAlgorithm_keeps_quiet : keeps.

Lemma TransformStreamDefaultSource_keeps_quiet c : forall q, keeps (quiet q) (TransformStreamDefaultSource c).
Proof. t. Qed.
#[local] Hint Resolve TransformStreamDefaultSource_keeps_quiet : keeps.

Lemma TransformStreamDefaultControllerEnqueue_keeps_quiet chunk : forall q, keeps (quiet q) (TransformStreamDefaultControllerEnqueue chunk).
Proof. t. Qed.
#[local] Hint Resolve TransformStreamDefaultControllerEnqueue_keeps_quiet : keeps.

Lemma TransformStream_defaultTransformAlgorithm_keeps_quiet chunk : forall q, keeps (quiet q) (TransformStream_defaultTransformAlgorithm chunk).
Proof. t. Qed.
#[local] Hint Resolve TransformStream_defaultTransformAlgorithm_keeps_quiet : keeps.

Lemma TransformStreamDefaultTransformer_keeps_quiet c : forall q, keeps (quiet q) (TransformStreamDefaultTransformer c).
Proof. t. Qed.
#[local] Hint Resolve TransformStreamDefaultTransformer_keeps_quiet : keeps.

Lemma TransformStreamDefaultControllerPerformTransform_keeps_quiet chunk : forall q, keeps (quiet q) (TransformStreamDefaultControllerPerformTransform chunk).
Proof. t. Qed.
#[local] Hint Resolve TransformStreamDefaultControllerPerformTransform_keeps_quiet : keeps.

Lemma TransformStreamDefaultControllerTerminate_keeps_quiet : forall q, keeps (quiet q) (TransformStreamDefaultControllerTerminate).
Proof. t. Qed.
#[local] Hint Resolve TransformStreamDefaultControllerTerminate_keeps_quiet : keeps.

Lemma TransformStreamDefaultSinkWriteAlgorithm_keeps_quiet chunk : forall q, keeps (quiet q) (TransformStreamDefaultSinkWriteAlgorithm chunk).
Proof. t. Qed.
#[local] Hint Resolve TransformStreamDefaultSinkWriteAlgorithm_keeps_quiet : keeps.

Lemma TransformStreamDefaultSinkAbortAlgorithm_keeps_quiet reason : forall q, keeps (quiet q) (TransformStreamDefaultSinkAbortAlgorithm reason).
Proof. t. Qed.
#[local] Hint Resolve TransformStreamDefaultSinkAbortAlgorithm_keeps_quiet : keeps.

Lemma TransformStreamDefaultSinkCloseAlgorithm_keeps_quiet : forall q, keeps (quiet q) (TransformStreamDefaultSinkCloseAlgorithm).
Proof. t. Qed.
#[local] Hint Resolve TransformStreamDefaultSinkCloseAlgorithm_keeps_quiet : keeps.

Lemma TransformStream_algorithms_keeps_quiet c : forall q, keeps (quiet q) (TransformStream_algorithms c).
Proof. t. Qed.
#[local] Hint Resolve TransformStream_algorithms_keeps_quiet : keeps.

Lemma TBackpressureChange_reaction_keeps_quiet chunk s : forall q, keeps (quiet q) (TBackpressureChange_reaction chunk s).
Proof. t. Qed.
#[local] Hint Resolve TBackpressureChange_reaction_keeps_quiet : keeps.

Lemma TPerformTransform_reaction_keeps_quiet s : forall q, keeps (quiet q) (TPerformTransform_reaction s).
Proof. t. Qed.
#[local] Hint Resolve TPerformTransform_reaction_keeps_quiet : keeps.

Lemma TFlush_reaction_keeps_quiet s : forall q, keeps (quiet q) (TFlush_reaction s).
Proof. t. Qed.
#[local] Hint Resolve TFlush_reaction_keeps_quiet : keeps.

Lemma TransformStreamDefaultController_enqueue_keeps_quiet chunk : forall q, keeps (quiet q) (TransformStreamDefaultController_enqueue chunk).
Proof. t. Qed.
#[local] Hint Resolve TransformStreamDefaultController_enqueue_keeps_quiet : keeps.

Lemma TransformStreamDefaultController_error_keeps_quiet reason : forall q, keeps (quiet q) (TransformStreamDefaultController_error reason).
Proof. t. Qed.
#[local] Hint Resolve TransformStreamDefaultController_error_keeps_quiet : keeps.

Lemma TransformStreamDefaultController_terminate_keeps_quiet : forall q, keeps (quiet q) (TransformStreamDefaultController_terminate).
Proof. t. Qed.
#[local] Hint Resolve TransformStreamDefaultController_terminate_keeps_quiet : keeps.

Lemma react_keeps_quiet r s : forall q, keeps (quiet q) (react r s).
Proof. t_quiet. Qed.

Lemma settle_keeps_quiet p s : forall q, keeps (quiet q) (settle p s).
Proof. t_quiet. Qed.

Lemma quiet_set_reactions q rx w : quiet q w -> quiet q (set_reactions rx w).
Proof. by destruct q. Qed.

(** What is quiet stays quiet, whatever happens to the streams. *)
Lemma step_keeps_quiet q ev w w' : quiet q w -> step ev w = Some w' -> quiet q w'.
Proof.
  intros HI Hs. destruct ev; cbv beta iota zeta delta [step] in Hs;
    try (eapply keeps_after; [ | exact HI | exact Hs ]; solve [eauto with keeps]).
  - destruct (_ && _); [|done].
    eapply keeps_after; [ | exact HI | exact Hs ]. apply settle_keeps_quiet.
  - destruct (promise_state w p) as [s|]; [|done].
    destruct (take_reaction p (reactions w)) as [[r rest]|]; [|done].
    destruct (is_pending s); [done|].
    eapply keeps_after; [ | | exact Hs ]; [apply react_keeps_quiet|].
    by apply quiet_set_reactions.
Qed.

Lemma run_keeps_quiet q evs w w' : quiet q w -> run evs w = Some w' -> quiet q w'.
Proof.
  revert w. induction evs as [|ev evs IH]; simpl; intros w HI Hr.
  - by simplify_eq.
  - destruct (step ev w) as [w1|] eqn:Hs; [|done].
    eapply IH; [|exact Hr]. eapply step_keeps_quiet; eauto.
Qed.

(** ** The invariant holds in every reachable world *)

Ltac solve_leaf ::= solve_invariant.
Ltac t ::= t_invariant.

Section keeps_invariant.
Variable A : UserCall -> M PromiseId.

Hypothesis A_keeps : forall c, keeps invariant (A c).
#[local] Hint Resolve A_keeps : keeps.

Lemma WritableStreamRejectCloseAndClosedPromiseIfNeeded_keeps_invariant : keeps invariant (WritableStreamRejectCloseAndClosedPromiseIfNeeded).
Proof. t. Qed.
#[local] Hint Resolve WritableStreamRejectCloseAndClosedPromiseIfNeeded_keeps_invariant : keeps.

Lemma WritableStreamFinishErroring_keeps_invariant : keeps invariant (WritableStreamFinishErroring A).
Proof. t. Qed.
#[local] Hint Resolve WritableStreamFinishErroring_keeps_invariant : keeps.

Lemma WritableStreamStartErroring_keeps_invariant reason : keeps invariant (WritableStreamStartErroring A reason).
Proof. t. Qed.
#[local] Hint Resolve WritableStreamStartErroring_keeps_invariant : keeps.

Lemma WritableStreamDealWithRejection_keeps_invariant error : keeps invariant (WritableStreamDealWithRejection A error).
Proof. t. Qed.
#[local] Hint Resolve WritableStreamDealWithRejection_keeps_invariant : keeps.

Lemma WritableStreamFinishInFlightWriteWithError_keeps_invariant error : keeps invariant (WritableStreamFinishInFlightWriteWithError A error).
Proof. t. Qed.
#[local] Hint Resolve WritableStreamFinishInFlightWriteWithError_keeps_invariant : keeps.

Lemma WritableStreamFinishInFlightClose_keeps_invariant : keeps invariant (WritableStreamFinishInFlightClose).
Proof. t. Qed.
#[local] Hint Resolve WritableStreamFinishInFlightClose_keeps_invariant : keeps.

Lemma WritableStreamFinishInFlightCloseWithError_keeps_invariant error : keeps invariant (WritableStreamFinishInFlightCloseWithError A error).
Proof. t. Qed.
#[local] Hint Resolve WritableStreamFinishInFlightCloseWithError_keeps_invariant : keeps.

Lemma WritableStreamUpdateBackpressure_keeps_invariant backpressure : keeps invariant (WritableStreamUpdateBackpressure backpressure).
Proof. t. Qed.
#[local] Hint Resolve WritableStreamUpdateBackpressure_keeps_invariant : keeps.

Lemma WritableStreamDefaultControllerError_keeps_invariant error : keeps invariant (WritableStreamDefaultControllerError A error).
Proof. t. Qed.
#[local] Hint Resolve WritableStreamDefaultControllerError_keeps_invariant : keeps.

Lemma WritableStreamDefaultControllerErrorIfNeeded_keeps_invariant error : keeps invariant (WritableStreamDefaultControllerErrorIfNeeded A error).
Proof. t. Qed.
#[local] Hint Resolve WritableStreamDefaultControllerErrorIfNeeded_keeps_invariant : keeps.

Lemma WritableStreamDefaultControllerAdvanceQueueIfNeeded_keeps_invariant : keeps invariant (WritableStreamDefaultControllerAdvanceQueueIfNeeded A).
Proof. t. Qed.
#[local] Hint Resolve WritableStreamDefaultControllerAdvanceQueueIfNeeded_keeps_invariant : keeps.

Lemma WritableStreamDefaultControllerClose_keeps_invariant : keeps invariant (WritableStreamDefaultControllerClose A).
Proof. t. Qed.
#[local] Hint Resolve WritableStreamDefaultControllerClose_keeps_invariant : keeps.

Lemma WritableStreamDefaultControllerGetChunkSize_keeps_invariant chunk : keeps invariant (WritableStreamDefaultControllerGetChunkSize A chunk).
Proof. t. Qed.
#[local] Hint Resolve WritableStreamDefaultControllerGetChunkSize_keeps_invariant : keeps.

Lemma WritableStreamDefaultControllerWrite_keeps_invariant chunk chunkSize : keeps invariant (WritableStreamDefaultControllerWrite A chunk chunkSize).
Proof. t. Qed.
#[local] Hint Resolve WritableStreamDefaultControllerWrite_keeps_invariant : keeps.

Lemma WritableStreamAbort_keeps_invariant reason : keeps invariant (WritableStreamAbort A reason).
Proof. t. Qed.
#[local] Hint Resolve WritableStreamAbort_keeps_invariant : keeps.

Lemma WritableStreamClose_keeps_invariant : keeps invariant (WritableStreamClose A).
Proof. t. Qed.
#[local] Hint Resolve WritableStreamClose_keeps_invariant : keeps.

Lemma WritableStreamDefaultWriterRelease_keeps_invariant writer : keeps invariant (WritableStreamDefaultWriterRelease writer).
Proof. t. Qed.
#[local] Hint Resolve WritableStreamDefaultWriterRelease_keeps_invariant : keeps.

Lemma WritableStreamDefaultWriterWrite_keeps_invariant writer chunk : keeps invariant (WritableStreamDefaultWriterWrite A writer chunk).
Proof. t. Qed.
#[local] Hint Resolve WritableStreamDefaultWriterWrite_keeps_invariant : keeps.

Lemma WritableStreamDefaultWriter_constructor_keeps_invariant : keeps invariant (WritableStreamDefaultWriter_constructor).
Proof. t. Qed.
#[local] Hint Resolve WritableStreamDefaultWriter_constructor_keeps_invariant : keeps.

Lemma WritableStreamDefaultWriter_abort_keeps_invariant this reason : keeps invariant (WritableStreamDefaultWriter_abort A this reason).
Proof. t. Qed.
#[local] Hint Resolve WritableStreamDefaultWriter_abort_keeps_invariant : keeps.

Lemma WritableStreamDefaultWriter_close_keeps_invariant this : keeps invariant (WritableStreamDefaultWriter_close A this).
Proof. t. Qed.
#[local] Hint Resolve WritableStreamDefaultWriter_close_keeps_invariant : keeps.

Lemma WritableStreamDefaultWriter_releaseLock_keeps_invariant this : keeps invariant (WritableStreamDefaultWriter_releaseLock this).
Proof. t. Qed.
#[local] Hint Resolve WritableStreamDefaultWriter_releaseLock_keeps_invariant : keeps.

Lemma WritableStreamDefaultWriter_write_keeps_invariant this chunk : keeps invariant (WritableStreamDefaultWriter_write A this chunk).
Proof. t. Qed.
#[local] Hint Resolve WritableStreamDefaultWriter_write_keeps_invariant : keeps.

Lemma WritableStreamDefaultController_error_keeps_invariant e : keeps invariant (WritableStreamDefaultController_error A e).
Proof. t. Qed.
#[local] Hint Resolve WritableStreamDefaultController_error_keeps_invariant : keeps.

Lemma WritableStream_constructor_keeps_invariant underlyingSink strategy : keeps invariant (WritableStream_constructor A underlyingSink strategy).
Proof. t. Qed.
#[local] Hint Resolve WritableStream_constructor_keeps_invariant : keeps.

Lemma WritableStream_abort_keeps_invariant reason : keeps invariant (WritableStream_abort A reason).
Proof. t. Qed.
#[local] Hint Resolve WritableStream_abort_keeps_invariant : keeps.

Lemma WritableStream_close_keeps_invariant : keeps invariant (WritableStream_close A).
Proof. t. Qed.
#[local] Hint Resolve WritableStream_close_keeps_invariant : keeps.

Lemma WritableStream_getWriter_keeps_invariant : keeps invariant (WritableStream_getWriter).
Proof. t. Qed.
#[local] Hint Resolve WritableStream_getWriter_keeps_invariant : keeps.

Lemma WStart_reaction_keeps_invariant s : keeps invariant (WStart_reaction A s).
Proof. t. Qed.
#[local] Hint Resolve WStart_reaction_keeps_invariant : keeps.

Lemma WSinkWrite_reaction_keeps_invariant s : keeps invariant (WSinkWrite_reaction A s).
Proof. t. Qed.
#[local] Hint Resolve WSinkWrite_reaction_keeps_invariant : keeps.

Lemma WSinkClose_reaction_keeps_invariant s : keeps invariant (WSinkClose_reaction A s).
Proof. t. Qed.
#[local] Hint Resolve WSinkClose_reaction_keeps_invariant : keeps.

Lemma WSinkAbort_reaction_keeps_invariant abortRequest s : keeps invariant (WSinkAbort_reaction abortRequest s).
Proof. t. Qed.
#[local] Hint Resolve WSinkAbort_reaction_keeps_invariant : keeps.

Lemma ReadableStreamFulfillReadRequest_keeps_invariant chunk done : keeps invariant (ReadableStreamFulfillReadRequest chunk done).
Proof. t. Qed.
#[local] Hint Resolve ReadableStreamFulfillReadRequest_keeps_invariant : keeps.

Lemma ReadableStreamDefaultControllerCallPullIfNeeded_keeps_invariant : keeps invariant (ReadableStreamDefaultControllerCallPullIfNeeded A).
Proof. t. Qed.
#[local] Hint Resolve ReadableStreamDefaultControllerCallPullIfNeeded_keeps_invariant : keeps.

Lemma ReadableStreamDefaultControllerClose_keeps_invariant : keeps invariant (ReadableStreamDefaultControllerClose).
Proof. t. Qed.
#[local] Hint Resolve ReadableStreamDefaultControllerClose_keeps_invariant : keeps.

Lemma ReadableStreamDefaultControllerError_keeps_invariant e : keeps invariant (ReadableStreamDefaultControllerError e).
Proof. t. Qed.
#[local] Hint Resolve ReadableStreamDefaultControllerError_keeps_invariant : keeps.

Lemma ReadableStreamDefaultControllerEnqueue_keeps_invariant chunk : keeps invariant (ReadableStreamDefaultControllerEnqueue A chunk).
Proof. t. Qed.
#[local] Hint Resolve ReadableStreamDefaultControllerEnqueue_keeps_invariant : keeps.

Lemma ReadableStreamDefaultController_close_keeps_invariant : keeps invariant (ReadableStreamDefaultController_close).
Proof. t. Qed.
#[local] Hint Resolve ReadableStreamDefaultController_close_keeps_invariant : keeps.

Lemma ReadableStreamDefaultController_enqueue_keeps_invariant chunk : keeps invariant (ReadableStreamDefaultController_enqueue A chunk).
Proof. t. Qed.
#[local] Hint Resolve ReadableStreamDefaultController_enqueue_keeps_invariant : keeps.

Lemma ReadableStreamDefaultController_error_keeps_invariant e : keeps invariant (ReadableStreamDefaultController_error e).
Proof. t. Qed.
#[local] Hint Resolve ReadableStreamDefaultController_error_keeps_invariant : keeps.

Lemma ReadableStreamDefaultController_PullSteps_keeps_invariant : keeps invariant (ReadableStreamDefaultController_PullSteps A).
Proof. t. Qed.
#[local] Hint Resolve ReadableStreamDefaultController_PullSteps_keeps_invariant : keeps.

Lemma ReadableStream_constructor_keeps_invariant underlyingSource strategy : keeps invariant (ReadableStream_constructor A underlyingSource strategy).
Proof. t. Qed.
#[local] Hint Resolve ReadableStream_constructor_keeps_invariant : keeps.

Lemma ReadableStreamCancel_keeps_invariant reason : keeps invariant (ReadableStreamCancel A reason).
Proof. t. Qed.
#[local] Hint Resolve ReadableStreamCancel_keeps_invariant : keeps.

Lemma ReadableStream_cancel_keeps_invariant reason : keeps invariant (ReadableStream_cancel A reason).
Proof. t. Qed.
#[local] Hint Resolve ReadableStream_cancel_keeps_invariant : keeps.

Lemma ReadableStreamDefaultReader_constructor_keeps_invariant : keeps invariant (ReadableStreamDefaultReader_constructor).
Proof. t. Qed.
#[local] Hint Resolve ReadableStreamDefaultReader_constructor_keeps_invariant : keeps.

Lemma ReadableStream_getReader_keeps_invariant : keeps invariant (ReadableStream_getReader).
Proof. t. Qed.
#[local] Hint Resolve ReadableStream_getReader_keeps_invariant : keeps.

Lemma ReadableStreamDefaultReader_cancel_keeps_invariant this reason : keeps invariant (ReadableStreamDefaultReader_cancel A this reason).
Proof. t. Qed.
#[local] Hint Resolve ReadableStreamDefaultReader_cancel_keeps_invariant : keeps.

Lemma ReadableStreamDefaultReader_read_keeps_invariant this : keeps invariant (ReadableStreamDefaultReader_read A this).
Proof. t. Qed.
#[local] Hint Resolve ReadableStreamDefaultReader_read_keeps_invariant : keeps.

Lemma ReadableStreamDefaultReader_releaseLock_keeps_invariant this : keeps invariant (ReadableStreamDefaultReader_releaseLock this).
Proof. t. Qed.
#[local] Hint Resolve ReadableStreamDefaultReader_releaseLock_keeps_invariant : keeps.

Lemma RStart_reaction_keeps_invariant s : keeps invariant (RStart_reaction A s).
Proof. t. Qed.
#[local] Hint Resolve RStart_reaction_keeps_invariant : keeps.

Lemma RPull_reaction_keeps_invariant s : keeps invariant (RPull_reaction A s).
Proof. t. Qed.
#[local] Hint Resolve RPull_reaction_keeps_invariant : keeps.

End keeps_invariant.

#[local] Hint Resolve WritableStreamRejectCloseAndClosedPromiseIfNeeded_keeps_invariant WritableStreamFinishErroring_keeps_invariant WritableStreamStartErroring_keeps_invariant WritableStreamDealWithRejection_keeps_invariant WritableStreamFinishInFlightWriteWithError_keeps_invariant WritableStreamFinishInFlightClose_keeps_invariant WritableStreamFinishInFlightCloseWithError_keeps_invariant WritableStreamUpdateBackpressure_keeps_invariant WritableStreamDefaultControllerError_keeps_invariant WritableStreamDefaultControllerErrorIfNeeded_keeps_invariant WritableStreamDefaultControllerAdvanceQueueIfNeeded_keeps_invariant WritableStreamDefaultControllerClose_keeps_invariant WritableStreamDefaultControllerGetChunkSize_keeps_invariant WritableStreamDefaultControllerWrite_keeps_invariant WritableStreamAbort_keeps_invariant WritableStreamClose_keeps_invariant WritableStreamDefaultWriterRelease_keeps_invariant WritableStreamDefaultWriterWrite_keeps_invariant WritableStreamDefaultWriter_constructor_keeps_invariant WritableStreamDefaultWriter_abort_keeps_invariant WritableStreamDefaultWriter_close_keeps_invariant WritableStreamDefaultWriter_releaseLock_keeps_invariant WritableStreamDefaultWriter_write_keeps_invariant WritableStreamDefaultController_error_keeps_invariant WritableStream_constructor_keeps_invariant WritableStream_abort_keeps_invariant WritableStream_close_keeps_invariant WritableStream_getWriter_keeps_invariant WStart_reaction_keeps_invariant WSinkWrite_reaction_keeps_invariant WSinkClose_reaction_keeps_invariant WSinkAbort_reaction_keeps_invariant ReadableStreamFulfillReadRequest_keeps_invariant ReadableStreamDefaultControllerCallPullIfNeeded_keeps_invariant ReadableStreamDefaultControllerClose_keeps_invariant ReadableStreamDefaultControllerError_keeps_invariant ReadableStreamDefaultControllerEnqueue_keeps_invariant ReadableStreamDefaultController_close_keeps_invariant ReadableStreamDefaultController_enqueue_keeps_invariant ReadableStreamDefaultController_error_keeps_invariant ReadableStreamDefaultController_PullSteps_keeps_invariant ReadableStream_constructor_keeps_invariant ReadableStreamCancel_keeps_invariant ReadableStream_cancel_keeps_invariant ReadableStreamDefaultReader_constructor_keeps_invariant ReadableStream_getReader_keeps_invariant ReadableStreamDefaultReader_cancel_keeps_invariant ReadableStreamDefaultReader_read_keeps_invariant ReadableStreamDefaultReader_releaseLock_keeps_invariant RStart_reaction_keeps_invariant RPull_reaction_keeps_invariant : keeps.

Lemma no_algorithm_keeps_invariant c : keeps invariant (no_algorithm c).
Proof. intros w HI. exact I. Qed.
#[local] Hint Resolve no_algorithm_keeps_invariant : keeps.

Lemma TransformStreamSetBackpressure_keeps_invariant backpressure : keeps invariant (TransformStreamSetBackpressure backpressure).
Proof. t. Qed.
#[local] Hint Resolve TransformStreamSetBackpressure_keeps_invariant : keeps.

Lemma TransformStreamErrorWritableAndUnblockWrite_keeps_invariant e : keeps invariant (TransformStreamErrorWritableAndUnblockWrite e).
Proof. t. Qed.
#[local] Hint Resolve TransformStreamErrorWritableAndUnblockWrite_keeps_invariant : keeps.

Lemma TransformStreamError_keeps_invariant e : keeps invariant (TransformStreamError e).
Proof. t. Qed.
#[local] Hint Resolve TransformStreamError_keeps_invariant : keeps.

Lemma TransformStreamDefaultSourcePullAlgorithm_keeps_invariant : keeps invariant (TransformStreamDefaultSourcePullAlgorithm).
Proof. t. Qed.
#[local] Hint Resolve TransformStreamDefaultSourcePullAlgorithm_keeps_invariant : keeps.

Lemma TransformStream_cancelAlgorithm_keeps_invariant reason : keeps invariant (TransformStream_cancelAlgorithm reason).
Proof. t. Qed.
#[local] Hint Resolve TransformStream_cancelAlgorithm_keeps_invariant : keeps.

Lemma TransformStreamDefaultSource_keeps_invariant c : keeps invariant (TransformStreamDefaultSource c).
Proof. t. Qed.
#[local] Hint Resolve TransformStreamDefaultSource_keeps_invariant : keeps.

Lemma TransformStreamDefaultControllerEnqueue_keeps_invariant chunk : keeps invariant (TransformStreamDefaultControllerEnqueue chunk).
Proof. t. Qed.
#[local] Hint Resolve TransformStreamDefaultControllerEnqueue_keeps_invariant : keeps.

Lemma TransformStream_defaultTransformAlgorithm_keeps_invariant chunk : keeps invariant (TransformStream_defaultTransformAlgorithm chunk).
Proof. t. Qed.
#[local] Hint Resolve TransformStream_defaultTransformAlgorithm_keeps_invariant : keeps.

Lemma TransformStreamDefaultTransformer_keeps_invariant c : keeps invariant (TransformStreamDefaultTransformer c).
Proof. t. Qed.
#[local] Hint Resolve TransformStreamDefaultTransformer_keeps_invariant : keeps.

Lemma TransformStreamDefaultControllerPerformTransform_keeps_invariant chunk : keeps invariant (TransformStreamDefaultControllerPerformTransform chunk).
Proof. t. Qed.
#[local] Hint Resolve TransformStreamDefaultControllerPerformTransform_keeps_invariant : keeps.

Lemma TransformStreamDefaultControllerTerminate_keeps_invariant : keeps invariant (TransformStreamDefaultControllerTerminate).
Proof. t. Qed.
#[local] Hint Resolve TransformStreamDefaultControllerTerminate_keeps_invariant : keeps.

Lemma TransformStreamDefaultSinkWriteAlgorithm_keeps_invariant chunk : keeps invariant (TransformStreamDefaultSinkWriteAlgorithm chunk).
Proof. t. Qed.
#[local] Hint Resolve TransformStreamDefaultSinkWriteAlgorithm_keeps_invariant : keeps.

Lemma TransformStreamDefaultSinkAbortAlgorithm_keeps_invariant reason : keeps invariant (TransformStreamDefaultSinkAbortAlgorithm reason).
Proof. t. Qed.
#[local] Hint Resolve TransformStreamDefaultSinkAbortAlgorithm_keeps_invariant : keeps.

Lemma TransformStreamDefaultSinkCloseAlgorithm_keeps_invariant : keeps invariant (TransformStreamDefaultSinkCloseAlgorithm).
Proof. t. Qed.
#[local] Hint Resolve TransformStreamDefaultSinkCloseAlgorithm_keeps_invariant : keeps.

Lemma TransformStream_algorithms_keeps_invariant c : keeps invariant (TransformStream_algorithms c).
Proof. t. Qed.
#[local] Hint Resolve TransformStream_algorithms_keeps_invariant : keeps.

Lemma TBackpressureChange_reaction_keeps_invariant chunk s : keeps invariant (TBackpressureChange_reaction chunk s).
Proof. t. Qed.
#[local] Hint Resolve TBackpressureChange_reaction_keeps_invariant : keeps.

Lemma TPerformTransform_reaction_keeps_invariant s : keeps invariant (TPerformTransform_reaction s).
Proof. t. Qed.
#[local] Hint Resolve TPerformTransform_reaction_keeps_invariant : keeps.

Lemma TFlush_reaction_keeps_invariant s : keeps invariant (TFlush_reaction s).
Proof. t. Qed.
#[local] Hint Resolve TFlush_reaction_keeps_invariant : keeps.

Lemma TransformStream_constructor_keeps_invariant transformer writableStrategy readableStrategy : keeps invariant (TransformStream_constructor transformer writableStrategy readableStrategy).
Proof. t. Qed.
#[local] Hint Resolve TransformStream_constructor_keeps_invariant : keeps.

Lemma TransformStreamDefaultController_enqueue_keeps_invariant chunk : keeps invariant (TransformStreamDefaultController_enqueue chunk).
Proof. t. Qed.
#[local] Hint Resolve TransformStreamDefaultController_enqueue_keeps_invariant : keeps.

Lemma TransformStreamDefaultController_error_keeps_invariant reason : keeps invariant (TransformStreamDefaultController_error reason).
Proof. t. Qed.
#[local] Hint Resolve TransformStreamDefaultController_error_keeps_invariant : keeps.

Lemma TransformStreamDefaultController_terminate_keeps_invariant : keeps invariant (TransformStreamDefaultController_terminate).
Proof. t. Qed.
#[local] Hint Resolve TransformStreamDefaultController_terminate_keeps_invariant : keeps.

Lemma react_keeps_invariant r s : keeps invariant (react r s).
Proof. t_invariant. Qed.

Lemma settle_keeps_invariant p s : keeps invariant (settle p s).
Proof. t_invariant. Qed.

Lemma invariant_set_reactions rx w : invariant w -> invariant (set_reactions rx w).
Proof. by intros []. Qed.

Lemma invariant_empty_world : invariant empty_world.
Proof. by split. Qed.

Lemma step_keeps_invariant ev w w' : invariant w -> step ev w = Some w' -> invariant w'.
Proof.
  intros HI Hs. destruct ev; cbv beta iota zeta delta [step] in Hs;
    try (eapply keeps_after; [ | exact HI | exact Hs ]; solve [eauto with keeps]).
  - destruct (_ && _); [|done].
    eapply keeps_after; [ | exact HI | exact Hs ]. apply settle_keeps_invariant.
  - destruct (promise_state w p) as [s|]; [|done].
    destruct (take_reaction p (reactions w)) as [[r rest]|]; [|done].
    destruct (is_pending s); [done|].
    eapply keeps_after; [ | | exact Hs ]; [apply react_keeps_invariant|].
    by apply invariant_set_reactions.
Qed.

Lemma run_keeps_invariant evs w w' : invariant w -> run evs w = Some w' -> invariant w'.
Proof.
  revert w. induction evs as [|ev evs IH]; simpl; intros w HI Hr.
  - by simplify_eq.
  - destruct (step ev w) as [w1|] eqn:Hs; [|done].
    eapply IH; [|exact Hr]. eapply step_keeps_invariant; eauto.
Qed.

Lemma reachable_invariant w : reachable w -> invariant w.
Proof.
  induction 1 as [sink strategy w Hc|source strategy w Hc|t ws rs w Hc|ev w w' _ IH Hs].
  - eapply (keeps_after invariant); [ | apply invariant_empty_world | by rewrite Hc ].
    eauto with keeps.
  - eapply (keeps_after invariant); [ | apply invariant_empty_world | by rewrite Hc ].
    eauto with keeps.
  - eapply (keeps_after invariant); [ | apply invariant_empty_world | by rewrite Hc ].
    eauto with keeps.
  - eapply step_keeps_invariant; eauto.
Qed.

(** ** Rules and tactics of [twp]

    [twp] is total: every assertion on the way is proved, and the heap is
    followed exactly. *)

Lemma twp_bind {A B} (m : M A) (k : A -> M B) Q E w :
  twp m (fun a w' => twp (k a) Q E w') E w -> twp (bind m k) Q E w.
Proof. unfold twp, bind. by destruct (m w). Qed.

Lemma twp_ret {A} (a : A) (Q : A -> World -> Prop) E w : Q a w -> twp (ret a) Q E w.
Proof. done. Qed.

Lemma twp_throw {A} e (Q : A -> World -> Prop) (E : Value -> World -> Prop) w :
  E e w -> twp (throw e) Q E w.
Proof. done. Qed.

Lemma twp_gets {A} (f : World -> A) (Q : A -> World -> Prop) E w :
  Q (f w) w -> twp (gets f) Q E w.
Proof. done. Qed.

Lemma twp_modify f (Q : unit -> World -> Prop) E w : Q tt (f w) -> twp (modify f) Q E w.
Proof. done. Qed.

Lemma twp_assert b (Q : unit -> World -> Prop) E w :
  b = true -> Q tt w -> twp (assert b) Q E w.
Proof. by intros ->. Qed.

Lemma twp_try_catch {A} (m : M A) h Q E w :
  twp m Q (fun e w' => twp (h e) Q E w') w -> twp (try_catch m h) Q E w.
Proof. unfold twp, try_catch. by destruct (m w). Qed.

Lemma twp_the_writer i x (Q : WritableStreamDefaultWriter -> World -> Prop) E w :
  writers w !! i = Some x -> Q x w -> twp (the_writer i) Q E w.
Proof. unfold twp, the_writer. by intros ->. Qed.

Lemma twp_the_reader i x (Q : ReadableStreamDefaultReader -> World -> Prop) E w :
  readers w !! i = Some x -> Q x w -> twp (the_reader i) Q E w.
Proof. unfold twp, the_reader. by intros ->. Qed.

Lemma forEach_settle (l : list PromiseId) s w :
  forEach l (fun p => settle p s) w = Normal tt (set_heap (settle_all s l (heap w)) w).
Proof.
  revert w. induction l as [|p l IH]; intros w.
  - by destruct w.
  - simpl. unfold bind, settle at 1, modify. rewrite IH. by destruct w.
Qed.

Lemma twp_forEach_settle (l : list PromiseId) s (Q : unit -> World -> Prop) E w :
  Q tt (set_heap (settle_all s l (heap w)) w) -> twp (forEach l (fun p => settle p s)) Q E w.
Proof. unfold twp. by rewrite forEach_settle. Qed.

Lemma twp_Normal {A} (m : M A) Q w :
  twp m Q (fun _ _ => False) w -> exists a w', m w = Normal a w' /\ Q a w'.
Proof. unfold twp. destruct (m w); [eauto|done..]. Qed.


Lemma twp_wp {A} (m : M A) Q E w : twp m Q E w -> wp m Q E w.
Proof. unfold twp, wp. by destruct (m w). Qed.

(** ** Promise states *)

Lemma promise_state_new h c w :
  promise_state (set_heap (h ++ [c]) w) (length h) = Some (PromiseState_of c).
Proof. unfold promise_state. destruct w; simpl. by rewrite lookup_snoc_new. Qed.

Lemma promise_state_settle s p h w q :
  promise_state (set_heap (alter (settle_cell s) p h) w) q =
  if bool_decide (p = q)
  then match promise_state (set_heap h w) q with
       | Some Pending => Some s
       | o => o
       end
  else promise_state (set_heap h w) q.
Proof.
  unfold promise_state. destruct w; simpl. case_bool_decide as Hpq.
  - subst. rewrite list_lookup_alter_eq. destruct (h !! q) as [[[] ?]|]; done.
  - by rewrite list_lookup_alter_ne.
Qed.

Ltac wunfold :=
  unfold WritableStreamHasOperationMarkedInFlight, WritableStreamCloseQueuedOrInFlight,
    IsWritableStreamLocked, IsReadableStreamLocked, IsWritableStreamDefaultWriter,
    IsReadableStreamDefaultReader, ReadableStreamDefaultControllerCanCloseOrEnqueue,
    ReadableStreamHasDefaultReader, WritableStreamDefaultControllerGetBackpressure,
    WritableStreamDefaultControllerGetDesiredSize,
    ReadableStreamDefaultControllerGetDesiredSize.

Ltac solve_lookup :=
  wsimpl; rewrite ?list_lookup_alter_eq, ?lookup_snoc_new;
  repeat match goal with
  | H : ?l !! ?i = Some _ |- context [?l !! ?i] => rewrite H
  end;
  simpl; reflexivity.

Ltac norm_goal :=
  repeat first
    [ rewrite negb_involutive
    | rewrite orb_true_iff | rewrite andb_true_iff
    | rewrite negb_true_iff | rewrite orb_false_iff
    | rewrite andb_false_iff | rewrite negb_false_iff
    | rewrite bool_decide_eq_true | rewrite bool_decide_eq_false ].

Ltac solve_assert :=
  wunfold; wsimpl; rew_goal; simpl;
  first [ reflexivity | assumption
        | norm_goal; solve_prop
        | norm_goal;
          match goal with
          | |- ?b = _ => destruct b eqn:?; forward_hyps; first [ done | congruence ]
          end ].



Lemma twp_newPromise (Q : PromiseId -> World -> Prop) E w :
  Q (length (heap w))
    (set_heap (heap w ++ [{| PromiseState_of := Pending; PromiseIsHandled := false |}]) w) ->
  twp newPromise Q E w.
Proof. done. Qed.

Ltac simpl_decide :=
  repeat match goal with
  | |- context [bool_decide ?P] =>
      first [ rewrite (bool_decide_eq_true_2 P) by first [ done | simpl; lia ]
            | rewrite (bool_decide_eq_false_2 P) by first [ done | simpl; lia ] ]
  end.

Ltac rew_in x :=
  match goal with
  | H : ?t = ?c |- _ =>
      lazymatch t with _ _ => idtac end;
      let h := head_of c in
      first [ is_constructor h | is_var h ];
      lazymatch x with context [t] => rewrite H end
  end.

Ltac not_constructor y :=
  let h := head_of y in tryif is_constructor h then fail else idtac.

Ltac bool_atom x k :=
  lazymatch x with
  | true => fail
  | false => fail
  | negb ?a => bool_atom a k
  | andb ?a ?b => first [ bool_atom a k | bool_atom b k ]
  | orb ?a ?b => first [ bool_atom a k | bool_atom b k ]
  | defined ?y => not_constructor y; k y
  | bool_decide (?a = _) => not_constructor a; k a
  | _ => k x
  end.

Ltac twp_case x :=
  first
    [ rew_in x
    | bool_atom x ltac:(fun y => wp_case y)
    | wp_case x ].

Ltac twp_step :=
  lazymatch goal with
  | |- twp (bind _ _) _ _ _ => apply twp_bind
  | |- twp (ret _) _ _ _ => apply twp_ret
  | |- twp (throw _) _ _ _ => apply twp_throw
  | |- twp (not_a_function _) _ _ _ => apply twp_throw
  | |- twp (gets _) _ _ _ => apply twp_gets
  | |- twp (modify _) _ _ _ => apply twp_modify
  | |- twp newPromise _ _ _ => apply twp_newPromise
  | |- twp (assert _) _ _ _ => apply twp_assert; [ solve_assert | ]
  | |- twp (try_catch _ _) _ _ _ => apply twp_try_catch
  | |- twp (fun _ => AssertionFailed) _ _ _ => fail
  | |- twp (the_writer _) _ _ _ => eapply twp_the_writer; [ solve_lookup | ]
  | |- twp (the_reader _) _ _ _ => eapply twp_the_reader; [ solve_lookup | ]
  | |- twp (forEach _ (fun _ => rejectPromise _ _)) _ _ _ => apply twp_forEach_settle
  | |- twp (forEach _ (fun _ => resolvePromise _ _)) _ _ _ => apply twp_forEach_settle
  | |- twp (forEach _ (fun _ => settle _ _)) _ _ _ => apply twp_forEach_settle
  | |- twp (if ?b then _ else _) _ _ _ => twp_case b
  | |- twp (match ?x with _ => _ end) _ _ _ => twp_case x
  | |- twp ?m _ _ _ => let h := head_of m in unfold h
  end; lazy beta zeta; wunfold; wsimpl; simpl_decide; wsimpl.

Ltac twp_run := repeat twp_step.

Ltac rew_all :=
  repeat match goal with
  | H : ?t = ?c |- context [?t] =>
      lazymatch t with _ _ => idtac end;
      let h := head_of c in
      first [ is_constructor h | is_var h ];
      rewrite H
  end.

Ltac solve_promise_state :=
  unfold promise_state; wsimpl;
  repeat first
    [ rewrite lookup_snoc_new
    | rewrite lookup_snoc_at by len
    | rewrite list_lookup_alter_eq
    | rewrite lookup_snoc_old by len
    | rewrite list_lookup_alter_ne by len ];
  simpl.

Ltac twp_leaf :=
  repeat split;
  rewrite ?length_alter;
  try solve_promise_state;
  wunfold; wsimpl; rew_all; simpl;
  first [ done | solve_prop ].

(** The facts of the invariant, under names of their own. *)
Ltac use_invariant H :=
  pose proof (inv_abort _ H) as Iabort;
  pose proof (inv_close _ H) as Iclose;
  pose proof (inv_inFlightClose _ H) as IinFlightClose;
  pose proof (inv_storedError _ H) as IstoredError;
  pose proof (inv_writer _ H) as Iwriter;
  pose proof (inv_reader _ H) as Ireader;
  pose proof (inv_pullAgain _ H) as IpullAgain;
  clear H;
  unfold writer_invariant, closedPromise_consistent, readyPromise_consistent in *.

(** * The claims of the specification *)

(** ** Scenarios are reachable *)

Lemma reachable_run evs w w' : reachable w -> run evs w = Some w' -> reachable w'.
Proof.
  revert w. induction evs as [|ev evs IH]; simpl; intros w Hr Hrun.
  - by simplify_eq.
  - destruct (step ev w) as [w1|] eqn:Hs; [|done].
    eapply IH; [|exact Hrun]. by eapply reachable_step.
Qed.

Lemma run_writable_reachable underlyingSink strategy evs w :
  run_writable underlyingSink strategy evs = Some w -> reachable w.
Proof.
  unfold run_writable.
  destruct (WritableStream_constructor _ _ _ _) as [[] w0| |] eqn:Hc; [|done..].
  apply reachable_run. by eapply reachable_writable.
Qed.

Lemma run_readable_reachable underlyingSource strategy evs w :
  run_readable underlyingSource strategy evs = Some w -> reachable w.
Proof.
  unfold run_readable.
  destruct (ReadableStream_constructor _ _ _ _) as [[] w0| |] eqn:Hc; [|done..].
  apply reachable_run. by eapply reachable_readable.
Qed.

Lemma run_transform_reachable transformer writableStrategy readableStrategy evs w :
  run_transform transformer writableStrategy readableStrategy evs = Some w -> reachable w.
Proof.
  unfold run_transform.
  destruct (TransformStream_constructor _ _ _ _) as [[] w0| |] eqn:Hc; [|done..].
  apply reachable_run. by eapply reachable_transform.
Qed.

Lemma new_writable_world_reachable : reachable new_writable_world.
Proof.
  apply (run_writable_reachable sink_with_all_methods default_strategy []).
  vm_compute. reflexivity.
Qed.

Lemma aborted_writable_world_reachable : reachable aborted_writable_world.
Proof.
  apply (run_writable_reachable sink_with_all_methods default_strategy
              [WritableStream_abort_ev (JSString "reason")]).
  vm_compute. reflexivity.
Qed.

Lemma abort_during_close_world_reachable : reachable abort_during_close_world.
Proof.
  apply (run_writable_reachable sink_with_all_methods default_strategy
              [ WritableStream_getWriter_ev; EvSettle 0 (Fulfilled undefined); EvReact 0;
                Writer_close_ev 0; Writer_abort_ev 0 (JSString "reason") ]).
  vm_compute. reflexivity.
Qed.


Lemma throwing_size_closing_world_reachable : reachable throwing_size_closing_world.
Proof.
  apply (run_writable_reachable sink_with_all_methods throwing_strategy
              [WritableStream_getWriter_ev; Writer_close_ev 0]).
  vm_compute. reflexivity.
Qed.


Lemma waiting_reader_world_reachable : reachable waiting_reader_world.
Proof.
  apply (run_readable_reachable source_with_all_methods default_strategy
              [ReadableStream_getReader_ev; Reader_read_ev 0]).
  vm_compute. reflexivity.
Qed.



Lemma flushing_world_reachable : reachable flushing_world.
Proof.
  apply (run_transform_reachable transformer_with_flush default_strategy
              default_strategy
              [EvReact 0; EvReact 0; WritableStream_getWriter_ev; Writer_close_ev 0]).
  vm_compute. reflexivity.
Qed.

(** ** The transform stream *)







(** ** The writable stream *)

(** C2: in a reachable world with a pending abort request, whose promise is
    pending, and a close request in flight, when the sink's close fulfils,
    the reaction returns; the stream is then closed, the promise of the abort
    request is fulfilled with undefined, the stored error is undefined, no
    abort request is pending, the sink was not called, and whatever happens
    afterwards the stream stays closed and the sink's abort is not called.
    This holds whatever the abort request's wasAlreadyErroring is. *)
Theorem close_fulfilled_while_abort_pending (A : UserCall -> M PromiseId) (w : World)
    (abortRequest : PendingAbortRequest) (closeRequest : PromiseId) (v : Value) :
  reachable w ->
  ws_pendingAbortRequest (ws w) = Some abortRequest ->
  ws_inFlightCloseRequest (ws w) = Some closeRequest ->
  promise_state w (par_promise abortRequest) = Some Pending ->
  exists w',
    WSinkClose_reaction A (Fulfilled v) w = Normal tt w' /\
    ws_state (ws w') = Wclosed /\
    promise_state w' (par_promise abortRequest) = Some (Fulfilled undefined) /\
    ws_storedError (ws w') = undefined /\
    ws_pendingAbortRequest (ws w') = None /\
    calls w' = calls w /\
    forall evs w'',
      run evs w' = Some w'' ->
      ws_state (ws w'') = Wclosed /\
      filter is_call_abort (calls w'') = filter is_call_abort (calls w).
Proof.
  intros HI%reachable_invariant Hp Hc Hs.
  cut (twp (WSinkClose_reaction A (Fulfilled v))
         (fun _ w' =>
            ws_state (ws w') = Wclosed /\
            promise_state w' (par_promise abortRequest) = Some (Fulfilled undefined) /\
            ws_storedError (ws w') = undefined /\
            ws_pendingAbortRequest (ws w') = None /\
            calls w' = calls w)
         (fun _ _ => False) w).
  { intros ([] & w' & Heq & Hst' & ? & ? & ? & Hcalls)%twp_Normal.
    exists w'. repeat (split; [done|]).
    intros evs w'' Hrun.
    apply (run_keeps_quiet (no_abort (filter is_call_abort (calls w))) _ _ _) in Hrun;
      [done|].
    split; [done|by rewrite Hcalls]. }
  use_invariant HI.
  assert (ws_state (ws w) = Werroring) as Hst by (apply Iabort; by rewrite Hp).
  unfold promise_state in Hs.
  destruct (heap w !! par_promise abortRequest) as [[s h]|] eqn:Hcell; simplify_eq/=.
  destruct (ws_writer (ws w)) as [writer|] eqn:Hwr.
  - destruct (Iwriter _ eq_refl) as (x & Hx & Hown & Hcl & Hrd & Hpend).
    destruct x as [own cp cpr cpj cps rp rpr rpj rps]; simpl in *.
    subst own. specialize (Hpend (or_intror Hst)). subst cps.
    rewrite bool_decide_eq_true_2 in Hcl by done. destruct Hcl as [Hcl1 Hcl2].
    destruct cpr as [cpr|]; [|done]. destruct cpj as [cpj|]; [|done].
    twp_run. repeat split; try done.
    unfold promise_state; wsimpl. rewrite !list_lookup_alter.
    repeat case_decide; subst; rewrite ?Hcell; done.
  - twp_run. repeat split; try done.
    unfold promise_state; wsimpl. rewrite !list_lookup_alter.
    repeat case_decide; subst; rewrite ?Hcell; done.
Qed.

Lemma close_fulfilled_while_abort_pending_witness :
  exists w',
    WSinkClose_reaction TransformStream_algorithms (Fulfilled undefined)
      abort_during_close_world = Normal tt w' /\
    ws_state (ws w') = Wclosed /\
    promise_state w' 5 = Some (Fulfilled undefined) /\
    calls w' = calls abort_during_close_world.
Proof.
  destruct (close_fulfilled_while_abort_pending TransformStream_algorithms
              abort_during_close_world
              {| par_promise := 5; par_reason := JSString "reason";
                 par_wasAlreadyErroring := false |} 3 undefined)
    as (w' & Heq & Hst & Hp & _ & _ & Hcalls & _).
  - apply abort_during_close_world_reachable.
  - vm_compute. reflexivity.
  - vm_compute. reflexivity.
  - vm_compute. reflexivity.
  - exists w'. repeat split; assumption.
Defined.

(** C7: in a reachable world, aborting a writable stream that is closed or
    errored returns a new promise that is fulfilled with undefined, and
    leaves the stream as it is; while an abort request is pending, aborting
    returns the promise of that request and leaves the world as it is; and
    aborting a stream that is erroring, with no abort request pending,
    records a request with wasAlreadyErroring true and the reason undefined,
    whose promise is new and pending. *)
Theorem abort_settlements (A : UserCall -> M PromiseId) (reason : Value) (w : World) :
  reachable w ->
  (ws_state (ws w) = Wclosed \/ ws_state (ws w) = Werrored ->
   exists w',
     WritableStreamAbort A reason w = Normal (length (heap w)) w' /\
     promise_state w' (length (heap w)) = Some (Fulfilled undefined) /\
     ws w' = ws w /\ wc w' = wc w /\ calls w' = calls w) /\
  (forall abortRequest,
     ws_pendingAbortRequest (ws w) = Some abortRequest ->
     WritableStreamAbort A reason w = Normal (par_promise abortRequest) w) /\
  (ws_state (ws w) = Werroring -> ws_pendingAbortRequest (ws w) = None ->
   exists w',
     WritableStreamAbort A reason w = Normal (length (heap w)) w' /\
     ws_pendingAbortRequest (ws w') =
       Some {| par_promise := length (heap w); par_reason := undefined;
               par_wasAlreadyErroring := true |} /\
     promise_state w' (length (heap w)) = Some Pending /\
     ws_state (ws w') = Werroring /\ ws_storedError (ws w') = ws_storedError (ws w) /\
     calls w' = calls w).
Proof.
  intros HI%reachable_invariant. use_invariant HI. repeat split.
  - intros Hst.
    cut (twp (WritableStreamAbort A reason)
           (fun p w' => p = length (heap w) /\
              promise_state w' p = Some (Fulfilled undefined) /\
              ws w' = ws w /\ wc w' = wc w /\ calls w' = calls w)
           (fun _ _ => False) w).
    { intros (p & w' & Heq & -> & ?)%twp_Normal. eauto. }
    destruct Hst as [Hst|Hst]; twp_run; twp_leaf.
  - intros abortRequest Hp.
    cut (twp (WritableStreamAbort A reason)
           (fun p w' => p = par_promise abortRequest /\ w' = w) (fun _ _ => False) w).
    { intros (p & w' & Heq & -> & ->)%twp_Normal. done. }
    assert (ws_state (ws w) = Werroring) as Hst by (apply Iabort; by rewrite Hp).
    twp_run; twp_leaf.
  - intros Hst Hp.
    cut (twp (WritableStreamAbort A reason)
           (fun p w' => p = length (heap w) /\
              ws_pendingAbortRequest (ws w') =
                Some {| par_promise := length (heap w); par_reason := undefined;
                        par_wasAlreadyErroring := true |} /\
              promise_state w' (length (heap w)) = Some Pending /\
              ws_state (ws w') = Werroring /\
              ws_storedError (ws w') = ws_storedError (ws w) /\
              calls w' = calls w)
           (fun _ _ => False) w).
    { intros (p & w' & Heq & -> & ?)%twp_Normal. eauto. }
    twp_run; twp_leaf.
Qed.

Lemma abort_settlements_witness :
  WritableStreamAbort TransformStream_algorithms undefined abort_during_close_world
    = Normal 5 abort_during_close_world.
Proof.
  destruct (abort_settlements TransformStream_algorithms undefined
              abort_during_close_world abort_during_close_world_reachable)
    as (_ & Hshared & _).
  apply (Hshared {| par_promise := 5; par_reason := JSString "reason";
                    par_wasAlreadyErroring := false |}).
  vm_compute. reflexivity.
Defined.




(** C9: while the writable stream is not in the state writable, the
    [error(e)] method of its controller returns and leaves the world as it
    is: the state, the stored error, the queue and its total size, and every
    promise. *)
Theorem controller_error_is_noop_unless_writable (A : UserCall -> M PromiseId)
    (e : Value) (w : World) :
  ws_state (ws w) <> Wwritable ->
  WritableStreamDefaultController_error A e w = Normal tt w.
Proof.
  intros Hst. unfold WritableStreamDefaultController_error, bind, gets.
  by rewrite bool_decide_eq_false_2.
Qed.

Lemma controller_error_is_noop_unless_writable_witness :
  WritableStreamDefaultController_error TransformStream_algorithms (JSString "e")
    aborted_writable_world = Normal tt aborted_writable_world.
Proof.
  apply (controller_error_is_noop_unless_writable TransformStream_algorithms
           (JSString "e") aborted_writable_world).
  vm_compute. discriminate.
Defined.

(** C10: the constructor of a writer, on a writable stream that is not
    locked, returns the new writer, which holds the lock, and its two
    promises are as the state of the stream calls for: errored, both
    rejected with the stored error; closed, both fulfilled with undefined;
    erroring, ready rejected with the stored error and closed pending;
    writable, closed pending, and ready pending if and only if backpressure
    is true and no close request is queued or in flight, and fulfilled with
    undefined otherwise. *)
Theorem writer_constructor_settlements (w : World) :
  IsWritableStreamLocked w = false ->
  exists w' x,
    WritableStreamDefaultWriter_constructor w = Normal (length (writers w)) w' /\
    ws_writer (ws w') = Some (length (writers w)) /\
    writers w' !! length (writers w) = Some x /\
    let ready := promise_state w' (wr_readyPromise x) in
    let closed := promise_state w' (wr_closedPromise x) in
    let storedError := ws_storedError (ws w) in
    match ws_state (ws w) with
    | Werrored => ready = Some (Rejected storedError) /\ closed = Some (Rejected storedError)
    | Wclosed => ready = Some (Fulfilled undefined) /\ closed = Some (Fulfilled undefined)
    | Werroring => ready = Some (Rejected storedError) /\ closed = Some Pending
    | Wwritable =>
        closed = Some Pending /\
        ready = if ws_backpressure (ws w) && negb (WritableStreamCloseQueuedOrInFlight w)
                then Some Pending else Some (Fulfilled undefined)
    end.
Proof.
  intros Hl.
  cut (twp WritableStreamDefaultWriter_constructor
         (fun this w' => this = length (writers w) /\
            ws_writer (ws w') = Some (length (writers w)) /\
            exists x, writers w' !! length (writers w) = Some x /\
              let ready := promise_state w' (wr_readyPromise x) in
              let closed := promise_state w' (wr_closedPromise x) in
              let storedError := ws_storedError (ws w) in
              match ws_state (ws w) with
              | Werrored =>
                  ready = Some (Rejected storedError) /\ closed = Some (Rejected storedError)
              | Wclosed =>
                  ready = Some (Fulfilled undefined) /\ closed = Some (Fulfilled undefined)
              | Werroring => ready = Some (Rejected storedError) /\ closed = Some Pending
              | Wwritable =>
                  closed = Some Pending /\
                  ready = if ws_backpressure (ws w) &&
                             negb (WritableStreamCloseQueuedOrInFlight w)
                          then Some Pending else Some (Fulfilled undefined)
              end)
         (fun _ _ => False) w).
  { intros (this & w' & Heq & -> & ? & x & ? & ?)%twp_Normal. eauto 10. }
  wunfold_in Hl. wunfold.
  twp_run.
  all: split; [done|]; split; [done|]; eexists; split; [solve_lookup|]; simpl.
  all: split; solve_promise_state; rewrite ?andb_false_r; done.
Qed.

Lemma writer_constructor_settlements_witness :
  exists w' x,
    WritableStreamDefaultWriter_constructor aborted_writable_world = Normal 0 w' /\
    writers w' !! 0 = Some x /\
    promise_state w' (wr_readyPromise x) = Some (Rejected (JSString "reason")) /\
    promise_state w' (wr_closedPromise x) = Some Pending.
Proof.
  destruct (writer_constructor_settlements aborted_writable_world)
    as (w' & x & Heq & _ & Hx & Hready & Hclosed).
  - vm_compute. reflexivity.
  - exists w', x. repeat split; assumption.
Defined.

(** ** The readable stream *)

(** C4: in a reachable world the should-pull predicate returns, leaves the
    world as it is, and what it returns is the spec's should-pull: true if
    and only if the controller can still close or enqueue, it has started,
    and the stream is locked with at least one read request pending or the
    high-water mark minus the total size of the queue is greater than 0. *)
Theorem ShouldCallPull_is_should_pull_spec (w : World) :
  reachable w ->
  ReadableStreamDefaultControllerShouldCallPull w = Normal (should_pull_spec w) w.
Proof.
  intros HI%reachable_invariant.
  cut (twp ReadableStreamDefaultControllerShouldCallPull
         (fun b w' => w' = w /\ b = should_pull_spec w) (fun _ _ => False) w).
  { unfold twp. destruct (ReadableStreamDefaultControllerShouldCallPull w); [|done..].
    by intros [-> ->]. }
  use_invariant HI.
  destruct (rs_reader (rs w)) as [reader|] eqn:Hreader.
  - destruct (Ireader _ eq_refl) as [x Hx].
    unfold should_pull_spec, pending_read_requests. wunfold. rewrite Hreader, Hx.
    twp_run.
    all: split; [done|]; simpl; done.
  - unfold should_pull_spec, pending_read_requests. wunfold. rewrite Hreader.
    twp_run.
    all: split; [done|]; simpl; done.
Qed.

Lemma ShouldCallPull_is_should_pull_spec_witness :
  ReadableStreamDefaultControllerShouldCallPull waiting_reader_world
    = Normal (should_pull_spec waiting_reader_world) waiting_reader_world.
Proof.
  apply (ShouldCallPull_is_should_pull_spec waiting_reader_world).
  apply waiting_reader_world_reachable.
Defined.





(** * Further properties of the code *)

(** ** More scenarios are reachable *)

Lemma started_writer_world_reachable : reachable started_writer_world.
Proof.
  apply (run_writable_reachable sink_with_all_methods default_strategy
           [WritableStream_getWriter_ev; EvSettle 0 (Fulfilled undefined); EvReact 0]).
  vm_compute. reflexivity.
Qed.

Lemma closed_writable_world_reachable : reachable closed_writable_world.
Proof.
  apply (run_writable_reachable sink_with_all_methods default_strategy
           [ WritableStream_getWriter_ev; EvSettle 0 (Fulfilled undefined); EvReact 0;
             Writer_close_ev 0; EvSettle 4 (Fulfilled undefined); EvReact 4 ]).
  vm_compute. reflexivity.
Qed.

Lemma pulling_again_world_reachable : reachable pulling_again_world.
Proof.
  apply (run_readable_reachable source_with_all_methods default_strategy
           [ EvSettle 0 (Fulfilled undefined); EvReact 0;
             ReadableStream_getReader_ev; Reader_read_ev 0 ]).
  vm_compute. reflexivity.
Qed.

(** ** Promises that are settled when they are made *)

Lemma promiseRejectedWith_eq r w :
  promiseRejectedWith r w
    = Normal (length (heap w)) (with_settled_promise (Rejected r) w).
Proof.
  unfold promiseRejectedWith, rejectPromise, settle, newPromise, modify, ret, bind,
    with_settled_promise.
  destruct w; simpl. by rewrite alter_snoc_new.
Qed.

Lemma promiseResolvedWith_eq v w :
  promiseResolvedWith v w
    = Normal (length (heap w)) (with_settled_promise (Fulfilled v) w).
Proof.
  unfold promiseResolvedWith, resolvePromise, settle, newPromise, modify, ret, bind,
    with_settled_promise.
  destruct w; simpl. by rewrite alter_snoc_new.
Qed.

(** ** What holds in every reachable world *)

(** X1: in every reachable world, an abort request is pending only while the
    writable stream is erroring. *)
Theorem pending_abort_only_while_erroring (w : World) :
  reachable w ->
  defined (ws_pendingAbortRequest (ws w)) = true ->
  ws_state (ws w) = Werroring.
Proof. intros HI%reachable_invariant. exact (inv_abort w HI). Qed.

Lemma pending_abort_only_while_erroring_witness :
  ws_state (ws abort_during_close_world) = Werroring.
Proof.
  apply (pending_abort_only_while_erroring abort_during_close_world).
  - apply abort_during_close_world_reachable.
  - vm_compute. reflexivity.
Defined.

(** X2: in every reachable world, the close request of the writable stream
    is queued or in flight, never both. *)
Theorem close_request_queued_or_in_flight (w : World) :
  reachable w ->
  defined (ws_closeRequest (ws w)) = true ->
  ws_inFlightCloseRequest (ws w) = None.
Proof.
  intros HI%reachable_invariant Hc. pose proof (inv_close w HI Hc) as H.
  by destruct (ws_inFlightCloseRequest (ws w)).
Qed.

Lemma close_request_queued_or_in_flight_witness :
  ws_inFlightCloseRequest (ws throwing_size_closing_world) = None.
Proof.
  apply (close_request_queued_or_in_flight throwing_size_closing_world).
  - apply throwing_size_closing_world_reachable.
  - vm_compute. reflexivity.
Defined.

(** X3: in every reachable world, while the sink works on the close the
    writable stream is writable or erroring: it is closed or errored only
    once the close has ended. *)
Theorem close_in_flight_only_while_open (w : World) :
  reachable w ->
  defined (ws_inFlightCloseRequest (ws w)) = true ->
  ws_state (ws w) = Wwritable \/ ws_state (ws w) = Werroring.
Proof. intros HI%reachable_invariant. exact (inv_inFlightClose w HI). Qed.

Lemma close_in_flight_only_while_open_witness :
  ws_state (ws abort_during_close_world) = Wwritable \/
  ws_state (ws abort_during_close_world) = Werroring.
Proof.
  apply (close_in_flight_only_while_open abort_during_close_world).
  - apply abort_during_close_world_reachable.
  - vm_compute. reflexivity.
Defined.

(** X4: in every reachable world, the stored error of a writable stream in
    the state writable is undefined. *)
Theorem stored_error_undefined_while_writable (w : World) :
  reachable w ->
  ws_state (ws w) = Wwritable ->
  ws_storedError (ws w) = undefined.
Proof.
  intros HI%reachable_invariant Hs. pose proof (inv_storedError w HI Hs) as H.
  by destruct (ws_storedError (ws w)).
Qed.

Lemma stored_error_undefined_while_writable_witness :
  ws_storedError (ws started_writer_world) = undefined.
Proof.
  apply (stored_error_undefined_while_writable started_writer_world).
  - apply started_writer_world_reachable.
  - vm_compute. reflexivity.
Defined.

(** X5: in every reachable world, the writer that holds the lock of the
    writable stream exists and is attached to the stream, and its closed
    promise is pending while the stream is writable or erroring. *)
Theorem lock_holder_is_an_attached_writer (w : World) (writer : WriterId) :
  reachable w ->
  ws_writer (ws w) = Some writer ->
  exists x,
    writers w !! writer = Some x /\
    wr_ownerWritableStream x = true /\
    (ws_state (ws w) = Wwritable \/ ws_state (ws w) = Werroring ->
     wr_closedPromiseState x = closed_pending /\
     defined (wr_closedPromise_resolve x) = true /\
     defined (wr_closedPromise_reject x) = true).
Proof.
  intros HI%reachable_invariant Hw.
  destruct (inv_writer w HI writer Hw) as (x & Hx & Ho & Hc & _ & Hp).
  exists x. split; [done|]. split; [done|]. intros Hs. specialize (Hp Hs).
  unfold closedPromise_consistent in Hc. rewrite Hp in Hc.
  by rewrite bool_decide_eq_true_2 in Hc.
Qed.

Lemma lock_holder_is_an_attached_writer_witness :
  exists x,
    writers started_writer_world !! 0 = Some x /\
    wr_ownerWritableStream x = true /\
    wr_closedPromiseState x = closed_pending.
Proof.
  destruct (lock_holder_is_an_attached_writer started_writer_world 0)
    as (x & Hx & Ho & Hp).
  - apply started_writer_world_reachable.
  - vm_compute. reflexivity.
  - exists x. split; [done|]. split; [done|]. apply Hp. left. vm_compute. reflexivity.
Defined.

(** X6: in every reachable world, the controller of the readable stream
    asks for a further pull only while a pull is in flight. *)
Theorem pullAgain_only_while_pulling (w : World) :
  reachable w ->
  rc_pullAgain (rc w) = true ->
  rc_pulling (rc w) = true.
Proof. intros HI%reachable_invariant. exact (inv_pullAgain w HI). Qed.

Lemma pullAgain_only_while_pulling_witness : rc_pulling (rc pulling_again_world) = true.
Proof.
  apply (pullAgain_only_while_pulling pulling_again_world).
  - apply pulling_again_world_reachable.
  - vm_compute. reflexivity.
Defined.

(** ** What never happens again *)

(** X7: a writable stream that is closed stays closed, whatever happens, and
    the sink's [abort] is called no more. *)
Theorem closed_writable_stream_stays_closed (evs : list Event) (w w' : World) :
  ws_state (ws w) = Wclosed ->
  run evs w = Some w' ->
  ws_state (ws w') = Wclosed /\
  filter is_call_abort (calls w') = filter is_call_abort (calls w).
Proof.
  intros Hs Hr.
  apply (run_keeps_quiet (no_abort (filter is_call_abort (calls w))) evs w w'); [|done].
  by split.
Qed.

Lemma closed_writable_stream_stays_closed_witness :
  exists w',
    run [Writer_abort_ev 0 (JSString "late"); Writer_write_ev 0 (JSString "chunk")]
      closed_writable_world = Some w' /\
    ws_state (ws w') = Wclosed /\
    filter is_call_abort (calls w') = filter is_call_abort (calls closed_writable_world).
Proof.
  eexists. split; [vm_compute; reflexivity|].
  apply (closed_writable_stream_stays_closed
           [Writer_abort_ev 0 (JSString "late"); Writer_write_ev 0 (JSString "chunk")]
           closed_writable_world); vm_compute; reflexivity.
Defined.

(** X8: a writable stream that has left the state writable does not come
    back to it, whatever happens, and the sink's [write] is called no
    more. *)
Theorem writable_state_never_comes_back (evs : list Event) (w w' : World) :
  ws_state (ws w) <> Wwritable ->
  run evs w = Some w' ->
  ws_state (ws w') <> Wwritable /\
  filter is_call_write (calls w') = filter is_call_write (calls w).
Proof.
  intros Hs Hr.
  apply (run_keeps_quiet (no_write (filter is_call_write (calls w))) evs w w'); [|done].
  by split.
Qed.

Lemma writable_state_never_comes_back_witness :
  exists w',
    run [WritableStream_getWriter_ev; Writer_write_ev 0 (JSString "chunk")]
      aborted_writable_world = Some w' /\
    ws_state (ws w') <> Wwritable /\
    filter is_call_write (calls w') = filter is_call_write (calls aborted_writable_world).
Proof.
  eexists. split; [vm_compute; reflexivity|].
  apply (writable_state_never_comes_back
           [WritableStream_getWriter_ev; Writer_write_ev 0 (JSString "chunk")]
           aborted_writable_world); [vm_compute; discriminate | vm_compute; reflexivity].
Defined.

(** X9: a readable stream that is closed stays closed, whatever happens, and
    the source's [cancel] is called no more. *)
Theorem closed_readable_stream_stays_closed (evs : list Event) (w w' : World) :
  rs_state (rs w) = Rclosed ->
  run evs w = Some w' ->
  rs_state (rs w') = Rclosed /\
  filter is_call_cancel (calls w') = filter is_call_cancel (calls w).
Proof.
  intros Hs Hr.
  apply (run_keeps_quiet (no_cancel (filter is_call_cancel (calls w))) evs w w'); [|done].
  by split.
Qed.

Lemma closed_readable_stream_stays_closed_witness :
  exists w',
    run [Reader_cancel_ev 0 (JSString "late"); ReadableController_error_ev (JSString "e")]
      closed_reader_world = Some w' /\
    rs_state (rs w') = Rclosed /\
    filter is_call_cancel (calls w') = filter is_call_cancel (calls closed_reader_world).
Proof.
  eexists. split; [vm_compute; reflexivity|].
  apply (closed_readable_stream_stays_closed
           [Reader_cancel_ev 0 (JSString "late"); ReadableController_error_ev (JSString "e")]
           closed_reader_world); vm_compute; reflexivity.
Defined.

(** ** What the methods refuse *)

(** X10: [getWriter()] on a writable stream that is locked throws a type
    error and leaves the world as it is. *)
Theorem getWriter_throws_on_a_locked_stream (w : World) :
  IsWritableStreamLocked w = true ->
  WritableStream_getWriter w
    = Throw (TypeError
        "This stream has already been locked for exclusive writing by another writer") w.
Proof.
  intros Hl.
  unfold WritableStream_getWriter, AcquireWritableStreamDefaultWriter,
    WritableStreamDefaultWriter_constructor, bind, gets.
  by rewrite Hl.
Qed.

Lemma getWriter_throws_on_a_locked_stream_witness :
  WritableStream_getWriter started_writer_world
    = Throw (TypeError
        "This stream has already been locked for exclusive writing by another writer")
        started_writer_world.
Proof.
  apply (getWriter_throws_on_a_locked_stream started_writer_world).
  vm_compute. reflexivity.
Defined.

(** X11: [abort(reason)] of a writable stream that is locked returns a new
    promise, rejected with a type error; the stream is not aborted and the
    sink is not called: but for the new promise the world is as it was. *)
Theorem stream_abort_rejects_on_a_locked_stream (A : UserCall -> M PromiseId)
    (reason : Value) (w : World) :
  IsWritableStreamLocked w = true ->
  WritableStream_abort A reason w
    = Normal (length (heap w))
        (with_settled_promise
           (Rejected (TypeError "Cannot abort a stream that already has a writer")) w).
Proof.
  intros Hl. unfold WritableStream_abort, bind, gets. rewrite Hl.
  apply promiseRejectedWith_eq.
Qed.

Lemma stream_abort_rejects_on_a_locked_stream_witness :
  WritableStream_abort TransformStream_algorithms (JSString "reason") started_writer_world
    = Normal (length (heap started_writer_world))
        (with_settled_promise
           (Rejected (TypeError "Cannot abort a stream that already has a writer"))
           started_writer_world).
Proof.
  apply (stream_abort_rejects_on_a_locked_stream TransformStream_algorithms
           (JSString "reason") started_writer_world).
  vm_compute. reflexivity.
Defined.

(** X12: [close()] of a writable stream that is locked, or that has a close
    request queued or in flight, returns a new promise, rejected with a type
    error that says which; but for the new promise the world is as it
    was. *)
Theorem stream_close_rejects_when_locked_or_closing (A : UserCall -> M PromiseId)
    (w : World) :
  IsWritableStreamLocked w || WritableStreamCloseQueuedOrInFlight w = true ->
  WritableStream_close A w
    = Normal (length (heap w))
        (with_settled_promise
           (Rejected (TypeError
              (if IsWritableStreamLocked w
               then "Cannot close a stream that already has a writer"
               else "Cannot close an already-closing stream"))) w).
Proof.
  intros H. unfold WritableStream_close, bind, gets.
  destruct (IsWritableStreamLocked w); [apply promiseRejectedWith_eq|].
  simpl in H. rewrite H. apply promiseRejectedWith_eq.
Qed.

Lemma stream_close_rejects_when_locked_or_closing_witness :
  WritableStream_close TransformStream_algorithms throwing_size_closing_world
    = Normal (length (heap throwing_size_closing_world))
        (with_settled_promise
           (Rejected (TypeError "Cannot close a stream that already has a writer"))
           throwing_size_closing_world).
Proof.
  apply (stream_close_rejects_when_locked_or_closing TransformStream_algorithms
           throwing_size_closing_world).
  vm_compute. reflexivity.
Defined.

(** X13: closing a writable stream that is closed or errored returns a new
    promise, rejected with a type error that names the state; no close
    request is queued and the sink is not called: but for the new promise
    the world is as it was. *)
Theorem WritableStreamClose_rejects_when_closed_or_errored (A : UserCall -> M PromiseId)
    (w : World) :
  ws_state (ws w) = Wclosed \/ ws_state (ws w) = Werrored ->
  WritableStreamClose A w
    = Normal (length (heap w))
        (with_settled_promise
           (Rejected (TypeError
              (String.append "The stream (in "
                 (String.append (if bool_decide (ws_state (ws w) = Wclosed)
                                 then "closed" else "errored")
                    " state) is not in the writable state and cannot be closed")))) w).
Proof.
  intros H. unfold WritableStreamClose, bind, gets.
  destruct H as [-> | ->]; simpl; apply promiseRejectedWith_eq.
Qed.

Lemma WritableStreamClose_rejects_when_closed_or_errored_witness :
  WritableStreamClose TransformStream_algorithms closed_writable_world
    = Normal (length (heap closed_writable_world))
        (with_settled_promise
           (Rejected (TypeError
              "The stream (in closed state) is not in the writable state and cannot be closed"))
           closed_writable_world).
Proof.
  apply (WritableStreamClose_rejects_when_closed_or_errored TransformStream_algorithms
           closed_writable_world).
  left. vm_compute. reflexivity.
Defined.

(** X14: a writer that has released its lock is refused: [write], [close]
    and [abort] return a new promise rejected with a type error and leave
    the rest of the world as it is, [desiredSize] throws a type error, and
    [releaseLock] returns and does nothing. *)
Theorem released_writer_is_refused (A : UserCall -> M PromiseId) (w : World)
    (this : WriterId) (x : WritableStreamDefaultWriter) (chunk reason : Value) :
  writers w !! this = Some x ->
  wr_ownerWritableStream x = false ->
  WritableStreamDefaultWriter_write A this chunk w
    = Normal (length (heap w))
        (with_settled_promise (Rejected (defaultWriterLockException "write to")) w) /\
  WritableStreamDefaultWriter_close A this w
    = Normal (length (heap w))
        (with_settled_promise (Rejected (defaultWriterLockException "close")) w) /\
  WritableStreamDefaultWriter_abort A this reason w
    = Normal (length (heap w))
        (with_settled_promise (Rejected (defaultWriterLockException "abort")) w) /\
  WritableStreamDefaultWriter_desiredSize this w
    = Throw (defaultWriterLockException "desiredSize") w /\
  WritableStreamDefaultWriter_releaseLock this w = Normal tt w.
Proof.
  intros Hx Ho.
  unfold WritableStreamDefaultWriter_write, WritableStreamDefaultWriter_close,
    WritableStreamDefaultWriter_abort, WritableStreamDefaultWriter_desiredSize,
    WritableStreamDefaultWriter_releaseLock, IsWritableStreamDefaultWriter, bind, gets,
    the_writer.
  destruct x as [o ? ? ? ? ? ? ? ?]. simpl in Ho. subst o.
  rewrite Hx. simpl. rewrite Hx. simpl.
  repeat split; apply promiseRejectedWith_eq.
Qed.

Lemma released_writer_is_refused_witness :
  WritableStreamDefaultWriter_write TransformStream_algorithms 0 (JSString "chunk")
    released_writer_world
    = Normal (length (heap released_writer_world))
        (with_settled_promise (Rejected (defaultWriterLockException "write to"))
           released_writer_world) /\
  WritableStreamDefaultWriter_releaseLock 0 released_writer_world
    = Normal tt released_writer_world.
Proof.
  destruct (released_writer_is_refused TransformStream_algorithms released_writer_world 0
              {| wr_ownerWritableStream := false;
                 wr_closedPromise := 2; wr_closedPromise_resolve := None;
                 wr_closedPromise_reject := None; wr_closedPromiseState := closed_rejected;
                 wr_readyPromise := 3; wr_readyPromise_resolve := None;
                 wr_readyPromise_reject := None; wr_readyPromiseState := ready_rejected |}
              (JSString "chunk") undefined)
    as (Hwrite & _ & _ & _ & Hrelease).
  - vm_compute. reflexivity.
  - reflexivity.
  - split; assumption.
Defined.

(** X15: while the readable stream is not in the state readable, erroring
    its controller returns and leaves the world as it is. *)
Theorem readable_controller_error_is_noop_unless_readable (e : Value) (w : World) :
  rs_state (rs w) <> Rreadable ->
  ReadableStreamDefaultControllerError e w = Normal tt w /\
  ReadableStreamDefaultController_error e w = Normal tt w.
Proof.
  intros Hs.
  unfold ReadableStreamDefaultController_error, ReadableStreamDefaultControllerError,
    bind, gets.
  by rewrite bool_decide_eq_false_2.
Qed.

Lemma readable_controller_error_is_noop_unless_readable_witness :
  ReadableStreamDefaultControllerError (JSString "late") closed_reader_world
    = Normal tt closed_reader_world /\
  ReadableStreamDefaultController_error (JSString "late") closed_reader_world
    = Normal tt closed_reader_world.
Proof.
  apply (readable_controller_error_is_noop_unless_readable (JSString "late")
           closed_reader_world).
  vm_compute. discriminate.
Defined.

(** X16: [read()] by the reader of a readable stream that is closed or
    errored marks the stream as disturbed and returns a new promise:
    fulfilled with the read result [{ value: undefined, done: true }] when
    the stream is closed, rejected with the stored error when it is errored;
    the controller is not asked and the source is not pulled. *)
Theorem read_from_a_stream_that_ended (A : UserCall -> M PromiseId) (w : World)
    (this : ReaderId) (x : ReadableStreamDefaultReader) :
  readers w !! this = Some x ->
  rd_ownerReadableStream x = true ->
  rs_state (rs w) <> Rreadable ->
  ReadableStreamDefaultReader_read A this w
    = Normal (length (heap w))
        (with_settled_promise
           (match rs_state (rs w) with
            | Rerrored => Rejected (rs_storedError (rs w))
            | _ => Fulfilled (ReadResult undefined true (rd_forAuthorCode x))
            end)
           (upd_rs (set_rs_disturbed true) w)).
Proof.
  intros Hx Ho Hs.
  unfold ReadableStreamDefaultReader_read, ReadableStreamDefaultReaderRead,
    IsReadableStreamDefaultReader, bind, gets, the_reader, assert, modify.
  destruct x as [fa o ? ? ? ?]. simpl in Ho. subst o.
  destruct w as [h rx cl s c wrs [st rdr se d] rcc rds t tcc]; simpl in *.
  repeat (rewrite Hx; simpl).
  destruct st; simpl; [done| |].
  - by rewrite promiseResolvedWith_eq.
  - by rewrite promiseRejectedWith_eq.
Qed.

Lemma read_from_a_stream_that_ended_witness :
  ReadableStreamDefaultReader_read TransformStream_algorithms 0 errored_reader_world
    = Normal (length (heap errored_reader_world))
        (with_settled_promise (Rejected (JSString "e"))
           (upd_rs (set_rs_disturbed true) errored_reader_world)).
Proof.
  apply (read_from_a_stream_that_ended TransformStream_algorithms errored_reader_world 0
           {| rd_forAuthorCode := true; rd_ownerReadableStream := true;
              rd_closedPromise := 1; rd_closedPromise_resolve := None;
              rd_closedPromise_reject := None; rd_readRequests := [] |}).
  - vm_compute. reflexivity.
  - reflexivity.
  - vm_compute. discriminate.
Defined.

(** X17: [getReader()] on a readable stream that is locked throws a type
    error and leaves the world as it is. *)
Theorem getReader_throws_on_a_locked_stream (w : World) :
  IsReadableStreamLocked w = true ->
  ReadableStream_getReader w
    = Throw (TypeError
        "This stream has already been locked for exclusive reading by another reader") w.
Proof.
  intros Hl.
  unfold ReadableStream_getReader, AcquireReadableStreamDefaultReader,
    ReadableStreamDefaultReader_constructor, bind, gets.
  by rewrite Hl.
Qed.

Lemma getReader_throws_on_a_locked_stream_witness :
  ReadableStream_getReader waiting_reader_world
    = Throw (TypeError
        "This stream has already been locked for exclusive reading by another reader")
        waiting_reader_world.
Proof.
  apply (getReader_throws_on_a_locked_stream waiting_reader_world).
  vm_compute. reflexivity.
Defined.

(** X18: once a close was requested of the controller of a readable stream,
    or the stream is not readable, the controller's [close()] and
    [enqueue(chunk)] throw a type error and leave the world as it is. *)
Theorem readable_controller_refuses_after_close (A : UserCall -> M PromiseId)
    (chunk : Value) (w : World) :
  ReadableStreamDefaultControllerCanCloseOrEnqueue w = false ->
  ReadableStreamDefaultController_close w
    = Throw (TypeError "The stream is not in a state that permits close") w /\
  ReadableStreamDefaultController_enqueue A chunk w
    = Throw (TypeError "The stream is not in a state that permits enqueue") w.
Proof.
  intros H.
  unfold ReadableStreamDefaultController_close, ReadableStreamDefaultController_enqueue,
    bind, gets.
  by rewrite H.
Qed.

Lemma readable_controller_refuses_after_close_witness :
  ReadableStreamDefaultController_close closed_reader_world
    = Throw (TypeError "The stream is not in a state that permits close")
        closed_reader_world /\
  ReadableStreamDefaultController_enqueue TransformStream_algorithms (JSString "chunk")
    closed_reader_world
    = Throw (TypeError "The stream is not in a state that permits enqueue")
        closed_reader_world.
Proof.
  apply (readable_controller_refuses_after_close TransformStream_algorithms
           (JSString "chunk") closed_reader_world).
  vm_compute. reflexivity.
Defined.

(** X19: [releaseLock()] of a reader that has read requests pending throws a
    type error and leaves the world as it is: the reader keeps the lock. *)
Theorem releaseLock_throws_with_pending_reads (w : World) (this : ReaderId)
    (x : ReadableStreamDefaultReader) :
  readers w !! this = Some x ->
  rd_ownerReadableStream x = true ->
  0 < length (rd_readRequests x) ->
  ReadableStreamDefaultReader_releaseLock this w
    = Throw (TypeError
        "Tried to release a reader lock when that reader has pending read() calls un-settled")
        w.
Proof.
  intros Hx Ho Hn.
  unfold ReadableStreamDefaultReader_releaseLock, IsReadableStreamDefaultReader, bind,
    gets, the_reader.
  destruct x as [fa o ? ? ? rq]. simpl in Ho, Hn. subst o.
  repeat (rewrite Hx; simpl). by rewrite bool_decide_eq_true_2.
Qed.

Lemma releaseLock_throws_with_pending_reads_witness :
  ReadableStreamDefaultReader_releaseLock 0 waiting_reader_world
    = Throw (TypeError
        "Tried to release a reader lock when that reader has pending read() calls un-settled")
        waiting_reader_world.
Proof.
  apply (releaseLock_throws_with_pending_reads waiting_reader_world 0
           {| rd_forAuthorCode := true; rd_ownerReadableStream := true;
              rd_closedPromise := 1; rd_closedPromise_resolve := Some 1;
              rd_closedPromise_reject := Some 1; rd_readRequests := [2] |}).
  - vm_compute. reflexivity.
  - reflexivity.
  - simpl. lia.
Defined.

(** X20: [cancel(reason)] of a readable stream that is locked returns a new
    promise, rejected with a type error; the stream is not cancelled and the
    source is not called: but for the new promise the world is as it was. *)
Theorem stream_cancel_rejects_on_a_locked_stream (A : UserCall -> M PromiseId)
    (reason : Value) (w : World) :
  IsReadableStreamLocked w = true ->
  ReadableStream_cancel A reason w
    = Normal (length (heap w))
        (with_settled_promise
           (Rejected (TypeError "Cannot cancel a stream that already has a reader")) w).
Proof.
  intros Hl. unfold ReadableStream_cancel, bind, gets. rewrite Hl.
  apply promiseRejectedWith_eq.
Qed.

Lemma stream_cancel_rejects_on_a_locked_stream_witness :
  ReadableStream_cancel TransformStream_algorithms (JSString "reason") waiting_reader_world
    = Normal (length (heap waiting_reader_world))
        (with_settled_promise
           (Rejected (TypeError "Cannot cancel a stream that already has a reader"))
           waiting_reader_world).
Proof.
  apply (stream_cancel_rejects_on_a_locked_stream TransformStream_algorithms
           (JSString "reason") waiting_reader_world).
  vm_compute. reflexivity.
Defined.

(** ** A write that the sink gets at once *)

(** X21: in a reachable world, when the writer that holds the lock writes a
    chunk to a writable stream in the state writable that has started, has
    nothing queued or in flight and no close request, and the size function
    returns a finite size that is not negative: the write returns a new
    promise, which is pending and is the write request in flight; the chunk
    is in the queue with its size; the sink's [write] was called with the
    chunk, once, and its promise is pending; the backpressure is that of the
    queue with the chunk. *)
Theorem write_reaches_the_sink (A : UserCall -> M PromiseId) (w : World)
    (writer : WriterId) (x : WritableStreamDefaultWriter) (chunk : Value)
    (f : SizeAlgorithm) (n : float) :
  reachable w ->
  ws_state (ws w) = Wwritable ->
  ws_writer (ws w) = Some writer ->
  writers w !! writer = Some x ->
  ws_backpressure (ws w) = bool_decide (wr_readyPromiseState x = ready_pending) ->
  (forall q, wr_readyPromise_resolve x = Some q -> q < length (heap w)) ->
  WritableStreamCloseQueuedOrInFlight w = false ->
  wc_started (wc w) = true ->
  wc_queue (wc w) = [] ->
  ws_writeRequests (ws w) = [] ->
  ws_inFlightWriteRequest (ws w) = None ->
  wc_strategySizeAlgorithm (wc w) = Some f ->
  f chunk = SizeReturn n ->
  IsFiniteNonNegativeNumber n = true ->
  wc_writeAlgorithm (wc w) = Some UnderlyingMethod ->
  exists p w',
    WritableStreamDefaultWriter_write A writer chunk w = Normal p w' /\
    p = length (heap w) /\
    promise_state w' p = Some Pending /\
    ws_state (ws w') = Wwritable /\
    ws_inFlightWriteRequest (ws w') = Some p /\
    ws_writeRequests (ws w') = [] /\
    wc_queue (wc w') = [{| value := WriteRecord chunk; size := n |}] /\
    wc_queueTotalSize (wc w') = (wc_queueTotalSize (wc w) + n)%float /\
    ws_backpressure (ws w')
      = (wc_strategyHWM (wc w) - (wc_queueTotalSize (wc w) + n) <=? 0)%float /\
    exists q, calls w' = calls w ++ [(call_write chunk, q)] /\
              promise_state w' q = Some Pending.
Proof.
  intros HI%reachable_invariant Hst Hwr Hx Hbp Hheap Hclosing Hstarted Hq Hrq Hif Hf Hn Hfin Halg.
  cut (twp (WritableStreamDefaultWriter_write A writer chunk)
         (fun p w' =>
            p = length (heap w) /\
            promise_state w' p = Some Pending /\
            ws_state (ws w') = Wwritable /\
            ws_inFlightWriteRequest (ws w') = Some p /\
            ws_writeRequests (ws w') = [] /\
            wc_queue (wc w') = [{| value := WriteRecord chunk; size := n |}] /\
            wc_queueTotalSize (wc w') = (wc_queueTotalSize (wc w) + n)%float /\
            ws_backpressure (ws w')
              = (wc_strategyHWM (wc w) - (wc_queueTotalSize (wc w) + n) <=? 0)%float /\
            exists q, calls w' = calls w ++ [(call_write chunk, q)] /\
                      promise_state w' q = Some Pending)
         (fun _ _ => False) w).
  { intros (p & w' & Heq & H)%twp_Normal. exists p, w'. by split. }
  use_invariant HI. wunfold_in Hclosing.
  destruct (ws_closeRequest (ws w)) eqn:Hcr; [done|].
  destruct (ws_inFlightCloseRequest (ws w)) eqn:Hicr; [done|]. clear Hclosing.
  destruct (Iwriter _ Hwr) as (x' & Hx' & Hown & Hcl & Hrd & Hpend).
  rewrite Hx in Hx'. injection Hx' as <-.
  destruct x as [own cp cpr cpj cps rp rpr rpj rps]; simpl in *.
  subst own. specialize (Hpend (or_introl Hst)). subst cps.
  rewrite bool_decide_eq_true_2 in Hcl by done. destruct Hcl as [Hcl1 Hcl2].
  destruct cpr as [cpr|]; [|done]. destruct cpj as [cpj|]; [|done].
  destruct rps; simpl in Hrd; destruct Hrd as [Hr1 Hr2];
    [destruct rpr as [rpr|]; [|done]; destruct rpj as [rpj|]; [|done];
     pose proof (Hheap _ eq_refl) | subst rpr rpj ..].
  all: clear Hheap; rewrite ?bool_decide_eq_true_2, ?bool_decide_eq_false_2 in Hbp by done.
  all: wunfold; twp_run.
  all: match goal with
       | H : EnqueueValueWithSize _ _ _ _ = _ |- _ =>
           unfold EnqueueValueWithSize in H; rewrite Hfin in H; simplify_eq
       end.
  all: try match goal with
       | H : PeekQueueValue _ = _ |- _ => vm_compute in H; simplify_eq
       end.
  all: repeat split; rewrite ?length_alter; try solve_promise_state.
  all: try (wunfold; wsimpl; rew_all; simpl; first [ done | solve_prop ]).
  all: eexists; (split; [reflexivity|]); solve_promise_state; done.
Qed.

Lemma write_reaches_the_sink_witness :
  exists w',
    WritableStreamDefaultWriter_write TransformStream_algorithms 0 (JSString "chunk")
      started_writer_world = Normal (length (heap started_writer_world)) w' /\
    promise_state w' (length (heap started_writer_world)) = Some Pending /\
    ws_inFlightWriteRequest (ws w') = Some (length (heap started_writer_world)) /\
    wc_queue (wc w') = [{| value := WriteRecord (JSString "chunk"); size := 1%float |}].
Proof.
  destruct (write_reaches_the_sink TransformStream_algorithms started_writer_world 0
              {| wr_ownerWritableStream := true;
                 wr_closedPromise := 2; wr_closedPromise_resolve := Some 2;
                 wr_closedPromise_reject := Some 2; wr_closedPromiseState := closed_pending;
                 wr_readyPromise := 1; wr_readyPromise_resolve := None;
                 wr_readyPromise_reject := None; wr_readyPromiseState := ready_fulfilled |}
              (JSString "chunk") (fun _ => SizeReturn 1%float) 1%float)
    as (p & w' & Heq & -> & Hp & _ & Hif & _ & Hq & _).
  - apply started_writer_world_reachable.
  - vm_compute. reflexivity.
  - vm_compute. reflexivity.
  - vm_compute. reflexivity.
  - vm_compute. reflexivity.
  - simpl. intros q Hq. discriminate Hq.
  - vm_compute. reflexivity.
  - vm_compute. reflexivity.
  - vm_compute. reflexivity.
  - vm_compute. reflexivity.
  - vm_compute. reflexivity.
  - vm_compute. reflexivity.
  - reflexivity.
  - vm_compute. reflexivity.
  - vm_compute. reflexivity.
  - exists w'. repeat split; assumption.
Defined.

(** ** The algorithms that erroring does not call *)

Lemma EnsureReadyPromiseRejected_wc writer e w :
  match WritableStreamDefaultWriterEnsureReadyPromiseRejected writer e w with
  | Normal _ w' | Throw _ w' => wc w' = wc w
  | AssertionFailed => True
  end.
Proof.
  unfold WritableStreamDefaultWriterEnsureReadyPromiseRejected,
    defaultWriterReadyPromiseResetToRejected, defaultWriterReadyPromiseInitializeAsRejected,
    defaultWriterReadyPromiseInitialize, defaultWriterReadyPromiseReject,
    setPromiseIsHandledToTrue, rejectPromise, settle, newPromise, not_a_function, throw,
    bind, gets, assert, modify, the_writer, ret.
  destruct w; simpl. repeat (case_match; simplify_eq/=; try done).
Qed.

Lemma FinishErroring_without_abort_algorithm (A B : UserCall -> M PromiseId) w :
  wc_abortAlgorithm (wc w) = None ->
  WritableStreamFinishErroring A w = WritableStreamFinishErroring B w.
Proof.
  intros HI.
  unfold WritableStreamFinishErroring, WritableStreamDefaultController_AbortSteps,
    WritableStreamDefaultController_ErrorSteps, invoke, rejectPromise,
    bind, gets, assert, modify.
  repeat (case_match; simplify_eq/=; try done).
  all: rewrite forEach_settle in *; unfold not_a_function, throw in *; by simplify_eq/=.
Qed.

(** X22: erroring the controller of a writable stream, if the stream is
    writable, calls none of the algorithms of the sink: what stands in the
    algorithm slots has no part in the result.  The controller's slots are
    cleared before the stream starts erroring, so that no abort algorithm is
    left to call when the erroring finishes. *)
Theorem ErrorIfNeeded_algorithms_irrelevant (A : UserCall -> M PromiseId) (e : Value)
    (w : World) :
  WritableStreamDefaultControllerErrorIfNeeded A e w
    = WritableStreamDefaultControllerErrorIfNeeded no_algorithm e w.
Proof.
  unfold WritableStreamDefaultControllerErrorIfNeeded, WritableStreamDefaultControllerError,
    WritableStreamDefaultControllerClearAlgorithms, WritableStreamStartErroring,
    bind, gets, assert, modify, when, ret.
  repeat (case_match; simplify_eq/=; try done).
  - apply FinishErroring_without_abort_algorithm.
    match goal with
    | H : WritableStreamDefaultWriterEnsureReadyPromiseRejected ?n ?e ?w1 = _ |- _ =>
        pose proof (EnsureReadyPromiseRejected_wc n e w1) as Hwc; rewrite H in Hwc
    end.
    rewrite Hwc. by destruct w0.
  - apply FinishErroring_without_abort_algorithm. by destruct w0.
Qed.

(** ** The constructors *)

(** X23: the constructor of a writable stream throws a range error when the
    underlying sink has a type, and when the high-water mark of the
    strategy is negative or not a number; the sink's [start] is not called,
    no promise is made and no reaction is registered. *)
Theorem WritableStream_constructor_range_errors (A : UserCall -> M PromiseId)
    (underlyingSink : UnderlyingSink) (strategy : QueuingStrategy) (w : World) :
  is_undefined (sink_type underlyingSink) = false \/
  IsNonNegativeNumber (default 1%float (strategy_highWaterMark strategy)) = false ->
  exists w',
    WritableStream_constructor A underlyingSink strategy w
      = Throw (RangeError
          (if is_undefined (sink_type underlyingSink)
           then "highWaterMark property of a queuing strategy must be non-negative and non-NaN"
           else "Invalid type is specified")) w' /\
    calls w' = calls w /\ heap w' = heap w /\ reactions w' = reactions w.
Proof.
  intros H.
  unfold WritableStream_constructor, InitializeWritableStream,
    ValidateAndNormalizeHighWaterMark, bind, modify, throw.
  destruct (is_undefined (sink_type underlyingSink)); simpl.
  - destruct H as [H|H]; [done|]. rewrite H. eexists. split; [done|]. by destruct w.
  - eexists. split; [done|]. by destruct w.
Qed.

Lemma WritableStream_constructor_range_errors_witness :
  exists w',
    WritableStream_constructor TransformStream_algorithms sink_with_all_methods
      {| strategy_highWaterMark := Some nan; strategy_size := None |} empty_world
      = Throw (RangeError
          "highWaterMark property of a queuing strategy must be non-negative and non-NaN")
          w' /\
    calls w' = [].
Proof.
  destruct (WritableStream_constructor_range_errors TransformStream_algorithms
              sink_with_all_methods
              {| strategy_highWaterMark := Some nan; strategy_size := None |} empty_world)
    as (w' & Heq & Hcalls & _).
  - right. vm_compute. reflexivity.
  - exists w'. split; assumption.
Defined.

(** X24: with an underlying sink without a type and a high-water mark that
    is a number and not negative (1 when the strategy has none), the
    constructor of a writable stream returns: the stream is writable and not
    locked, its queue is empty, it has not started, nothing is in flight, and
    backpressure is applied if and only if the high-water mark is not
    greater than 0.  The sink's [start] is called once if the sink has one,
    and its promise, promise 0, is pending; without [start] promise 0 is
    fulfilled with undefined.  The reaction that starts the controller waits
    on promise 0. *)
Theorem WritableStream_constructor_makes_a_writable_stream
    (underlyingSink : UnderlyingSink) (strategy : QueuingStrategy) :
  let highWaterMark := default 1%float (strategy_highWaterMark strategy) in
  is_undefined (sink_type underlyingSink) = true ->
  IsNonNegativeNumber highWaterMark = true ->
  exists w',
    WritableStream_constructor TransformStream_algorithms underlyingSink strategy
      empty_world = Normal tt w' /\
    ws_state (ws w') = Wwritable /\
    ws_writer (ws w') = None /\
    wc_queue (wc w') = [] /\
    wc_started (wc w') = false /\
    WritableStreamHasOperationMarkedInFlight w' = false /\
    WritableStreamCloseQueuedOrInFlight w' = false /\
    wc_strategyHWM (wc w') = highWaterMark /\
    ws_backpressure (ws w') = (highWaterMark - 0 <=? 0)%float /\
    calls w' = (if sink_start underlyingSink then [(call_start, 0)] else []) /\
    promise_state w' 0
      = Some (if sink_start underlyingSink then Pending else Fulfilled undefined) /\
    reactions w' = [(0, WStart)].
Proof.
  intros highWaterMark Htype Hhwm. subst highWaterMark.
  unfold WritableStream_constructor, InitializeWritableStream,
    ValidateAndNormalizeHighWaterMark, SetUpWritableStreamDefaultControllerFromUnderlyingSink,
    SetUpWritableStreamDefaultController, WritableStreamUpdateBackpressure, invoke, method,
    promiseResolvedWith, resolvePromise, settle, newPromise, uponPromise,
    bind, modify, gets, assert, throw, ret.
  rewrite Htype, Hhwm. simpl.
  destruct (sink_start underlyingSink); simpl; eexists; (split; [reflexivity|]);
    repeat split.
Qed.

Lemma WritableStream_constructor_makes_a_writable_stream_witness :
  exists w',
    WritableStream_constructor TransformStream_algorithms sink_with_all_methods
      default_strategy empty_world = Normal tt w' /\
    ws_state (ws w') = Wwritable /\
    calls w' = [(call_start, 0)] /\
    promise_state w' 0 = Some Pending.
Proof.
  destruct (WritableStream_constructor_makes_a_writable_stream sink_with_all_methods
              default_strategy)
    as (w' & Heq & Hst & _ & _ & _ & _ & _ & _ & _ & Hcalls & Hp & _).
  - reflexivity.
  - vm_compute. reflexivity.
  - exists w'. repeat split; assumption.
Defined.

(** X25: the constructor of a readable stream throws a range error when the
    underlying source has a type (byte sources are not supported here), and
    when the high-water mark of the strategy is negative or not a number;
    the source's [start] is not called, no promise is made and no reaction
    is registered. *)
Theorem ReadableStream_constructor_range_errors (A : UserCall -> M PromiseId)
    (underlyingSource : UnderlyingSource) (strategy : QueuingStrategy) (w : World) :
  is_undefined (source_type underlyingSource) = false \/
  IsNonNegativeNumber (default 1%float (strategy_highWaterMark strategy)) = false ->
  exists w',
    ReadableStream_constructor A underlyingSource strategy w
      = Throw (RangeError
          (if is_undefined (source_type underlyingSource)
           then "highWaterMark property of a queuing strategy must be non-negative and non-NaN"
           else "Invalid type is specified")) w' /\
    calls w' = calls w /\ heap w' = heap w /\ reactions w' = reactions w.
Proof.
  intros H.
  unfold ReadableStream_constructor, InitializeReadableStream,
    ValidateAndNormalizeHighWaterMark, bind, modify, throw.
  destruct (is_undefined (source_type underlyingSource)); simpl.
  - destruct H as [H|H]; [done|]. rewrite H. eexists. split; [done|]. by destruct w.
  - eexists. split; [done|]. by destruct w.
Qed.

Lemma ReadableStream_constructor_range_errors_witness :
  exists w',
    ReadableStream_constructor TransformStream_algorithms
      {| source_start := true; source_pull := true; source_cancel := true;
         source_type := JSString "bytes" |} default_strategy empty_world
      = Throw (RangeError "Invalid type is specified") w' /\
    calls w' = [].
Proof.
  destruct (ReadableStream_constructor_range_errors TransformStream_algorithms
              {| source_start := true; source_pull := true; source_cancel := true;
                 source_type := JSString "bytes" |} default_strategy empty_world)
    as (w' & Heq & Hcalls & _).
  - left. reflexivity.
  - exists w'. split; assumption.
Defined.

(** X26: with an underlying source without a type and a high-water mark that
    is a number and not negative (1 when the strategy has none), the
    constructor of a readable stream returns: the stream is readable, not
    locked and not disturbed, its queue is empty, it has not started and is
    not pulling, and no close was requested.  The source's [start] is called
    once if the source has one, and its promise, promise 0, is pending;
    without [start] promise 0 is fulfilled with undefined; [pull] is not
    called before [start] has settled.  The reaction that starts the
    controller waits on promise 0. *)
Theorem ReadableStream_constructor_makes_a_readable_stream
    (underlyingSource : UnderlyingSource) (strategy : QueuingStrategy) :
  let highWaterMark := default 1%float (strategy_highWaterMark strategy) in
  is_undefined (source_type underlyingSource) = true ->
  IsNonNegativeNumber highWaterMark = true ->
  exists w',
    ReadableStream_constructor TransformStream_algorithms underlyingSource strategy
      empty_world = Normal tt w' /\
    rs_state (rs w') = Rreadable /\
    rs_reader (rs w') = None /\
    rs_disturbed (rs w') = false /\
    rc_queue (rc w') = [] /\
    rc_started (rc w') = false /\
    rc_pulling (rc w') = false /\
    rc_pullAgain (rc w') = false /\
    rc_closeRequested (rc w') = false /\
    rc_strategyHWM (rc w') = highWaterMark /\
    calls w' = (if source_start underlyingSource then [(call_start, 0)] else []) /\
    promise_state w' 0
      = Some (if source_start underlyingSource then Pending else Fulfilled undefined) /\
    reactions w' = [(0, RStart)].
Proof.
  intros highWaterMark Htype Hhwm. subst highWaterMark.
  unfold ReadableStream_constructor, InitializeReadableStream,
    ValidateAndNormalizeHighWaterMark,
    SetUpReadableStreamDefaultControllerFromUnderlyingSource,
    SetUpReadableStreamDefaultController, invoke, method,
    promiseResolvedWith, resolvePromise, settle, newPromise, uponPromise,
    bind, modify, gets, assert, throw, ret.
  rewrite Htype, Hhwm. simpl.
  destruct (source_start underlyingSource); simpl; eexists; (split; [reflexivity|]);
    repeat split.
Qed.

Lemma ReadableStream_constructor_makes_a_readable_stream_witness :
  exists w',
    ReadableStream_constructor TransformStream_algorithms source_with_all_methods
      default_strategy empty_world = Normal tt w' /\
    rs_state (rs w') = Rreadable /\
    calls w' = [(call_start, 0)] /\
    promise_state w' 0 = Some Pending.
Proof.
  destruct (ReadableStream_constructor_makes_a_readable_stream source_with_all_methods
              default_strategy)
    as (w' & Heq & Hst & _ & _ & _ & _ & _ & _ & _ & _ & Hcalls & Hp & _).
  - reflexivity.
  - vm_compute. reflexivity.
  - exists w'. repeat split; assumption.
Defined.

(** X27: with a transformer without types and high-water marks that are
    numbers and not negative (1 for the writable side and 0 for the readable
    side when the strategies have none), the constructor of a transform
    stream returns: the writable side is writable, the readable side is
    readable, backpressure is true and its change promise, promise 1, is
    pending; the algorithms of both sides are those of the transform stream,
    and the controller has the transformer's [transform] and [flush], or the
    default transform.  The transformer's [start] is called once if it has
    one, and the start promise, promise 0, is then pending; without [start]
    promise 0 is fulfilled with undefined.  Both sides wait on promise 0 to
    start. *)
Theorem TransformStream_constructor_makes_a_transform_stream (transformer : Transformer)
    (writableStrategy readableStrategy : QueuingStrategy) :
  let writableHighWaterMark := default 1%float (strategy_highWaterMark writableStrategy) in
  let readableHighWaterMark := default 0%float (strategy_highWaterMark readableStrategy) in
  is_undefined (transformer_writableType transformer) = true ->
  is_undefined (transformer_readableType transformer) = true ->
  IsNonNegativeNumber writableHighWaterMark = true ->
  IsNonNegativeNumber readableHighWaterMark = true ->
  exists w',
    TransformStream_constructor transformer writableStrategy readableStrategy empty_world
      = Normal tt w' /\
    ws_state (ws w') = Wwritable /\
    rs_state (rs w') = Rreadable /\
    wc_strategyHWM (wc w') = writableHighWaterMark /\
    rc_strategyHWM (rc w') = readableHighWaterMark /\
    ts_backpressure (ts w') = Some true /\
    ts_backpressureChangePromise (ts w') = Some 1 /\
    promise_state w' 1 = Some Pending /\
    wc_writeAlgorithm (wc w') = Some TransformStreamAlgorithm /\
    wc_closeAlgorithm (wc w') = Some TransformStreamAlgorithm /\
    wc_abortAlgorithm (wc w') = Some TransformStreamAlgorithm /\
    rc_pullAlgorithm (rc w') = Some TransformStreamAlgorithm /\
    rc_cancelAlgorithm (rc w') = Some TransformStreamAlgorithm /\
    tc_transformAlgorithm (tc w')
      = Some (if transformer_transform transformer
              then UnderlyingMethod else TransformStreamAlgorithm) /\
    tc_flushAlgorithm (tc w') = Some (method (transformer_flush transformer)) /\
    calls w' = (if transformer_start transformer then [(call_start, 0)] else []) /\
    promise_state w' 0
      = Some (if transformer_start transformer then Pending else Fulfilled undefined) /\
    reactions w' = [(0, WStart); (0, RStart)].
Proof.
  intros writableHighWaterMark readableHighWaterMark Hwt Hrt Hwh Hrh.
  subst writableHighWaterMark readableHighWaterMark.
  unfold TransformStream_constructor, InitializeTransformStream,
    SetUpTransformStreamDefaultControllerFromTransformer,
    SetUpTransformStreamDefaultController, TransformStreamSetBackpressure,
    CreateWritableStream, CreateReadableStream,
    InitializeWritableStream, InitializeReadableStream,
    ValidateAndNormalizeHighWaterMark,
    SetUpWritableStreamDefaultController, SetUpReadableStreamDefaultController,
    WritableStreamUpdateBackpressure,
    resolvePromise, settle, newPromise, uponPromise,
    bind, modify, gets, assert, throw, ret, when.
  rewrite Hwt, Hrt, Hwh, Hrh. simpl. rewrite Hwh, Hrh. simpl.
  destruct (transformer_start transformer); simpl; eexists; (split; [reflexivity|]);
    repeat split.
Qed.

Lemma TransformStream_constructor_makes_a_transform_stream_witness :
  exists w',
    TransformStream_constructor transformer_with_flush default_strategy default_strategy
      empty_world = Normal tt w' /\
    ts_backpressure (ts w') = Some true /\
    promise_state w' 1 = Some Pending /\
    promise_state w' 0 = Some (Fulfilled undefined).
Proof.
  destruct (TransformStream_constructor_makes_a_transform_stream transformer_with_flush
              default_strategy default_strategy)
    as (w' & Heq & _ & _ & _ & _ & Hbp & _ & Hp1 & _ & _ & _ & _ & _ & _ & _ & _ & Hp0 & _).
  - reflexivity.
  - reflexivity.
  - vm_compute. reflexivity.
  - vm_compute. reflexivity.
  - exists w'. repeat split; assumption.
Defined.

(** ** Terminating, draining and releasing *)

(** The readable half of [terminate()]: a close is requested of the readable
    side if it could still be closed; the writable side and the transform
    stream are as they were. *)
Lemma terminate_closes_the_readable_side (w : World) :
  invariant w ->
  exists w1,
    when (ReadableStreamDefaultControllerCanCloseOrEnqueue w)
      ReadableStreamDefaultControllerClose w = Normal tt w1 /\
    invariant w1 /\
    ReadableStreamDefaultControllerCanCloseOrEnqueue w1 = false /\
    rs_state (rs w1) =
      (if ReadableStreamDefaultControllerCanCloseOrEnqueue w
          && bool_decide (length (rc_queue (rc w)) = 0)
       then Rclosed else rs_state (rs w)) /\
    ws w1 = ws w /\ ts w1 = ts w /\ calls w1 = calls w.
Proof.
  intros HI.
  cut (twp (when (ReadableStreamDefaultControllerCanCloseOrEnqueue w)
              ReadableStreamDefaultControllerClose)
         (fun _ w1 =>
            ReadableStreamDefaultControllerCanCloseOrEnqueue w1 = false /\
            rs_state (rs w1) =
              (if ReadableStreamDefaultControllerCanCloseOrEnqueue w
                  && bool_decide (length (rc_queue (rc w)) = 0)
               then Rclosed else rs_state (rs w)) /\
            ws w1 = ws w /\ ts w1 = ts w /\ calls w1 = calls w)
         (fun _ _ => False) w).
  { intros ([] & w1 & Heq & H)%twp_Normal. exists w1. split; [done|]. split; [|done].
    destruct (ReadableStreamDefaultControllerCanCloseOrEnqueue w); simpl in Heq.
    - by apply (keeps_after invariant ReadableStreamDefaultControllerClose w w1
                  ReadableStreamDefaultControllerClose_keeps_invariant HI); rewrite Heq.
    - unfold ret in Heq. by simplify_eq. }
  pose proof (inv_reader _ HI) as Ireader.
  destruct (rs_reader (rs w)) as [reader|] eqn:Hreader;
    [destruct (Ireader _ eq_refl) as [[fac own cp cpr cpj rq] Hx]|].
  all: unfold when; wunfold; twp_run.
  all: twp_leaf.
Qed.

(** The writable half of [terminate()], which is also what a cancel of the
    readable side and a size function that throws lead to. *)
Lemma ErrorWritableAndUnblockWrite_errors_the_writable_side (e : Value) (w : World) :
  invariant w ->
  (defined (ts_backpressureChangePromise (ts w)) = true ->
   defined (ts_backpressureChangePromise_resolve (ts w)) = true) ->
  exists w',
    TransformStreamErrorWritableAndUnblockWrite e w = Normal tt w' /\
    rs w' = rs w /\ rc w' = rc w /\
    ws_state (ws w') <> Wwritable /\
    (ws_state (ws w) = Wwritable -> ws_storedError (ws w') = e) /\
    ts_backpressure (ts w') <> Some true /\
    calls w' = calls w.
Proof.
  intros HI Hts.
  cut (twp (TransformStreamErrorWritableAndUnblockWrite e)
         (fun _ w' =>
            rs w' = rs w /\ rc w' = rc w /\
            ws_state (ws w') <> Wwritable /\
            (ws_state (ws w) = Wwritable -> ws_storedError (ws w') = e) /\
            ts_backpressure (ts w') <> Some true /\
            calls w' = calls w)
         (fun _ _ => False) w).
  { intros ([] & w' & Heq & H)%twp_Normal. exists w'. by split. }
  use_invariant HI.
  destruct (ws_state (ws w)) eqn:Hst.
  1: destruct (ws_writer (ws w)) as [writer|] eqn:Hwr;
    [destruct (Iwriter _ eq_refl) as (x & Hxw & Hown & Hcl & Hrd & Hpend);
     destruct x as [own' cp' cpr' cpj' cps rp rpr rpj rps]; simpl in *;
     subst own'; specialize (Hpend (or_introl eq_refl)); subst cps;
     rewrite bool_decide_eq_true_2 in Hcl by done; destruct Hcl as [Hcl1 Hcl2];
     destruct cpr' as [cpr'|]; [|done]; destruct cpj' as [cpj'|]; [|done];
     destruct rps; simpl in Hrd; destruct Hrd as [Hr1 Hr2];
     [destruct rpr as [rpr|]; [|done]; destruct rpj as [rpj|]; [|done] | subst rpr rpj ..]
    |].
  all: wunfold; twp_run.
  all: twp_leaf.
Qed.

(** X28: in a reachable world where the backpressure-change promise has its
    resolve function, [terminate()] of the controller of a transform stream
    returns.  The readable side takes no more chunks: a close is requested
    of it if it could still be closed, and it is closed at once when its
    queue is empty.  The writable side is not writable afterwards: one that
    was writable is erroring or errored with the type error "TransformStream
    terminated".  Backpressure is not true afterwards, and no method of the
    transformer is called. *)
Theorem terminate_closes_and_errors (w : World) :
  reachable w ->
  (defined (ts_backpressureChangePromise (ts w)) = true ->
   defined (ts_backpressureChangePromise_resolve (ts w)) = true) ->
  exists w',
    TransformStreamDefaultController_terminate w = Normal tt w' /\
    ReadableStreamDefaultControllerCanCloseOrEnqueue w' = false /\
    rs_state (rs w') =
      (if ReadableStreamDefaultControllerCanCloseOrEnqueue w
          && bool_decide (length (rc_queue (rc w)) = 0)
       then Rclosed else rs_state (rs w)) /\
    ws_state (ws w') <> Wwritable /\
    (ws_state (ws w) = Wwritable ->
     ws_storedError (ws w') = TypeError "TransformStream terminated") /\
    ts_backpressure (ts w') <> Some true /\
    calls w' = calls w.
Proof.
  intros HI%reachable_invariant Hts.
  destruct (terminate_closes_the_readable_side w HI)
    as (w1 & Heq1 & HI1 & Hcan & Hrs & Hws & Hts1 & Hcalls1).
  destruct (ErrorWritableAndUnblockWrite_errors_the_writable_side
              (TypeError "TransformStream terminated") w1 HI1)
    as (w' & Heq & Hrs' & Hrc' & Hst' & Herr & Hbp & Hcalls).
  { by rewrite Hts1. }
  exists w'.
  unfold TransformStreamDefaultController_terminate,
    TransformStreamDefaultControllerTerminate, bind, gets.
  rewrite Heq1. split; [exact Heq|].
  unfold ReadableStreamDefaultControllerCanCloseOrEnqueue in *.
  rewrite Hrs', Hrc'. split; [done|]. split; [done|]. split; [done|].
  split; [by rewrite <- Hws|]. split; [done|]. by rewrite Hcalls.
Qed.

Lemma terminate_closes_and_errors_witness :
  exists w',
    TransformStreamDefaultController_terminate flushing_world = Normal tt w' /\
    rs_state (rs w') = Rclosed /\
    ws_state (ws w') <> Wwritable.
Proof.
  destruct (terminate_closes_and_errors flushing_world)
    as (w' & Heq & _ & Hrs & Hws & _).
  - apply flushing_world_reachable.
  - vm_compute. reflexivity.
  - exists w'. split; [exact Heq|]. split; [|exact Hws].
    rewrite Hrs. vm_compute. reflexivity.
Defined.

(** X29: a close that is requested of the controller of a readable stream
    while chunks are queued waits for the queue.  [close()] only records the
    request: the stream stays readable and the chunks stay queued.  When a
    close was requested and one chunk is left, the
    [read()] of the reader that holds the lock returns a new promise,
    fulfilled with that chunk and [done: false]; the queue is then empty and
    the stream is closed; the source is not called. *)
Theorem close_waits_for_the_queue (A : UserCall -> M PromiseId) (w : World) :
  (ReadableStreamDefaultControllerCanCloseOrEnqueue w = true ->
   0 < length (rc_queue (rc w)) ->
   ReadableStreamDefaultController_close w
     = Normal tt (upd_rc (set_rc_closeRequested true) w)) /\
  (forall reader x chunk sz,
     rs_state (rs w) = Rreadable ->
     rc_closeRequested (rc w) = true ->
     rc_queue (rc w) = [{| value := chunk; size := sz |}] ->
     rs_reader (rs w) = Some reader ->
     readers w !! reader = Some x ->
     rd_ownerReadableStream x = true ->
     rd_readRequests x = [] ->
     exists w',
       ReadableStreamDefaultReader_read A reader w = Normal (length (heap w)) w' /\
       promise_state w' (length (heap w))
         = Some (Fulfilled (ReadResult chunk false (rd_forAuthorCode x))) /\
       rc_queue (rc w') = [] /\
       rs_state (rs w') = Rclosed /\
       calls w' = calls w).
Proof.
  split.
  - intros Hcan Hq.
    unfold ReadableStreamDefaultController_close, ReadableStreamDefaultControllerClose,
      bind, gets, assert, modify, when.
    rewrite Hcan. simpl. rewrite Hcan. simpl.
    destruct (rc_queue (rc w)) as [|pair queue] eqn:Hqueue; [simpl in Hq; lia|].
    destruct w as [h rx cl s c wrs rst [q t st cr pa pl sz hwm pal cal] rds tst tcc].
    simpl in *. by subst q.
  - intros reader x chunk sz Hst Hcr Hq Hreader Hx Hown Hrq.
    cut (twp (ReadableStreamDefaultReader_read A reader)
           (fun p w' =>
              p = length (heap w) /\
              promise_state w' (length (heap w))
                = Some (Fulfilled (ReadResult chunk false (rd_forAuthorCode x))) /\
              rc_queue (rc w') = [] /\
              rs_state (rs w') = Rclosed /\
              calls w' = calls w)
           (fun _ _ => False) w).
    { intros (p & w' & Heq & -> & H)%twp_Normal. exists w'. by split. }
    destruct x as [fac own cp cpr cpj rq]; simpl in *. subst own rq.
    wunfold; twp_run.
    all: match goal with
         | H : DequeueValue _ _ = _ |- _ => simpl in H; simplify_eq
         end.
    all: unfold settle_all; simpl foldl; rewrite ?length_alter.
    all: twp_leaf.
Qed.

Lemma close_waits_for_the_queue_witness :
  exists w',
    ReadableStreamDefaultReader_read TransformStream_algorithms 0 draining_world
      = Normal (length (heap draining_world)) w' /\
    promise_state w' (length (heap draining_world))
      = Some (Fulfilled (ReadResult (JSString "chunk") false true)) /\
    rs_state (rs w') = Rclosed.
Proof.
  destruct (close_waits_for_the_queue TransformStream_algorithms draining_world)
    as [_ Hread].
  destruct (Hread 0
              {| rd_forAuthorCode := true; rd_ownerReadableStream := true;
                 rd_closedPromise := 1; rd_closedPromise_resolve := Some 1;
                 rd_closedPromise_reject := Some 1; rd_readRequests := [] |}
              (JSString "chunk") 1%float)
    as (w' & Heq & Hp & _ & Hst & _).
  - vm_compute. reflexivity.
  - vm_compute. reflexivity.
  - vm_compute. reflexivity.
  - vm_compute. reflexivity.
  - vm_compute. reflexivity.
  - reflexivity.
  - reflexivity.
  - exists w'. repeat split; assumption.
Defined.

(** X30: in a reachable world, [releaseLock()] of the writer that holds the
    lock returns: the stream is not locked any more and the writer is
    detached from it; the ready promise and the closed promise of the
    writer are in the state rejected; the state of the stream, its queue and
    its requests are as they were, and the sink is not called. *)
Theorem writer_releaseLock_unlocks (w : World) (writer : WriterId) :
  reachable w ->
  ws_writer (ws w) = Some writer ->
  exists w' x',
    WritableStreamDefaultWriter_releaseLock writer w = Normal tt w' /\
    ws_writer (ws w') = None /\
    writers w' !! writer = Some x' /\
    wr_ownerWritableStream x' = false /\
    wr_readyPromiseState x' = ready_rejected /\
    wr_closedPromiseState x' = closed_rejected /\
    ws_state (ws w') = ws_state (ws w) /\
    ws_writeRequests (ws w') = ws_writeRequests (ws w) /\
    ws_closeRequest (ws w') = ws_closeRequest (ws w) /\
    wc w' = wc w /\
    calls w' = calls w.
Proof.
  intros HI%reachable_invariant Hwr.
  cut (twp (WritableStreamDefaultWriter_releaseLock writer)
         (fun _ w' =>
            ws_writer (ws w') = None /\
            (exists x', writers w' !! writer = Some x' /\
               wr_ownerWritableStream x' = false /\
               wr_readyPromiseState x' = ready_rejected /\
               wr_closedPromiseState x' = closed_rejected) /\
            ws_state (ws w') = ws_state (ws w) /\
            ws_writeRequests (ws w') = ws_writeRequests (ws w) /\
            ws_closeRequest (ws w') = ws_closeRequest (ws w) /\
            wc w' = wc w /\
            calls w' = calls w)
         (fun _ _ => False) w).
  { intros ([] & w' & Heq & ? & (x' & ? & ? & ? & ?) & ? & ? & ? & ? & ?)%twp_Normal.
    exists w', x'. repeat (split; [done|]). done. }
  use_invariant HI.
  destruct (Iwriter _ Hwr) as (x & Hx & Hown & Hcl & Hrd & _).
  destruct x as [own cp cpr cpj cps rp rpr rpj rps]; simpl in *. subst own.
  destruct cps; simpl in Hcl; destruct Hcl as [Hcl1 Hcl2];
    [destruct cpr as [cpr|]; [|done]; destruct cpj as [cpj|]; [|done] | subst cpr cpj ..].
  all: destruct rps; simpl in Hrd; destruct Hrd as [Hr1 Hr2];
    [destruct rpr as [rpr|]; [|done]; destruct rpj as [rpj|]; [|done] | subst rpr rpj ..].
  all: wunfold; twp_run.
  all: split; [done|]; split;
    [eexists; split; [solve_lookup|done] | repeat split; wsimpl; done].
Qed.

Lemma writer_releaseLock_unlocks_witness :
  exists w',
    WritableStreamDefaultWriter_releaseLock 0 started_writer_world = Normal tt w' /\
    ws_writer (ws w') = None /\
    calls w' = calls started_writer_world.
Proof.
  destruct (writer_releaseLock_unlocks started_writer_world 0)
    as (w' & x' & Heq & Hw & _ & _ & _ & _ & _ & _ & _ & _ & Hcalls).
  - apply started_writer_world_reachable.
  - vm_compute. reflexivity.
  - exists w'. repeat split; assumption.
Defined.
